(** * YourFlix catalog lookup service

    A shallow embedding of [catalog_lookup_service.py]: the Locator
    ([search_lddb_catalog_number]), the Extractor ([scrape_lddb_metadata]),
    the Enricher ([enhance_with_tmdb]) and the request handler
    ([lookup_catalog]), followed by the properties of the specification
    that concern them.

    Conventions.
    - A Python [str] is a [string]; one [ascii] is one character, so the
      model covers the characters below U+0100.  [len], slicing, [in],
      [strip], [lower], [split] and [replace] are given on that range.
    - A Python [dict] with string keys is a [gmap string pyval].
    - A block [try: ... except Exception: ...] is a computation in the
      error monad [exn + A] whose error case is mapped by the handler.
    - Everything outside the program text is a field of the record [env]:
      the three HTTP peers, the process environment, the interpreter's limit
      on the digits of a numeral, and the two library routines the service
      only passes values through.
    - The lines the service prints are left out of these four functions:
      they are the service under a standard output that takes every line.
      A [print] can raise, so the Extractor and the request handler are
      given a second time with the lines they print, over a standard output
      that may refuse a line ([scrape_lddb_metadata_io],
      [lookup_catalog_io]). *)

From Stdlib Require Import ZArith Ascii String List Lia Bool SpecFloat.
From stdpp Require Import gmap strings list fin_maps pretty.
Import ListNotations.
Local Open Scope Z_scope.

(** ** Python strings *)

Module Py.

Definition ord (c : ascii) : N := N_of_ascii c.

(** [str.isspace] on one character, also the class [\s] of [re]. *)
Definition isspace (c : ascii) : bool :=
  let n := ord c in
  ((9 <=? n) && (n <=? 13) || (28 <=? n) && (n <=? 31)
   || (n =? 32) || (n =? 133) || (n =? 160))%N.

(** The class [\d] of [re], and the digits [int] reads. *)
Definition isdigit (c : ascii) : bool :=
  let n := ord c in ((48 <=? n) && (n <=? 57))%N.

Definition digit_value (c : ascii) : Z := Z.of_N (ord c) - 48.

Definition is_empty (s : string) : bool :=
  match s with EmptyString => true | String _ _ => false end.

Fixpoint lstrip (s : string) : string :=
  match s with
  | EmptyString => EmptyString
  | String c r => if isspace c then lstrip r else s
  end.

Fixpoint rstrip (s : string) : string :=
  match s with
  | EmptyString => EmptyString
  | String c r =>
      let r' := rstrip r in
      if isspace c && is_empty r' then EmptyString else String c r'
  end.

(** [s.strip()] *)
Definition strip (s : string) : string := rstrip (lstrip s).

Definition lower_char (c : ascii) : ascii :=
  let n := ord c in
  if ((65 <=? n) && (n <=? 90)
      || (192 <=? n) && (n <=? 222) && negb (n =? 215))%N
  then ascii_of_N (n + 32) else c.

(** [s.lower()] *)
Fixpoint lower (s : string) : string :=
  match s with
  | EmptyString => EmptyString
  | String c r => String (lower_char c) (lower r)
  end.

(** [s.startswith(p)] *)
Definition startswith (p s : string) : bool := String.prefix p s.

(** [sub in s] *)
Fixpoint contains (sub s : string) : bool :=
  String.prefix sub s
  || match s with
     | EmptyString => false
     | String _ r => contains sub r
     end.

(** [s[:n]] *)
Fixpoint take (n : nat) (s : string) : string :=
  match n, s with
  | S k, String c r => String c (take k r)
  | _, _ => EmptyString
  end.

(** [s[n:]] *)
Fixpoint drop (n : nat) (s : string) : string :=
  match n, s with
  | S k, String _ r => drop k r
  | _, _ => s
  end.

(** [s.split(sep)] for a non-empty [sep]: the segments between the
    occurrences of [sep], found from the left without overlap.  [skip]
    counts the characters of an occurrence still to be passed over. *)
Fixpoint split_from (sep : string) (skip : nat) (s : string) : list string :=
  match s with
  | EmptyString => [EmptyString]
  | String c r =>
      match skip with
      | S k => split_from sep k r
      | O =>
          if String.prefix sep s
          then EmptyString :: split_from sep (Nat.pred (String.length sep)) r
          else match split_from sep O r with
               | seg :: segs => String c seg :: segs
               | [] => [String c EmptyString]
               end
      end
  end.

Definition split (sep s : string) : list string := split_from sep O s.

(** [s.split(sep)[0]] *)
Definition first_segment (sep s : string) : string :=
  hd EmptyString (split sep s).

(** [s.replace(old, new)] for a non-empty [old]; it is
    [new.join(s.split(old))]. *)
Definition replace (old new s : string) : string :=
  String.concat new (split old s).

(** *** [int(s)] on a string

    Surrounding blanks are dropped, one sign is allowed, and the digits
    may be separated by single underscores.  [None] stands for
    [ValueError].  The blanks [int] accepts are those of the C locale
    together with U+0085 and U+00A0. *)
Definition int_space (c : ascii) : bool :=
  let n := ord c in
  ((9 <=? n) && (n <=? 13) || (n =? 32) || (n =? 133) || (n =? 160))%N.

Fixpoint ltrim (s : string) : string :=
  match s with
  | EmptyString => EmptyString
  | String c r => if int_space c then ltrim r else s
  end.

Fixpoint rtrim (s : string) : string :=
  match s with
  | EmptyString => EmptyString
  | String c r =>
      let r' := rtrim r in
      if int_space c && is_empty r' then EmptyString else String c r'
  end.

(** [digits acc s]: [s] continues a numeral whose value so far is [acc]
    and whose last character was a digit. *)
Fixpoint digits (acc : Z) (s : string) : option Z :=
  match s with
  | EmptyString => Some acc
  | String c r =>
      if isdigit c then digits (10 * acc + digit_value c) r
      else if Ascii.eqb c "_" then
        match r with
        | String d r' =>
            if isdigit d then digits (10 * acc + digit_value d) r' else None
        | EmptyString => None
        end
      else None
  end.

Definition numeral (s : string) : option Z :=
  match s with
  | String c r => if isdigit c then digits (digit_value c) r else None
  | EmptyString => None
  end.

Definition read_int (s : string) : option Z :=
  match rtrim (ltrim s) with
  | String c r =>
      if Ascii.eqb c "+" then numeral r
      else if Ascii.eqb c "-" then Z.opp <$> numeral r
      else numeral (String c r)
  | EmptyString => None
  end.

Fixpoint count_digits (s : string) : nat :=
  match s with
  | EmptyString => O
  | String c r => if isdigit c then S (count_digits r) else count_digits r
  end.

(** The interpreter refuses a numeral of more than [limit] digits
    ([sys.get_int_max_str_digits()]: 4300 unless configured otherwise, and 0
    when there is no limit); it counts the digits only past 640 of them. *)
Definition too_long (limit : nat) (s : string) : bool :=
  negb (limit =? 0)%nat && (640 <? count_digits s)%nat && (limit <? count_digits s)%nat.

Definition int (limit : nat) (s : string) : option Z :=
  match read_int s with
  | Some n => if too_long limit s then None else Some n
  | None => None
  end.

(** *** The three patterns of the service *)

(** The longest run of digits at the head of [s]. *)
Fixpoint digit_run (s : string) : string :=
  match s with
  | String c r => if isdigit c then String c (digit_run r) else EmptyString
  | EmptyString => EmptyString
  end.

(** [re.search(r"(\d+)", s)], group 1. *)
Fixpoint search_digits (s : string) : option string :=
  match s with
  | EmptyString => None
  | String c r => if isdigit c then Some (digit_run s) else search_digits r
  end.

(** [\((\d{4})\)] matched at the head of [s], group 1. *)
Definition year_here (s : string) : option string :=
  match s with
  | String p (String a (String b (String c (String d (String q _))))) =>
      if Ascii.eqb p "(" && isdigit a && isdigit b && isdigit c && isdigit d
         && Ascii.eqb q ")"
      then Some (String a (String b (String c (String d EmptyString))))
      else None
  | _ => None
  end.

(** [re.search(r"\((\d{4})\)", s)], group 1. *)
Fixpoint search_year (s : string) : option string :=
  match year_here s with
  | Some y => Some y
  | None =>
      match s with
      | EmptyString => None
      | String _ r => search_year r
      end
  end.

(** [\s*\[] matched at the head of [s]. *)
Fixpoint blanks_then_bracket (s : string) : bool :=
  match s with
  | EmptyString => false
  | String c r =>
      if Ascii.eqb c "[" then true
      else if isspace c then blanks_then_bracket r
      else false
  end.

(** The lazy group [(.+?)] once it holds [acc]: it stops as soon as the
    rest of the pattern matches, and otherwise takes one more character,
    which [.] refuses when it is a line feed. *)
Fixpoint lazy_group (acc s : string) : option string :=
  if blanks_then_bracket s then Some acc
  else match s with
       | EmptyString => None
       | String c r =>
           if Ascii.eqb c "010" then None
           else lazy_group (acc ++ String c EmptyString) r
       end.

(** [re.match(r"(.+?)\s*\[", s)], group 1. *)
Definition match_before_bracket (s : string) : option string :=
  match s with
  | EmptyString => None
  | String c r =>
      if Ascii.eqb c "010" then None
      else lazy_group (String c EmptyString) r
  end.

End Py.

(** ** Python values and exceptions *)

(** The values that flow through the service: what [response.json()]
    returns and what the metadata dictionaries hold. *)
#[warnings="-register-all"]
Inductive pyval : Type :=
| PNone
| PBool (b : bool)
| PInt (n : Z)
| PFloat (x : spec_float)
| PStr (s : string)
| PList (l : list pyval)
| PDict (d : gmap string pyval).

(** The exceptions that can reach an [except Exception] of the service. *)
Inductive exn : Type :=
| AttributeError (type_name attribute : string)
| KeyError (key : string)
| IndexError
| TypeError
| ValueError
| RequestException.

(** Sequencing in the error monad, written [x ← m; k]. *)
#[global] Instance exn_bind : MBind (sum exn) := fun A B k m =>
  match m with
  | inl e => inl e
  | inr a => k a
  end.

Definition type_name (v : pyval) : string :=
  match v with
  | PNone => "NoneType"
  | PBool _ => "bool"
  | PInt _ => "int"
  | PFloat _ => "float"
  | PStr _ => "str"
  | PList _ => "list"
  | PDict _ => "dict"
  end.

(** [bool(v)] *)
Definition truthy (v : pyval) : bool :=
  match v with
  | PNone => false
  | PBool b => b
  | PInt n => negb (n =? 0)
  | PFloat x => match x with S754_zero _ => false | _ => true end
  | PStr s => negb (Py.is_empty s)
  | PList l => match l with [] => false | _ :: _ => true end
  | PDict d => negb (bool_decide (d = ∅))
  end.

(** [a or b] *)
Definition py_or (a b : pyval) : pyval := if truthy a then a else b.

(** [d.get(k, dflt)] on a dictionary *)
Definition dict_get (d : gmap string pyval) (k : string) (dflt : pyval) : pyval :=
  default dflt (d !! k).

(** [v.get(k, dflt)] on any value *)
Definition py_get (v : pyval) (k : string) (dflt : pyval) : exn + pyval :=
  match v with
  | PDict d => inr (dict_get d k dflt)
  | _ => inl (AttributeError (type_name v) "get")
  end.

(** [v[k]] for a string key *)
Definition py_item (v : pyval) (k : string) : exn + pyval :=
  match v with
  | PDict d => match d !! k with Some x => inr x | None => inl (KeyError k) end
  | _ => inl TypeError
  end.

(** [v.strip()] *)
Definition py_strip (v : pyval) : exn + string :=
  match v with
  | PStr s => inr (Py.strip s)
  | _ => inl (AttributeError (type_name v) "strip")
  end.

(** [len(v)] *)
Definition py_len (v : pyval) : exn + nat :=
  match v with
  | PStr s => inr (String.length s)
  | PList l => inr (length l)
  | PDict d => inr (size d)
  | _ => inl TypeError
  end.

(** The items a [for] loop or a comprehension draws from [v].  A string
    yields its characters and a dictionary its keys. *)
Definition py_iter (v : pyval) : exn + list pyval :=
  match v with
  | PList l => inr l
  | PStr s => inr ((fun c => PStr (String c EmptyString)) <$> list_ascii_of_string s)
  | PDict d => inr (PStr <$> (map_to_list d).*1)
  | _ => inl TypeError
  end.

(** [v[0]] *)
Definition py_first (v : pyval) : exn + pyval :=
  match v with
  | PList (x :: _) => inr x
  | PStr (String c _) => inr (PStr (String c EmptyString))
  | PList [] | PStr EmptyString => inl IndexError
  | PDict _ => inl (KeyError "0")
  | _ => inl TypeError
  end.

(** [v == s] for a string [s] *)
Definition py_eq_str (v : pyval) (s : string) : bool :=
  match v with
  | PStr t => String.eqb t s
  | _ => false
  end.

(** Run [f] over a list, left to right, stopping at the first exception. *)
Fixpoint traverse {A B : Type} (f : A -> exn + B) (l : list A) : exn + list B :=
  match l with
  | [] => inr []
  | x :: r => y ← f x; ys ← traverse f r; inr (y :: ys)
  end.

(** ** Documents

    A parsed page is represented by the answers to the queries the service
    puts to it, each in document order. *)

Record anchor := { a_href : option string; a_text : string }.
Record img := { img_src : option string; img_width : option string }.
Record division := { div_class : option string; div_text : string }.
Record para := { p_string : option string; p_text : string }.

Record soup := {
  anchors : list anchor;                (* the [a] elements *)
  title_tag : option string;            (* [.text] of the first [title] *)
  h1_tag : option string;               (* [.text] of the first [h1] *)
  markup : string;                      (* [str(soup)] *)
  imgs : list img;                      (* the [img] elements *)
  dts : list (string * option string);  (* each [dt]: its [.text], and the
                                           [.text] of its next sibling [dd] *)
  divs : list division;                 (* the [div] elements; [div_class] is
                                           the class attribute, its tokens
                                           joined by blanks *)
  paras : list para                     (* the [p] elements: [.string], [.text] *)
}.

(** ** The environment *)

Record env := {
  (* lines 24-30: GET of the search URL built from the query,
     [raise_for_status], parse *)
  google_search : string -> exn + soup;
  (* lines 62-65: GET of a page, [raise_for_status], parse *)
  fetch_page : string -> exn + soup;
  (* [os.environ] *)
  environ : gmap string string;
  (* lines 163-169: search by API key, title and, when given, year *)
  tmdb_search : string -> string -> option pyval -> exn + pyval;
  (* lines 187-192: details of a movie by API key and identifier *)
  tmdb_details : string -> pyval -> exn + pyval;
  (* [sys.get_int_max_str_digits()], 0 where the interpreter has no limit *)
  int_max_str_digits : nat;
  (* [urllib.parse.unquote] on a string that holds a percent sign *)
  unquote_escapes : string -> string;
  (* [str(v)] for a value that is not a string, as an f-string inserts it *)
  format_value : pyval -> string
}.

(** [urllib.parse.unquote]: a string without a percent sign is returned as
    it is. *)
Definition unquote (w : env) (s : string) : string :=
  if Py.contains "%" s then unquote_escapes w s else s.

(** [int(s)] *)
Definition py_int (w : env) (s : string) : option Z :=
  Py.int (int_max_str_digits w) s.

(** [int(v[:4])] *)
Definition py_year_prefix (w : env) (v : pyval) : exn + Z :=
  match v with
  | PStr s => match py_int w (Py.take 4 s) with Some y => inr y | None => inl ValueError end
  | _ => inl TypeError
  end.

(** [f"{v}"] *)
Definition fstring (w : env) (v : pyval) : string :=
  match v with
  | PStr s => s
  | _ => format_value w v
  end.

(** ** Locator: [search_lddb_catalog_number] *)

Definition quote_mark : string := String "034" EmptyString.

(** line 20 *)
Definition search_query (catalog_number : string) : string :=
  quote_mark ++ catalog_number ++ quote_mark ++ " site:lddb.com".

(** line 35 *)
Definition link_matches (href : string) : bool :=
  Py.contains "lddb.com" href && Py.contains "/laserdisc/" href.

(** lines 35-43, for one [href]: the cleaned URL, or [None] when the loop
    moves on to the next anchor. *)
Definition clean_link (w : env) (href : string) : option string :=
  if link_matches href then
    if Py.startswith "/url?q=" href then
      Some (unquote w (Py.replace "/url?q=" "" (Py.first_segment "&" href)))
    else if Py.startswith "https://www.lddb.com" href then Some href
    else None
  else None.

(** lines 33-48 *)
Fixpoint first_link (w : env) (hrefs : list string) : option string :=
  match hrefs with
  | [] => None
  | href :: rest =>
      match clean_link w href with
      | Some cleaned_url => Some cleaned_url
      | None => first_link w rest
      end
  end.

(** [soup.select("a[href]")], each with its [href] *)
Definition select_a_href (page : soup) : list string :=
  omap a_href (anchors page).

Definition search_lddb_catalog_number (w : env) (catalog_number : string)
  : option string :=
  match google_search w (search_query catalog_number) with
  | inl _ => None
  | inr page => first_link w (select_a_href page)
  end.

(** ** Extractor: [scrape_lddb_metadata] *)

(** lines 67-79 *)
Definition initial_metadata (lddb_url : string) : gmap string pyval :=
  list_to_map
    [ ("title", PStr "Unknown Title");
      ("year", PNone);
      ("runtime", PNone);
      ("format", PStr "LaserDisc");
      ("genres", PList []);
      ("coverUrl", PNone);
      ("director", PNone);
      ("cast", PList []);
      ("description", PNone);
      ("catalogNumber", PNone);
      ("sourceUrl", PStr lddb_url) ].

(** lines 84-90: the title read off the text of the [title] element *)
Definition title_of (text : string) : string :=
  let title_text := Py.strip text in
  match Py.match_before_bracket title_text with
  | Some group1 => Py.strip group1
  | None => Py.strip (Py.first_segment " - " title_text)
  end.

(** lines 82-90 *)
Definition extract_title (page : soup) (metadata : gmap string pyval)
  : gmap string pyval :=
  match title_tag page with
  | Some text => <["title" := PStr (title_of text)]> metadata
  | None => metadata
  end.

(** lines 93-95; the key [title] is always present *)
Definition extract_heading (page : soup) (metadata : gmap string pyval)
  : gmap string pyval :=
  match h1_tag page with
  | Some text =>
      if py_eq_str (dict_get metadata "title" PNone) "Unknown Title"
      then <["title" := PStr (Py.strip text)]> metadata
      else metadata
  | None => metadata
  end.

(** lines 98-100 *)
Definition extract_year (w : env) (page : soup) (metadata : gmap string pyval)
  : exn + gmap string pyval :=
  match Py.search_year (markup page) with
  | Some group1 =>
      match py_int w group1 with
      | Some y => inr (<["year" := PInt y]> metadata)
      | None => inl ValueError
      end
  | None => inr metadata
  end.

(** line 103: [x and ("cover" in x.lower() or "poster" in x.lower())] *)
Definition src_names_cover (i : img) : bool :=
  match img_src i with
  | Some x =>
      negb (Py.is_empty x)
      && (Py.contains "cover" (Py.lower x) || Py.contains "poster" (Py.lower x))
  | None => false
  end.

(** line 106: [soup.find("img", {"width": lambda x: x and int(x) > 100})].
    The test is put to the images in document order until one passes; it
    raises on a width that [int] does not read. *)
Fixpoint find_wide (w : env) (l : list img) : exn + option img :=
  match l with
  | [] => inr None
  | i :: rest =>
      match img_width i with
      | None => find_wide w rest
      | Some x =>
          if Py.is_empty x then find_wide w rest
          else match py_int w x with
               | None => inl ValueError
               | Some n => if 100 <? n then inr (Some i) else find_wide w rest
               end
      end
  end.

(** [soup.find("img", {"width": True})] *)
Definition has_width (i : img) : bool :=
  match img_width i with Some _ => true | None => false end.

(** lines 103-106 *)
Definition find_cover (w : env) (page : soup) : exn + option img :=
  match List.find src_names_cover (imgs page) with
  | Some i => inr (Some i)
  | None =>
      match List.find has_width (imgs page) with
      | Some _ => find_wide w (imgs page)
      | None => inr None
      end
  end.

(** lines 108-113 *)
Definition set_cover (cover_img : option img) (metadata : gmap string pyval)
  : gmap string pyval :=
  match cover_img with
  | Some i =>
      let cover_src := default EmptyString (img_src i) in
      if Py.startswith "/" cover_src
      then <["coverUrl" := PStr ("https://www.lddb.com" ++ cover_src)]> metadata
      else if Py.startswith "http" cover_src
      then <["coverUrl" := PStr cover_src]> metadata
      else metadata
  | None => metadata
  end.

(** lines 103-113 *)
Definition extract_cover (w : env) (page : soup) (metadata : gmap string pyval)
  : exn + gmap string pyval :=
  cover_img ← find_cover w page;
  inr (set_cover cover_img metadata).

(** lines 117-131, for one [dt] *)
Definition extract_field (w : env) (metadata : gmap string pyval)
    (entry : string * option string) : exn + gmap string pyval :=
  match entry.2 with
  | Some dd_text =>
      let label := Py.lower (Py.strip entry.1) in
      let value := Py.strip dd_text in
      if Py.contains "director" label then
        inr (<["director" := PStr value]> metadata)
      else if Py.contains "genre" label || Py.contains "category" label then
        inr (<["genres" := PList (PStr <$> (Py.strip <$> Py.split "," value))]> metadata)
      else if Py.contains "runtime" label || Py.contains "duration" label then
        match Py.search_digits value with
        | Some group1 =>
            match py_int w group1 with
            | Some n => inr (<["runtime" := PInt n]> metadata)
            | None => inl ValueError
            end
        | None => inr metadata
        end
      else if Py.contains "catalog" label || Py.contains "number" label then
        inr (<["catalogNumber" := PStr value]> metadata)
      else inr metadata
  | None => inr metadata
  end.

(** lines 116-131 *)
Fixpoint extract_fields (w : env) (pairs : list (string * option string))
    (metadata : gmap string pyval) : exn + gmap string pyval :=
  match pairs with
  | [] => inr metadata
  | entry :: rest =>
      metadata ← extract_field w metadata entry;
      extract_fields w rest metadata
  end.

(** line 134: [x and "/person/" in x] *)
Definition is_person_link (a : anchor) : bool :=
  match a_href a with
  | Some x => negb (Py.is_empty x) && Py.contains "/person/" x
  | None => false
  end.

(** lines 134-136 *)
Definition extract_cast (page : soup) (metadata : gmap string pyval)
  : gmap string pyval :=
  match filter (fun a => is_person_link a = true) (anchors page) with
  | [] => metadata
  | cast_elements =>
      <["cast" := PList ((fun a => PStr (Py.strip (a_text a))) <$> take 5 cast_elements)]>
        metadata
  end.

(** line 139: [x and "description" in x.lower()] *)
Definition class_names_description (d : division) : bool :=
  match div_class d with
  | Some x => negb (Py.is_empty x) && Py.contains "description" (Py.lower x)
  | None => false
  end.

(** line 141: [x and len(x) > 50] *)
Definition is_long_paragraph (p : para) : bool :=
  match p_string p with
  | Some x => negb (Py.is_empty x) && (50 <? String.length x)%nat
  | None => false
  end.

(** lines 139-141: [.text] of the element the description is taken from *)
Definition description_text (page : soup) : option string :=
  match List.find class_names_description (divs page) with
  | Some d => Some (div_text d)
  | None => p_text <$> List.find is_long_paragraph (paras page)
  end.

(** lines 143-144 *)
Definition extract_description (page : soup) (metadata : gmap string pyval)
  : gmap string pyval :=
  match description_text page with
  | Some text => <["description" := PStr (Py.take 500 (Py.strip text))]> metadata
  | None => metadata
  end.

(** lines 67-147, on a parsed page, without the [print] of line 146 *)
Definition scrape_page (w : env) (lddb_url : string) (page : soup)
  : exn + gmap string pyval :=
  let metadata := initial_metadata lddb_url in
  let metadata := extract_title page metadata in
  let metadata := extract_heading page metadata in
  metadata ← extract_year w page metadata;
  metadata ← extract_cover w page metadata;
  metadata ← extract_fields w (dts page) metadata;
  let metadata := extract_cast page metadata in
  inr (extract_description page metadata).

Definition scrape_lddb_metadata (w : env) (lddb_url : string)
  : option (gmap string pyval) :=
  match page ← fetch_page w lddb_url; scrape_page w lddb_url page with
  | inl _ => None
  | inr metadata => Some metadata
  end.

(** ** Enricher: [enhance_with_tmdb] *)

(** line 157: the first of the two variables that is set and not empty *)
Definition tmdb_api_key (w : env) : option string :=
  match environ w !! "TMDB_API_KEY" with
  | Some (String c k) => Some (String c k)
  | _ =>
      match environ w !! "VITE_TMDB_API_KEY" with
      | Some (String c k) => Some (String c k)
      | _ => None
      end
  end.

(** [n == x] for an integer [n] and a float [x]: the two are compared as
    numbers. *)
Definition float_eq_int (x : spec_float) (n : Z) : bool :=
  match x with
  | S754_zero _ => n =? 0
  | S754_finite negative m e =>
      let signed := if negative then Z.neg m else Z.pos m in
      if 0 <=? e then n =? signed * 2 ^ e else n * 2 ^ (- e) =? signed
  | _ => false
  end.

(** [n == year] for the integer [n] read off a release date *)
Definition py_eq_int (year : pyval) (n : Z) : bool :=
  match year with
  | PInt y => n =? y
  | PBool b => n =? (if b then 1 else 0)
  | PFloat x => float_eq_int x n
  | _ => false
  end.

(** lines 179-184: the first result whose release date starts with [year] *)
Fixpoint year_match (w : env) (year : pyval) (results : list pyval)
  : exn + option pyval :=
  match results with
  | [] => inr None
  | result :: rest =>
      release_date ← py_get result "release_date" PNone;
      if truthy release_date then
        result_year ← py_year_prefix w release_date;
        if py_eq_int year result_year then inr (Some result)
        else year_match w year rest
      else year_match w year rest
  end.

(** lines 176-184 *)
Definition best_match (w : env) (year results : pyval) : exn + pyval :=
  first ← py_first results;
  if truthy year then
    n ← py_len results;
    if (1 <? n)%nat then
      items ← py_iter results;
      found ← year_match w year items;
      inr (default first found)
    else inr first
  else inr first.

(** line 206: [next((c['name'] for c in crew if c['job'] == 'Director'), None)] *)
Fixpoint first_director (crew : list pyval) : exn + pyval :=
  match crew with
  | [] => inr PNone
  | c :: rest =>
      job ← py_item c "job";
      if py_eq_str job "Director" then py_item c "name"
      else first_director rest
  end.

(** The items of [v[:n]] *)
Definition py_take (n : nat) (v : pyval) : exn + list pyval :=
  match v with
  | PList l => inr (take n l)
  | PStr s => py_iter (PStr (Py.take n s))
  | _ => inl TypeError
  end.

(** lines 195-201 *)
Definition enhanced_core (w : env) (movie_id details : pyval)
  : exn + gmap string pyval :=
  overview ← py_get details "overview" (PStr "");
  poster_path ← py_get details "poster_path" PNone;
  runtime ← py_get details "runtime" PNone;
  genres ← py_get details "genres" (PList []) ≫= py_iter;
  names ← traverse (fun g => py_item g "name") genres;
  inr (list_to_map
         [ ("tmdbId", movie_id);
           ("description", overview);
           ("posterUrl",
             if truthy poster_path
             then PStr ("https://image.tmdb.org/t/p/w500" ++ fstring w poster_path)
             else PNone);
           ("runtime", runtime);
           ("genres", PList names) ]).

(** lines 205-208 *)
Definition add_director (credits : pyval) (enhanced : gmap string pyval)
  : exn + gmap string pyval :=
  crew ← py_get credits "crew" PNone;
  if truthy crew then
    director ← py_iter crew ≫= first_director;
    inr (if truthy director then <["director" := director]> enhanced else enhanced)
  else inr enhanced.

(** lines 210-211 *)
Definition add_actors (credits : pyval) (enhanced : gmap string pyval)
  : exn + gmap string pyval :=
  cast ← py_get credits "cast" PNone;
  if truthy cast then
    names ← py_take 10 cast ≫= traverse (fun c => py_item c "name");
    inr (<["actors" := PList names]> enhanced)
  else inr enhanced.

(** lines 195-211 *)
Definition build_enhanced (w : env) (movie_id details : pyval)
  : exn + gmap string pyval :=
  enhanced ← enhanced_core w movie_id details;
  credits ← py_get details "credits" (PDict ∅);
  enhanced ← add_director credits enhanced;
  add_actors credits enhanced.

(** lines 162-214, once the API key is known.  [quote(title)] wants a
    string; the year goes into the search only when it is truthy. *)
Definition enhance_with_key (w : env) (key : string) (title year : pyval)
  : exn + option (gmap string pyval) :=
  match title with
  | PStr title_text =>
      search_data ←
        tmdb_search w key title_text (if truthy year then Some year else None);
      results ← py_get search_data "results" PNone;
      if truthy results then
        best ← best_match w year results;
        movie_id ← py_item best "id";
        details ← tmdb_details w key movie_id;
        enhanced ← build_enhanced w movie_id details;
        inr (Some enhanced)
      else inr None
  | _ => inl TypeError
  end.

Definition enhance_with_tmdb (w : env) (title year : pyval)
  : option (gmap string pyval) :=
  match tmdb_api_key w with
  | None => None
  | Some key =>
      match enhance_with_key w key title year with
      | inl _ => None
      | inr enhanced => enhanced
      end
  end.

(** ** The lookup endpoint: [lookup_catalog] *)

(** lines 254-263: [metadata.update({...})] *)
Definition merge (metadata enhanced_metadata : gmap string pyval)
  : gmap string pyval :=
  list_to_map
    [ ("description",
        dict_get enhanced_metadata "description" (dict_get metadata "description" PNone));
      ("posterUrl",
        py_or (dict_get enhanced_metadata "posterUrl" PNone)
              (dict_get metadata "coverUrl" PNone));
      ("tmdbId", dict_get enhanced_metadata "tmdbId" PNone);
      ("director",
        dict_get enhanced_metadata "director" (dict_get metadata "director" PNone));
      ("actors",
        dict_get enhanced_metadata "actors" (dict_get metadata "cast" (PList [])));
      ("genres",
        dict_get enhanced_metadata "genres" (dict_get metadata "genres" (PList [])));
      ("runtime",
        dict_get enhanced_metadata "runtime" (dict_get metadata "runtime" PNone)) ]
  ∪ metadata.

(** The JSON bodies the endpoint answers with. *)
Inductive payload : Type :=
| ErrorText (error : string)                 (* {"error": "..."} *)
| ErrorOf (e : exn)                          (* {"error": str(e)} *)
| Status (status message : string)           (* {"status": ..., "message": ...} *)
| Success (data : gmap string pyval) (catalog_number : string).

Record response := { payload_of : payload; status_code : Z }.

Definition has_error_field (r : response) : bool :=
  match payload_of r with
  | ErrorText _ | ErrorOf _ => true
  | _ => false
  end.

(** The calls the handler makes to the pipeline stages, in order. *)
Inductive stage_call : Type :=
| Locate (catalog_number : string)
| Extract (lddb_url : string)
| Enrich (title year : pyval).

(** lines 249-266, on the extracted record *)
Definition enrich (w : env) (metadata : gmap string pyval)
  : gmap string pyval * list stage_call :=
  if truthy (dict_get metadata "title" PNone) && truthy (dict_get metadata "year" PNone)
  then
    let title := dict_get metadata "title" PNone in
    let year := dict_get metadata "year" PNone in
    match enhance_with_tmdb w title year with
    | Some enhanced_metadata =>
        if truthy (PDict enhanced_metadata)
        then (merge metadata enhanced_metadata, [Enrich title year])
        else (metadata, [Enrich title year])
    | None => (metadata, [Enrich title year])
    end
  else (metadata, []).

(** lines 230-272, for a catalog number that is not empty, without the
    lines printed *)
Definition run_pipeline (w : env) (catalog_number : string)
  : response * list stage_call :=
  match search_lddb_catalog_number w catalog_number with
  | Some (String c u) =>
      let lddb_url := String c u in
      match scrape_lddb_metadata w lddb_url with
      | Some metadata =>
          if truthy (PDict metadata) then
            let (merged, calls) := enrich w metadata in
            ({| payload_of := Success merged catalog_number; status_code := 200 |},
             Locate catalog_number :: Extract lddb_url :: calls)
          else
            ({| payload_of :=
                  Status "error" "Found LDDB page but could not extract metadata";
                status_code := 200 |},
             [Locate catalog_number; Extract lddb_url])
      | None =>
          ({| payload_of :=
                Status "error" "Found LDDB page but could not extract metadata";
              status_code := 200 |},
           [Locate catalog_number; Extract lddb_url])
      end
  | _ =>
      ({| payload_of :=
            Status "not_found"
              ("No LDDB results found for catalog number: " ++ catalog_number);
          status_code := 200 |},
       [Locate catalog_number])
  end.

(** lines 221-276, without the lines printed; [data] is what
    [request.get_json()] returned *)
Definition lookup_catalog (w : env) (data : pyval)
  : response * list stage_call :=
  match py_get data "catalog_number" (PStr "") ≫= py_strip with
  | inl e => ({| payload_of := ErrorOf e; status_code := 500 |}, [])
  | inr catalog_number =>
      if Py.is_empty catalog_number
      then ({| payload_of := ErrorText "Missing catalog number"; status_code := 400 |}, [])
      else run_pipeline w catalog_number
  end.

(** The four keys the definition-list loop writes. *)
Definition field_key (k : string) : bool :=
  bool_decide (k ∈ ["director"; "genres"; "runtime"; "catalogNumber"]).


(** ** The statements under test, in the words of the specification *)

(** The text before the last occurrence of [a] in [s], and [s] itself when
    [a] does not occur in it. *)
Fixpoint before_last (a : ascii) (s : string) : string :=
  match s with
  | EmptyString => EmptyString
  | String c r =>
      if Py.contains (String a "") r then String c (before_last a r)
      else if Ascii.eqb c a then EmptyString else String c r
  end.

(** The title as the specification words it: the title text with its
    trailing bracketed suffix, the text from its last ["["] on, and the
    white space around it stripped, and without a bracket the segment before
    the first [" - "], stripped. *)
Definition claimed_title (text : string) : string :=
  let title_text := Py.strip text in
  if Py.contains "[" title_text
  then Py.strip (before_last "[" title_text)
  else Py.strip (Py.first_segment " - " title_text).

(** The title as the Extractor finds it, in words: the stripped title text
    cut before the first ["["] that follows its first character, provided
    that no line feed stands in the part so kept, the white space at its end
    not counted; and otherwise the segment before the first [" - "]. *)
Definition amended_title (text : string) : string :=
  let title_text := Py.strip text in
  match title_text with
  | String c r =>
      if Py.contains "[" r
         && negb (Py.contains (String "010" "") (Py.rstrip (Py.first_segment "[" r)))
      then Py.strip (String c (Py.first_segment "[" r))
      else Py.strip (Py.first_segment " - " title_text)
  | EmptyString => EmptyString
  end.

(** The target of a redirect link as the specification words it: what lies
    between the prefix [/url?q=] and the first [&], percent-decoded. *)
Definition claimed_redirect_target (w : env) (href : string) : string :=
  unquote w (Py.first_segment "&" (Py.drop (String.length "/url?q=") href)).

(** The release year of a search result, when its release date starts
    with one. *)
Definition release_year (w : env) (result : pyval) : option Z :=
  match result with
  | PDict d =>
      match d !! "release_date" with
      | Some (PStr s) => py_int w (Py.take 4 s)
      | _ => None
      end
  | _ => None
  end.

Definition released_in (w : env) (y : Z) (result : pyval) : bool :=
  match release_year w result with
  | Some y' => y' =? y
  | None => false
  end.

(** The best match as the specification words it. *)
Definition claimed_best_match (w : env) (year : option Z) (results : list pyval)
  : option pyval :=
  match year, results with
  | Some y, first :: _ :: _ =>
      Some (default first (List.find (released_in w y) results))
  | _, first :: _ => Some first
  | _, [] => None
  end.

(** A result the loop of lines 179-184 passes without raising: a JSON
    object whose release date is missing or falsy, or is a string whose first
    four characters [int] reads. *)
Definition well_dated (w : env) (result : pyval) : Prop :=
  ∃ d, result = PDict d
       ∧ (truthy (dict_get d "release_date" PNone) = false
          ∨ ∃ s y, d !! "release_date" = Some (PStr s)
                   ∧ py_int w (Py.take 4 s) = Some y).

(** The year the Enricher takes as supplied: line 177 tests it for truth,
    so the year 0 counts as none. *)
Definition supplied (year : option Z) : option Z :=
  match year with
  | Some y => if y =? 0 then None else Some y
  | None => None
  end.

(** The results whose release date the loop of lines 179-184 reads when it
    looks for the year [y]: those up to and including the first one released
    in [y]. *)
Fixpoint read_until (w : env) (y : Z) (results : list pyval) : list pyval :=
  match results with
  | [] => []
  | result :: rest =>
      result :: (if released_in w y result then [] else read_until w y rest)
  end.

(** The results whose release date is read at all: none without a supplied
    year, and none when there is one result only (line 177). *)
Definition dates_read (w : env) (year : option Z) (results : list pyval)
  : list pyval :=
  match supplied year, results with
  | Some y, _ :: _ :: _ => read_until w y results
  | _, _ => []
  end.

(** The branch of lines 122-131 a label selects. *)
Inductive field : Type := Director | Genres | Runtime | CatalogNumber.

Definition field_of_label (label : string) : option field :=
  if Py.contains "director" label then Some Director
  else if Py.contains "genre" label || Py.contains "category" label then Some Genres
  else if Py.contains "runtime" label || Py.contains "duration" label then Some Runtime
  else if Py.contains "catalog" label || Py.contains "number" label then Some CatalogNumber
  else None.

(** What one definition-list entry assigns, as a key and a value. *)
Definition assignment (w : env) (entry : string * option string)
  : option (string * pyval) :=
  match entry.2 with
  | Some dd_text =>
      let value := Py.strip dd_text in
      match field_of_label (Py.lower (Py.strip entry.1)) with
      | Some Director => Some ("director", PStr value)
      | Some Genres => Some ("genres", PList (PStr <$> (Py.strip <$> Py.split "," value)))
      | Some Runtime =>
          match Py.search_digits value with
          | Some group1 => (λ n, ("runtime", PInt n)) <$> py_int w group1
          | None => None
          end
      | Some CatalogNumber => Some ("catalogNumber", PStr value)
      | None => None
      end
  | None => None
  end.

(** The value the last entry that assigns to [key] gives it. *)
Fixpoint last_assignment (w : env) (key : string)
    (pairs : list (string * option string)) : option pyval :=
  match pairs with
  | [] => None
  | entry :: rest =>
      match last_assignment w key rest with
      | Some v => Some v
      | None =>
          match assignment w entry with
          | Some (k, v) => if String.eqb k key then Some v else None
          | None => None
          end
      end
  end.

(** The value of [key] after the definition-list loop has run over [pairs]
    on a fresh record. *)
Definition field_after (w : env) (pairs : list (string * option string))
    (key : string) : option pyval :=
  match extract_fields w pairs (initial_metadata "") with
  | inr metadata => metadata !! key
  | inl _ => None
  end.

(** The strings made of digits only. *)
Fixpoint all_digits (s : string) : bool :=
  match s with
  | EmptyString => true
  | String c r => Py.isdigit c && all_digits r
  end.


(** The strings made of blanks only. *)
Fixpoint all_blank (s : string) : bool :=
  match s with
  | EmptyString => true
  | String c r => Py.isspace c && all_blank r
  end.

(** ** Example pages and environments *)

Definition hex_value (c : ascii) : option N :=
  let n := Py.ord c in
  if ((48 <=? n) && (n <=? 57))%N then Some (n - 48)%N
  else if ((65 <=? n) && (n <=? 70))%N then Some (n - 55)%N
  else if ((97 <=? n) && (n <=? 102))%N then Some (n - 87)%N
  else None.

(** Percent-decoding, byte for byte.  It agrees with the library routine on
    the escapes that denote ASCII characters, which is all the examples
    contain. *)
Fixpoint percent_decode (s : string) : string :=
  match s with
  | EmptyString => EmptyString
  | String c t =>
      match t with
      | String a (String b r) =>
          match Ascii.eqb c "%", hex_value a, hex_value b with
          | true, Some h, Some l => String (ascii_of_N (16 * h + l)) (percent_decode r)
          | _, _, _ => String c (percent_decode t)
          end
      | _ => String c (percent_decode t)
      end
  end.

(** [str] of a scalar; the examples format nothing else. *)
Definition format_scalar (v : pyval) : string :=
  match v with
  | PNone => "None"
  | PBool true => "True"
  | PBool false => "False"
  | PInt n => pretty n
  | PStr s => s
  | _ => ""
  end.

(** An environment in which every search returns [search_result], every
    page fetch [page_result], and no API key is set. *)
Definition serving (search_result page_result : exn + soup) : env :=
  {| google_search := λ _, search_result;
     fetch_page := λ _, page_result;
     environ := ∅;
     tmdb_search := λ _ _ _, inl RequestException;
     tmdb_details := λ _ _, inl RequestException;
     int_max_str_digits := 4300;
     unquote_escapes := percent_decode;
     format_value := format_scalar |}.

(** No network at all. *)
Definition offline : env := serving (inl RequestException) (inl RequestException).

Definition attribute (name value : string) : string :=
  " " +:+ name +:+ "=" +:+ quote_mark +:+ value +:+ quote_mark.

(** A search-results page with one link. *)
Definition results_page (href : string) : soup :=
  {| anchors := [ {| a_href := Some href; a_text := "LaserDisc Database" |} ];
     title_tag := Some "Google Search";
     h1_tag := None;
     markup := "<html><head><title>Google Search</title></head><body><a"
               +:+ attribute "href" href
               +:+ ">LaserDisc Database</a></body></html>";
     imgs := []; dts := []; divs := []; paras := [] |}.

Definition alien_url : string := "https://www.lddb.com/laserdisc/00731/1090-85/Alien".

Definition alien_synopsis : string :=
  String.concat " "
    (replicate 12 "The crew of the Nostromo answers a distress call from a moon.").

(** A database page with every section the Extractor reads. *)
Definition alien_page : soup :=
  {| anchors :=
       [ {| a_href := Some "/person/2124/Ridley-Scott"; a_text := "Ridley Scott" |};
         {| a_href := Some "/person/3011/Sigourney-Weaver"; a_text := " Sigourney Weaver " |};
         {| a_href := Some "/help.php"; a_text := "Help" |} ];
     title_tag := Some "Alien (1979) [1090-85] - LaserDisc Database";
     h1_tag := Some "Alien (1979)";
     markup :=
       "<html><head><title>Alien (1979) [1090-85] - LaserDisc Database</title></head>"
       +:+ "<body><h1>Alien (1979)</h1><img" +:+ attribute "src" "/covers/00731.jpg"
       +:+ attribute "width" "300" +:+ "/></body></html>";
     imgs := [ {| img_src := Some "/covers/00731.jpg"; img_width := Some "300" |} ];
     dts :=
       [ ("Director", Some "Ridley Scott");
         ("Genre", Some "Horror, Science Fiction");
         ("Runtime", Some "117 minutes");
         ("Catalog Number", Some "1090-85");
         ("Notes", None) ];
     divs := [ {| div_class := Some "box Description"; div_text := alien_synopsis |} ];
     paras := [] |}.

(** A page whose title element is empty and whose text holds a year:
    [<html><head><title></title></head><body><p>(1995)</p></body></html>]. *)
Definition untitled_page : soup :=
  {| anchors := [];
     title_tag := Some "";
     h1_tag := None;
     markup := "<html><head><title></title></head><body><p>(1995)</p></body></html>";
     imgs := []; dts := []; divs := [];
     paras := [ {| p_string := Some "(1995)"; p_text := "(1995)" |} ] |}.

(** A page with neither a title element nor a heading:
    [<html><body><p>Alien (1979)</p></body></html>]. *)
Definition bare_page : soup :=
  {| anchors := [];
     title_tag := None;
     h1_tag := None;
     markup := "<html><body><p>Alien (1979)</p></body></html>";
     imgs := []; dts := []; divs := [];
     paras := [ {| p_string := Some "Alien (1979)"; p_text := "Alien (1979)" |} ] |}.

(** A page whose only image has a relative width. *)
Definition fluid_image_page : soup :=
  {| anchors := [];
     title_tag := Some "Alien (1979) [1090-85]";
     h1_tag := None;
     markup :=
       "<html><head><title>Alien (1979) [1090-85]</title></head><body><img"
       +:+ attribute "src" "/images/front.jpg" +:+ attribute "width" "100%"
       +:+ "/></body></html>";
     imgs := [ {| img_src := Some "/images/front.jpg"; img_width := Some "100%" |} ];
     dts := []; divs := []; paras := [] |}.

(** A request body [{"catalog_number": s}]. *)
Definition request_for (s : string) : gmap string pyval :=
  {[ "catalog_number" := PStr s ]}.

(** The year argument of the Enricher: an integer, or [None]. *)
Definition year_value (year : option Z) : pyval :=
  match year with
  | Some y => PInt y
  | None => PNone
  end.

(** [w] with an API key set and a metadata API that answers every search
    with [search_data] and every details request with [details]. *)
Definition with_tmdb (w : env) (search_data details : pyval) : env :=
  {| google_search := google_search w;
     fetch_page := fetch_page w;
     environ := {[ "TMDB_API_KEY" := "0123456789abcdef" ]};
     tmdb_search := λ _ _ _, inr search_data;
     tmdb_details := λ _ _, inr details;
     int_max_str_digits := int_max_str_digits w;
     unquote_escapes := unquote_escapes w;
     format_value := format_value w |}.

(** Two search results, the first with a release date that does not start
    with a year. *)
Definition dated_results : list pyval :=
  [ PDict {[ "id" := PInt 568; "title" := PStr "Apollo 13";
             "release_date" := PStr "06/30/1995" ]};
    PDict {[ "id" := PInt 44004; "title" := PStr "Apollo 13: To the Edge and Back";
             "release_date" := PStr "1995-07-20" ]} ].

(** Two search results, the second released in the year 0. *)
Definition year_zero_results : list pyval :=
  [ PDict {[ "id" := PInt 1; "title" := PStr "Total Recall";
             "release_date" := PStr "1990-06-01" ]};
    PDict {[ "id" := PInt 3; "title" := PStr "Anno Zero";
             "release_date" := PStr "0000-01-01" ]} ].

(** One search result whose release date does not start with a year. *)
Definition one_result : list pyval :=
  [ PDict {[ "id" := PInt 568; "title" := PStr "Apollo 13";
             "release_date" := PStr "06/30/1995" ]} ].

(** The two search results of the specification's example. *)
Definition two_results : list pyval :=
  [ PDict {[ "id" := PInt 1; "title" := PStr "Total Recall";
             "release_date" := PStr "1990-06-01" ]};
    PDict {[ "id" := PInt 2; "title" := PStr "Total Recall 2";
             "release_date" := PStr "1995-03-10" ]} ].

(** Details of a movie for which the API knows no runtime. *)
Definition details_without_runtime : gmap string pyval :=
  {[ "id" := PInt 348;
     "overview" := PStr "The crew of a commercial spacecraft meets a deadly lifeform.";
     "poster_path" := PStr "/vfrQk5IPloGg1v9Rzbh2Eg3VGyM.jpg";
     "runtime" := PNone;
     "genres" := PList [ PDict {[ "id" := PInt 27; "name" := PStr "Horror" ]} ];
     "credits" := PDict {[ "crew" := PList [ PDict {[ "job" := PStr "Director";
                                                      "name" := PStr "Ridley Scott" ]} ];
                           "cast" := PList [ PDict {[ "name" := PStr "Sigourney Weaver" ]} ] ]} ]}.

(** A redirect link whose target holds the text of the redirect prefix. *)
Definition nested_redirect : string :=
  "/url?q=https://www.lddb.com/laserdisc/00731/url?q=1090-85&sa=U&ved=2ahUKEwi".

(** The record of [alien_page] as the Extractor leaves it, before
    enrichment. *)
Definition alien_metadata : gmap string pyval :=
  default ∅ (scrape_lddb_metadata (serving (inr (results_page alien_url)) (inr alien_page))
               alien_url).

(** The record the Extractor returns for [bare_page]. *)
Definition bare_metadata : gmap string pyval :=
  default ∅ (scrape_lddb_metadata (serving (inr (results_page alien_url)) (inr bare_page))
               alien_url).

(** A definition-list entry whose value has no run of more than 640
    digits, so that [int] reads its first run under every limit. *)
Definition short_digit_run (entry : string * option string) : Prop :=
  ∀ dd_text run,
    entry.2 = Some dd_text →
    Py.search_digits (Py.strip dd_text) = Some run →
    (String.length run ≤ 640)%nat.

(** [short_digit_run], decided. *)
Definition has_short_digit_run (entry : string * option string) : bool :=
  match entry.2 with
  | Some dd_text =>
      match Py.search_digits (Py.strip dd_text) with
      | Some run => (String.length run <=? 640)%nat
      | None => true
      end
  | None => true
  end.

(** ** The request URLs *)

(** The characters [urllib.parse.quote] never escapes: the ASCII letters and
    digits and [_.-~]. *)
Definition always_safe (c : ascii) : bool :=
  let n := Py.ord c in
  ((65 <=? n) && (n <=? 90) || (97 <=? n) && (n <=? 122)
   || (48 <=? n) && (n <=? 57)
   || (n =? 95) || (n =? 46) || (n =? 45) || (n =? 126))%N.

(** The hexadecimal digit of a number below 16, in upper case. *)
Definition hex_digit (n : N) : ascii :=
  if (n <? 10)%N then ascii_of_N (48 + n) else ascii_of_N (55 + n).

(** The escape [%XX] of one byte. *)
Definition escape (byte : N) : string :=
  String "%" (String (hex_digit (byte / 16)) (String (hex_digit (byte mod 16)) "")).

(** What [quote] makes of one character, with its default [safe="/"]: the
    character is encoded in UTF-8, one byte below U+0080 and two bytes from
    there on, and every byte outside the safe set is escaped. *)
Definition quote_char (c : ascii) : string :=
  let n := Py.ord c in
  if (n <? 128)%N then
    if always_safe c || Ascii.eqb c "/" then String c "" else escape n
  else escape (192 + n / 64) ++ escape (128 + n mod 64).

(** [urllib.parse.quote(s)] *)
Fixpoint quote (s : string) : string :=
  match s with
  | EmptyString => EmptyString
  | String c r => quote_char c ++ quote r
  end.

(** line 24 *)
Definition google_search_url (catalog_number : string) : string :=
  "https://www.google.com/search?q=" ++ quote (search_query catalog_number).

(** lines 163-165 *)
Definition search_url (w : env) (api_key title : string) (year : pyval) : string :=
  "https://api.themoviedb.org/3/search/movie?api_key=" ++ api_key
  ++ "&query=" ++ quote title
  ++ (if truthy year then "&year=" ++ fstring w year else "").

(** The characters a quoted string is made of. *)
Definition quoted_char (c : ascii) : bool :=
  always_safe c || Ascii.eqb c "/" || Ascii.eqb c "%".

Fixpoint all_chars (f : ascii -> bool) (s : string) : bool :=
  match s with
  | EmptyString => true
  | String c r => f c && all_chars f r
  end.

(** ** Keys and answers *)

(** The keys of the record of lines 67-79. *)
Definition extractor_keys : gset string :=
  list_to_set
    [ "title"; "year"; "runtime"; "format"; "genres"; "coverUrl"; "director";
      "cast"; "description"; "catalogNumber"; "sourceUrl" ].

(** The keys lines 254-263 add to them. *)
Definition merge_adds : gset string := list_to_set ["posterUrl"; "tmdbId"; "actors"].

(** The keys of lines 195-201. *)
Definition enrichment_keys : gset string :=
  list_to_set ["tmdbId"; "description"; "posterUrl"; "runtime"; "genres"].

(** lines 235-238 *)
Definition not_found (catalog_number : string) : response :=
  {| payload_of :=
       Status "not_found" ("No LDDB results found for catalog number: " ++ catalog_number);
     status_code := 200 |}.

(** lines 243-246 *)
Definition not_extracted : response :=
  {| payload_of := Status "error" "Found LDDB page but could not extract metadata";
     status_code := 200 |}.

(** The status code of an answer, as the request body alone gives it:
    what lines 224-228 and 274-276 decide before any stage is called. *)
Definition status_of_body (data : pyval) : Z :=
  match data with
  | PDict d =>
      match d !! "catalog_number" with
      | None => 400
      | Some (PStr s) => if Py.is_empty (Py.strip s) then 400 else 200
      | Some _ => 500
      end
  | _ => 500
  end.

(** ** What makes the Extractor fail *)

(** A width the test of line 106 passes over without taking the image: no
    width, an empty one, or a number of at most 100. *)
Definition narrow (w : env) (i : img) : bool :=
  match img_width i with
  | None => true
  | Some x =>
      Py.is_empty x
      || match py_int w x with Some n => n <=? 100 | None => false end
  end.

(** A width on which the test of line 106 raises: not empty, and not read
    by [int]. *)
Definition unread_width (w : env) (i : img) : bool :=
  match img_width i with
  | Some x => negb (Py.is_empty x) && bool_decide (py_int w x = None)
  | None => false
  end.

(** An entry on which line 129 raises: its term selects the runtime, and
    [int] refuses the first run of digits of its value. *)
Definition unread_runtime (w : env) (entry : string * option string) : bool :=
  match entry.2 with
  | Some dd_text =>
      let label := Py.lower (Py.strip entry.1) in
      negb (Py.contains "director" label)
      && negb (Py.contains "genre" label || Py.contains "category" label)
      && (Py.contains "runtime" label || Py.contains "duration" label)
      && match Py.search_digits (Py.strip dd_text) with
         | Some group1 => bool_decide (py_int w group1 = None)
         | None => false
         end
  | None => false
  end.

(** ** Stripped text *)

Definition is_stripped (s : string) : bool := String.eqb (Py.strip s) s.

(** A string without blanks at its ends, a list of such strings, or
    [None]. *)
Definition stripped (v : pyval) : bool :=
  match v with
  | PStr s => is_stripped s
  | PList l => forallb (λ x, match x with PStr s => is_stripped s | _ => false end) l
  | PNone => true
  | _ => false
  end.

(** The keys whose text the Extractor strips. *)
Definition stripped_keys : list string :=
  ["title"; "director"; "genres"; "cast"; "catalogNumber"].

(** The invariant of the Extractor's steps: the values under
    [stripped_keys] are stripped. *)
Definition keeps_stripped (m : gmap string pyval) : Prop :=
  ∀ k v, k ∈ stripped_keys → m !! k = Some v → stripped v = true.

(** How often a character occurs in a string. *)
Fixpoint count_char (a : ascii) (s : string) : nat :=
  match s with
  | EmptyString => O
  | String c r => ((if Ascii.eqb a c then 1 else 0) + count_char a r)%nat
  end.

(** ** The lines the service prints

    The four functions above leave out what the service prints: they are
    the service under a standard output that takes every line.  Here the
    Extractor and the request handler are given with their prints, each of
    which may raise. *)

(** The standard output, and the text of an exception. *)
Record console := {
  (* [print(text)]: it returns, or raises when the stream does not take the
     text (a character outside its encoding, a closed pipe) *)
  py_print : string -> exn + unit;
  (* [str(e)], as an f-string inserts it *)
  exn_text : exn -> string
}.

(** line 61 *)
Definition scraping_line (lddb_url : string) : string :=
  "Scraping LDDB page: " ++ lddb_url.

(** line 146 *)
Definition extracted_line (w : env) (title year : pyval) : string :=
  "Extracted metadata: " ++ fstring w title ++ " (" ++ fstring w year ++ ")".

(** line 150 *)
Definition scrape_error_line (out : console) (e : exn) : string :=
  "Error scraping LDDB page: " ++ exn_text out e.

(** lines 56-147: the [try] block of the Extractor *)
Definition scrape_block (w : env) (out : console) (lddb_url : string)
  : exn + gmap string pyval :=
  _ ← py_print out (scraping_line lddb_url);
  page ← fetch_page w lddb_url;
  metadata ← scrape_page w lddb_url page;
  title ← py_item (PDict metadata) "title";
  year ← py_item (PDict metadata) "year";
  _ ← py_print out (extracted_line w title year);
  inr metadata.

(** lines 54-151.  An exception of the block is reported on line 150 and
    answered with [None]; an exception of that report leaves the function. *)
Definition scrape_lddb_metadata_io (w : env) (out : console) (lddb_url : string)
  : exn + option (gmap string pyval) :=
  match scrape_block w out lddb_url with
  | inr metadata => inr (Some metadata)
  | inl e => _ ← py_print out (scrape_error_line out e); inr None
  end.

(** What the three functions the handler calls come to: each returns its
    result, or lets an exception out, as its [except] clause does when the
    report it prints raises. *)
Record stages := {
  locate : string -> exn + option string;
  extract : string -> exn + option (gmap string pyval);
  enhance : pyval -> pyval -> exn + option (gmap string pyval)
}.

(** The three functions as they are modelled above, without their prints. *)
Definition silent_stages (w : env) : stages :=
  {| locate := λ catalog_number, inr (search_lddb_catalog_number w catalog_number);
     extract := λ lddb_url, inr (scrape_lddb_metadata w lddb_url);
     enhance := λ title year, inr (enhance_with_tmdb w title year) |}.



(** line 230 *)
Definition lookup_line (catalog_number : string) : string :=
  "Looking up catalog number: " ++ catalog_number.

(** line 264 *)
Definition enhanced_line (w : env) (title : pyval) : string :=
  "Enhanced " ++ fstring w title ++ " with TMDb data".

(** line 266 *)
Definition enhancement_failed_line (out : console) (e : exn) : string :=
  "TMDb enhancement failed, using LDDB data only: " ++ exn_text out e.

(** line 275 *)
Definition handler_error_line (out : console) (e : exn) : string :=
  "Error in lookup_catalog: " ++ exn_text out e.

(** lines 250-264: the inner [try] block.  It leaves the record as it
    stands when the block ends, and the exception that ended it, if any:
    the update of lines 254-263 is done before line 264 prints. *)
Definition enhance_block (w : env) (st : stages) (out : console)
    (metadata : gmap string pyval) (title year : pyval)
  : gmap string pyval * option exn :=
  match enhance st title year with
  | inl e => (metadata, Some e)
  | inr (Some enhanced_metadata) =>
      if truthy (PDict enhanced_metadata) then
        let merged := merge metadata enhanced_metadata in
        match py_print out (enhanced_line w (dict_get merged "title" PNone)) with
        | inl e => (merged, Some e)
        | inr _ => (merged, None)
        end
      else (metadata, None)
  | inr None => (metadata, None)
  end.

(** lines 249-266 *)
Definition enrich_io (w : env) (st : stages) (out : console)
    (metadata : gmap string pyval)
  : (exn + gmap string pyval) * list stage_call :=
  let title := dict_get metadata "title" PNone in
  let year := dict_get metadata "year" PNone in
  if truthy title && truthy year then
    match enhance_block w st out metadata title year with
    | (record, None) => (inr record, [Enrich title year])
    | (record, Some e) =>
        match py_print out (enhancement_failed_line out e) with
        | inl e' => (inl e', [Enrich title year])
        | inr _ => (inr record, [Enrich title year])
        end
    end
  else (inr metadata, []).

(** lines 230-272, on a catalog number that is not empty, with the calls made
    when the lines are left *)
Definition pipeline_block (w : env) (st : stages) (out : console)
    (catalog_number : string)
  : (exn + response) * list stage_call :=
  match py_print out (lookup_line catalog_number) with
  | inl e => (inl e, [])
  | inr _ =>
      match locate st catalog_number with
      | inl e => (inl e, [Locate catalog_number])
      | inr (Some (String c u)) =>
          let lddb_url := String c u in
          match extract st lddb_url with
          | inl e => (inl e, [Locate catalog_number; Extract lddb_url])
          | inr (Some metadata) =>
              if truthy (PDict metadata) then
                match enrich_io w st out metadata with
                | (inr record, calls) =>
                    (inr {| payload_of := Success record catalog_number;
                            status_code := 200 |},
                     Locate catalog_number :: Extract lddb_url :: calls)
                | (inl e, calls) =>
                    (inl e, Locate catalog_number :: Extract lddb_url :: calls)
                end
              else (inr not_extracted, [Locate catalog_number; Extract lddb_url])
          | inr None =>
              (inr not_extracted, [Locate catalog_number; Extract lddb_url])
          end
      | inr _ => (inr (not_found catalog_number), [Locate catalog_number])
      end
  end.

(** lines 224-272: the outer [try] block *)
Definition lookup_block (w : env) (st : stages) (out : console) (data : pyval)
  : (exn + response) * list stage_call :=
  match py_get data "catalog_number" (PStr "") ≫= py_strip with
  | inl e => (inl e, [])
  | inr catalog_number =>
      if Py.is_empty catalog_number
      then (inr {| payload_of := ErrorText "Missing catalog number";
                   status_code := 400 |}, [])
      else pipeline_block w st out catalog_number
  end.

(** lines 221-276.  An exception of the block is reported on line 275 and
    answered with status 500; an exception of that report leaves the
    handler, which then gives no answer. *)
Definition lookup_catalog_io (w : env) (st : stages) (out : console) (data : pyval)
  : option response * list stage_call :=
  match lookup_block w st out data with
  | (inr r, calls) => (Some r, calls)
  | (inl e, calls) =>
      match py_print out (handler_error_line out e) with
      | inl _ => (None, calls)
      | inr _ => (Some {| payload_of := ErrorOf e; status_code := 500 |}, calls)
      end
  end.


(** A standard output that takes the characters of ASCII only. *)
Definition ascii_console : console :=
  {| py_print := λ text,
       if all_chars (λ c, (Py.ord c <? 128)%N) text then inr tt else inl ValueError;
     exn_text := λ _, "" |}.

(** A standard output that is closed: every [print] raises. *)
Definition closed_console : console :=
  {| py_print := λ _, inl ValueError;
     exn_text := λ _, "" |}.

(** The letter e with an acute accent, U+00E9. *)
Definition e_acute : string := String "233" "".

(** A page whose title has a letter outside ASCII. *)
Definition accented_page : soup :=
  {| anchors := [];
     title_tag := Some ("Am" +:+ e_acute +:+ "lie [LaserDisc]");
     h1_tag := None;
     markup := "<html><head><title>Am" +:+ e_acute
               +:+ "lie [LaserDisc]</title></head><body></body></html>";
     imgs := []; dts := []; divs := []; paras := [] |}.

Definition accented_env : env :=
  serving (inr (results_page alien_url)) (inr accented_page).

(** ** Further examples *)

(** The environment of the examples: the search leads to [alien_url] and
    the page there is [alien_page]. *)
Definition alien_env : env := serving (inr (results_page alien_url)) (inr alien_page).

(** The same with [fluid_image_page] in the place of the page. *)
Definition fluid_env : env :=
  serving (inr (results_page alien_url)) (inr fluid_image_page).

(** Two search results for the title "Alien". *)
Definition alien_results : list pyval :=
  [ PDict {[ "id" := PInt 679; "title" := PStr "Aliens";
             "release_date" := PStr "1986-07-18" ]};
    PDict {[ "id" := PInt 348; "title" := PStr "Alien";
             "release_date" := PStr "1979-05-25" ]} ].

(** [alien_env] with an API key and a metadata API that knows the movie. *)
Definition tmdb_env : env :=
  with_tmdb alien_env (PDict {[ "results" := PList alien_results ]})
    (PDict details_without_runtime).

(** The record the Enricher returns there. *)
Definition alien_enrichment : gmap string pyval :=
  default ∅ (enhance_with_tmdb tmdb_env (PStr "Alien (1979)") (PInt 1979)).

(** A target that is not on the site, and a tail that names the site: put
    together they make a redirect link the Locator takes. *)
Definition foreign_target : string := "https://example.org/laserdisc.html".

Definition foreign_tail : string := "u=https://www.lddb.com/laserdisc/00731".

(** The links of a results page in which a redirect to the page of the
    example comes after links that are not usable and before a direct one. *)
Definition mixed_links : list (option string * string) :=
  [ (Some "/search?q=1090-85&tbm=isch", "Images");
    (None, "Settings");
    (Some "http://www.lddb.com/laserdisc/00731/1090-85/Alien", "Alien (1979)");
    (Some "/url?q=https://www.lddb.com/laserdisc/00731/1090-85/Alien&sa=U",
     "LaserDisc Database");
    (Some "https://www.lddb.com/laserdisc/09999/other", "Other") ].

Definition anchor_markup (link : option string * string) : string :=
  "<a" +:+ from_option (attribute "href") "" link.1 +:+ ">" +:+ link.2 +:+ "</a>".

Definition mixed_results_page : soup :=
  {| anchors := (λ link, {| a_href := link.1; a_text := link.2 |}) <$> mixed_links;
     title_tag := Some "Google Search";
     h1_tag := None;
     markup := "<html><head><title>Google Search</title></head><body>"
               +:+ String.concat "" (anchor_markup <$> mixed_links)
               +:+ "</body></html>";
     imgs := []; dts := []; divs := []; paras := [] |}.
(** * Properties *)

(** ** The lookup endpoint rejects an absent or blank catalog number *)

(** C2, as amended.  A request whose body is a JSON object without
    [catalog_number], or with one that is a string and strips to the empty
    string, is answered with status 400 and a body that holds an [error]
    field.  A request whose body is no JSON object lacks the field as well,
    but line 225 raises on it: it is answered with status 500 and a body
    that holds an [error] field.  In neither case is a stage of the pipeline
    called. *)
Theorem missing_catalog_number_is_rejected (w : env) (data : pyval) :
  (∀ d, data = PDict d →
        d !! "catalog_number" = None
        ∨ (∃ s, d !! "catalog_number" = Some (PStr s) ∧ Py.strip s = "") →
        ∃ r, lookup_catalog w data = (r, [])
             ∧ status_code r = 400
             ∧ has_error_field r = true)
  ∧ ((∀ d, data ≠ PDict d) →
     ∃ r, lookup_catalog w data = (r, [])
          ∧ status_code r = 500
          ∧ has_error_field r = true).
Proof.
  split.
  - intros d -> H.
    exists {| payload_of := ErrorText "Missing catalog number"; status_code := 400 |}.
    split; [|done].
    unfold lookup_catalog, py_get, dict_get. simpl.
    destruct H as [-> | (s & -> & Hs)]; simpl; [done|].
    by rewrite Hs.
  - intros Hdata. unfold lookup_catalog.
    destruct data; try by eexists. by destruct (Hdata d).
Qed.

(** A catalog number that is not a string makes line 225 raise as well: the
    answer has status 500 and an [error] field, and no stage of the pipeline
    is called. *)
Lemma malformed_body_is_server_error (w : env) (data : pyval) :
  (∀ d, data ≠ PDict d)
  ∨ (∃ d v, data = PDict d ∧ d !! "catalog_number" = Some v ∧ ∀ s, v ≠ PStr s) →
  ∃ e, lookup_catalog w data = ({| payload_of := ErrorOf e; status_code := 500 |}, []).
Proof.
  intros [Hdata | (d & v & -> & Hv & Hstr)]; unfold lookup_catalog.
  - destruct data; try by eexists. by destruct (Hdata d).
  - unfold py_get, dict_get. rewrite Hv. simpl.
    destruct v; try by eexists. by destruct (Hstr s).
Qed.

(** The bodies [null] and [[]] have no [catalog_number] and are answered
    with status 500, not 400. *)
Lemma body_without_object_is_answered_500 :
  lookup_catalog offline PNone
  = ({| payload_of := ErrorOf (AttributeError "NoneType" "get"); status_code := 500 |},
     [])
  ∧ lookup_catalog offline (PList [])
    = ({| payload_of := ErrorOf (AttributeError "list" "get"); status_code := 500 |},
       []).
Proof. by vm_compute. Qed.

(** ** The Locator reports every failure as "not found" *)

Lemma first_link_no_match (w : env) (hrefs : list string) :
  Forall (λ href, link_matches href = false) hrefs → first_link w hrefs = None.
Proof.
  induction 1 as [|href rest Hm _ IH]; simpl; [done|].
  unfold clean_link. by rewrite Hm.
Qed.

Lemma is_empty_false (s : string) : s ≠ "" → Py.is_empty s = false.
Proof. by destruct s. Qed.

(** C3.  When the search request fails, for whatever reason, or no anchor
    of the page it returns matches, the Locator returns its one "not found"
    result, and the endpoint answers with status 200 and a body whose
    [status] is [not_found]. *)
Theorem locator_failure_is_not_found
    (w : env) (d : gmap string pyval) (s : string) :
  d !! "catalog_number" = Some (PStr s) →
  Py.strip s ≠ "" →
  (∃ e, google_search w (search_query (Py.strip s)) = inl e)
  ∨ (∃ page, google_search w (search_query (Py.strip s)) = inr page
             ∧ Forall (λ href, link_matches href = false) (select_a_href page)) →
  search_lddb_catalog_number w (Py.strip s) = None
  ∧ ∃ message,
      lookup_catalog w (PDict d)
      = ({| payload_of := Status "not_found" message; status_code := 200 |},
         [Locate (Py.strip s)]).
Proof.
  intros Hd Hs Hfail.
  assert (Hnone : search_lddb_catalog_number w (Py.strip s) = None).
  { unfold search_lddb_catalog_number.
    destruct Hfail as [[e ->] | (page & -> & Hno)]; [done|].
    by apply first_link_no_match. }
  split; [done|].
  eexists. unfold lookup_catalog, py_get, dict_get. rewrite Hd. simpl.
  rewrite (is_empty_false _ Hs). unfold run_pipeline. by rewrite Hnone.
Qed.

(** ** The Extractor, step by step *)

Lemma bind_inr {A B : Type} (m : exn + A) (k : A → exn + B) (b : B) :
  (m ≫= k) = inr b → ∃ a, m = inr a ∧ k a = inr b.
Proof. destruct m as [e|a]; [done|]. intros H. by exists a. Qed.

Lemma extract_title_other (page : soup) (m : gmap string pyval) (k : string) :
  k ≠ "title" → extract_title page m !! k = m !! k.
Proof.
  intros Hk. unfold extract_title. destruct (title_tag page); [|done].
  by rewrite lookup_insert_ne.
Qed.

Lemma extract_heading_other (page : soup) (m : gmap string pyval) (k : string) :
  k ≠ "title" → extract_heading page m !! k = m !! k.
Proof.
  intros Hk. unfold extract_heading. destruct (h1_tag page); [|done].
  case_match; [|done]. by rewrite lookup_insert_ne.
Qed.

Lemma extract_year_other
    (w : env) (page : soup) (m m' : gmap string pyval) (k : string) :
  extract_year w page m = inr m' → k ≠ "year" → m' !! k = m !! k.
Proof.
  unfold extract_year. intros H Hk.
  repeat case_match; simplify_eq; [|done]. by rewrite lookup_insert_ne.
Qed.

Lemma set_cover_other (i : option img) (m : gmap string pyval) (k : string) :
  k ≠ "coverUrl" → set_cover i m !! k = m !! k.
Proof.
  intros Hk. unfold set_cover.
  repeat case_match; try done; by rewrite lookup_insert_ne.
Qed.

Lemma extract_cover_other
    (w : env) (page : soup) (m m' : gmap string pyval) (k : string) :
  extract_cover w page m = inr m' → k ≠ "coverUrl" → m' !! k = m !! k.
Proof.
  unfold extract_cover. intros H Hk.
  apply bind_inr in H as (i & _ & H). simplify_eq. by apply set_cover_other.
Qed.

Lemma extract_field_other
    (w : env) (m m' : gmap string pyval) (entry : string * option string)
    (k : string) :
  extract_field w m entry = inr m' → field_key k = false → m' !! k = m !! k.
Proof.
  unfold extract_field, field_key. intros H Hk.
  apply bool_decide_eq_false in Hk.
  repeat case_match; simplify_eq; try done;
    rewrite lookup_insert_ne; try done; intros <-; apply Hk; set_solver.
Qed.

Lemma extract_fields_other
    (w : env) (pairs : list (string * option string)) (m m' : gmap string pyval)
    (k : string) :
  extract_fields w pairs m = inr m' → field_key k = false → m' !! k = m !! k.
Proof.
  revert m. induction pairs as [|entry rest IH]; simpl; intros m H Hk.
  - by simplify_eq.
  - apply bind_inr in H as (m1 & H1 & H2).
    rewrite (IH _ H2 Hk). by eapply extract_field_other.
Qed.

Lemma extract_cast_other (page : soup) (m : gmap string pyval) (k : string) :
  k ≠ "cast" → extract_cast page m !! k = m !! k.
Proof.
  intros Hk. unfold extract_cast. case_match; [done|].
  by rewrite lookup_insert_ne.
Qed.

Lemma extract_description_other (page : soup) (m : gmap string pyval) (k : string) :
  k ≠ "description" → extract_description page m !! k = m !! k.
Proof.
  intros Hk. unfold extract_description. case_match; [|done].
  by rewrite lookup_insert_ne.
Qed.

(** A record is returned exactly when the three steps that can raise do
    not. *)
Lemma scrape_page_inr
    (w : env) (lddb_url : string) (page : soup) (metadata : gmap string pyval) :
  scrape_page w lddb_url page = inr metadata →
  ∃ m1 m2 m3,
    extract_year w page
      (extract_heading page (extract_title page (initial_metadata lddb_url))) = inr m1
    ∧ extract_cover w page m1 = inr m2
    ∧ extract_fields w (dts page) m2 = inr m3
    ∧ metadata = extract_description page (extract_cast page m3).
Proof.
  unfold scrape_page. intros H.
  apply bind_inr in H as (m1 & H1 & H).
  apply bind_inr in H as (m2 & H2 & H).
  apply bind_inr in H as (m3 & H3 & H).
  exists m1, m2, m3. by simplify_eq.
Qed.

Lemma scrape_lddb_metadata_some (w : env) (lddb_url : string) (metadata : gmap string pyval) :
  scrape_lddb_metadata w lddb_url = Some metadata →
  ∃ page, fetch_page w lddb_url = inr page
          ∧ scrape_page w lddb_url page = inr metadata.
Proof.
  unfold scrape_lddb_metadata. intros H.
  destruct (fetch_page w lddb_url) as [e|page]; simpl in H; [done|].
  exists page. split; [done|].
  destruct (scrape_page w lddb_url page); by simplify_eq.
Qed.

(** The value a key has before the description step. *)
Lemma scrape_page_untouched
    (w : env) (lddb_url : string) (page : soup) (metadata : gmap string pyval)
    (k : string) :
  scrape_page w lddb_url page = inr metadata →
  k ∈ ["format"; "description"; "sourceUrl"] →
  k ≠ "description" ∨ description_text page = None →
  metadata !! k = initial_metadata lddb_url !! k.
Proof.
  intros H Hk Hd.
  apply scrape_page_inr in H as (m1 & m2 & m3 & H1 & H2 & H3 & ->).
  assert (extract_description page (extract_cast page m3) !! k
          = extract_cast page m3 !! k) as ->.
  { destruct Hd as [Hd|Hd]; [by apply extract_description_other|].
    unfold extract_description. by rewrite Hd. }
  assert (k ≠ "cast" ∧ field_key k = false ∧ k ≠ "coverUrl" ∧ k ≠ "year"
          ∧ k ≠ "title") as (?&?&?&?&?).
  { repeat (apply elem_of_cons in Hk as [->|Hk]; [by vm_compute|]).
    by apply elem_of_nil in Hk. }
  rewrite extract_cast_other by done.
  rewrite (extract_fields_other _ _ _ _ _ H3) by done.
  rewrite (extract_cover_other _ _ _ _ _ H2) by done.
  rewrite (extract_year_other _ _ _ _ _ H1) by done.
  rewrite extract_heading_other by done.
  by rewrite extract_title_other.
Qed.

(** ** The description is cut at 500 characters *)

Lemma take_length (n : nat) (s : string) :
  String.length (Py.take n s) = (n `min` String.length s)%nat.
Proof.
  revert s. induction n as [|n IH]; intros [|c r]; simpl; try done.
  by rewrite IH.
Qed.

(** C8.  In every record the Extractor returns, the description is absent
    when no element was chosen for it, and otherwise it is the stripped text
    of the chosen element cut to its first 500 characters: never longer than
    500, and of length 500 exactly when the stripped text is longer. *)
Theorem description_is_truncated
    (w : env) (lddb_url : string) (metadata : gmap string pyval) :
  scrape_lddb_metadata w lddb_url = Some metadata →
  ∃ page,
    fetch_page w lddb_url = inr page
    ∧ match description_text page with
      | Some text =>
          ∃ description,
            metadata !! "description" = Some (PStr description)
            ∧ description = Py.take 500 (Py.strip text)
            ∧ (String.length description ≤ 500)%nat
            ∧ ((500 < String.length (Py.strip text))%nat →
               String.length description = 500%nat)
      | None => metadata !! "description" = Some PNone
      end.
Proof.
  intros H. apply scrape_lddb_metadata_some in H as (page & Hpage & H).
  exists page. split; [done|].
  destruct (description_text page) as [text|] eqn:Htext.
  - apply scrape_page_inr in H as (m1 & m2 & m3 & _ & _ & _ & ->).
    exists (Py.take 500 (Py.strip text)).
    unfold extract_description. rewrite Htext, lookup_insert_eq, take_length.
    repeat split; lia.
  - rewrite (scrape_page_untouched _ _ _ _ "description" H); [done|set_solver|by right].
Qed.

(** ** A width that is not a number abandons the extraction *)

Lemma find_wide_raises
    (w : env) (before after : list img) (i : img) (x : string) :
  Forall (λ j, match img_width j with
               | Some y => y = "" ∨ ∃ n, py_int w y = Some n ∧ n ≤ 100
               | None => True
               end) before →
  img_width i = Some x → x ≠ "" → py_int w x = None →
  find_wide w (before ++ i :: after) = inl ValueError.
Proof.
  intros Hbefore Hx Hne Hint.
  induction Hbefore as [|j rest Hj _ IH]; simpl.
  - rewrite Hx, (is_empty_false _ Hne). by rewrite Hint.
  - destruct (img_width j) as [y|]; [|done].
    destruct Hj as [-> | (n & Hy & Hn)]; [done|].
    destruct (Py.is_empty y); [done|].
    rewrite Hy. by destruct (Z.ltb_spec 100 n); [lia|].
Qed.

Lemma find_none {A : Type} (f : A → bool) (l : list A) :
  Forall (λ x, f x = false) l → List.find f l = None.
Proof. induction 1 as [|x rest Hx _ IH]; simpl; [done|]. by rewrite Hx. Qed.

Lemma find_cover_raises
    (w : env) (page : soup) (before after : list img) (i : img) (x : string) :
  imgs page = before ++ i :: after →
  Forall (λ j, src_names_cover j = false) (imgs page) →
  Forall (λ j, match img_width j with
               | Some y => y = "" ∨ ∃ n, py_int w y = Some n ∧ n ≤ 100
               | None => True
               end) before →
  img_width i = Some x → x ≠ "" → py_int w x = None →
  find_cover w page = inl ValueError.
Proof.
  intros Himgs Hsrc Hbefore Hx Hne Hint. unfold find_cover.
  rewrite (find_none _ _ Hsrc).
  assert (∃ j, List.find has_width (imgs page) = Some j) as [j ->].
  { rewrite Himgs. clear Himgs Hsrc Hbefore.
    induction before as [|j rest IH]; simpl.
    - unfold has_width. rewrite Hx. by eexists.
    - destruct (has_width j); by eauto. }
  rewrite Himgs. by eapply find_wide_raises.
Qed.

Lemma scrape_abandoned (w : env) (lddb_url : string) (page : soup) (e : exn) :
  fetch_page w lddb_url = inr page →
  find_cover w page = inl e →
  scrape_lddb_metadata w lddb_url = None.
Proof.
  intros Hpage Hcover. unfold scrape_lddb_metadata, scrape_page.
  rewrite Hpage. simpl.
  destruct (extract_year _ _) as [|m1]; simpl; [done|].
  unfold extract_cover. by rewrite Hcover.
Qed.

(** ** Numerals *)

Lemma digit_not_blank (c : ascii) :
  Py.isdigit c = true →
  Py.int_space c = false ∧ Ascii.eqb c "+" = false ∧ Ascii.eqb c "-" = false.
Proof. destruct c as [[] [] [] [] [] [] [] []]; vm_compute; by intros. Qed.

Lemma ltrim_digits (c : ascii) (r : string) :
  Py.isdigit c = true → Py.ltrim (String c r) = String c r.
Proof. intros Hc. simpl. by destruct (digit_not_blank c Hc) as (-> & _). Qed.

Lemma rtrim_digits (s : string) : all_digits s = true → Py.rtrim s = s.
Proof.
  induction s as [|c r IH]; simpl; [done|].
  intros (Hc & Hr)%andb_prop. rewrite (IH Hr).
  by destruct (digit_not_blank c Hc) as (-> & _).
Qed.

Lemma digits_total (s : string) (acc : Z) :
  all_digits s = true → ∃ n, Py.digits acc s = Some n.
Proof.
  revert acc. induction s as [|c r IH]; simpl; intros acc H; [by eexists|].
  apply andb_prop in H as (Hc & Hr). rewrite Hc. by apply IH.
Qed.

Lemma read_int_total (s : string) :
  s ≠ "" → all_digits s = true → ∃ n, Py.read_int s = Some n.
Proof.
  destruct s as [|c r]; [done|]. intros _ H.
  pose proof H as (Hc & Hr)%andb_prop.
  unfold Py.read_int. rewrite ltrim_digits, (rtrim_digits _ H) by done.
  destruct (digit_not_blank c Hc) as (_ & -> & ->).
  simpl. rewrite Hc. by apply digits_total.
Qed.

Lemma count_digits_length (s : string) :
  (Py.count_digits s ≤ String.length s)%nat.
Proof.
  induction s as [|c r IH]; simpl; [done|]. destruct (Py.isdigit c); lia.
Qed.

Lemma not_too_long (limit : nat) (s : string) :
  (String.length s ≤ 640)%nat → Py.too_long limit s = false.
Proof.
  intros H. unfold Py.too_long. pose proof (count_digits_length s).
  destruct (Nat.ltb_spec 640 (Py.count_digits s)); [lia|].
  by rewrite andb_false_r.
Qed.

(** On a string of at most 640 characters the limit of the interpreter
    plays no part. *)
Lemma py_int_short (w : env) (s : string) :
  (String.length s ≤ 640)%nat → py_int w s = Py.read_int s.
Proof.
  intros H. unfold py_int, Py.int. rewrite not_too_long by done.
  by destruct (Py.read_int s).
Qed.

(** [int] reads every non-empty string of at most 640 digits, whatever the
    limit of the interpreter. *)
Lemma int_total (w : env) (s : string) :
  s ≠ "" → all_digits s = true → (String.length s ≤ 640)%nat →
  ∃ n, py_int w s = Some n.
Proof.
  intros Hs Hd Hlen. destruct (read_int_total s Hs Hd) as [n Hn].
  exists n. unfold py_int, Py.int. by rewrite Hn, not_too_long.
Qed.

Lemma digit_run_digits (s : string) : all_digits (Py.digit_run s) = true.
Proof.
  induction s as [|c r IH]; simpl; [done|].
  destruct (Py.isdigit c) eqn:Hc; simpl; [|done]. by rewrite Hc.
Qed.

Lemma search_digits_int (w : env) (s run : string) :
  Py.search_digits s = Some run → (String.length run ≤ 640)%nat →
  ∃ n, py_int w run = Some n.
Proof.
  induction s as [|c r IH]; simpl; [done|].
  destruct (Py.isdigit c) eqn:Hc; [|done].
  intros [= <-] Hlen. apply int_total; [done| |done].
  simpl. by rewrite Hc, digit_run_digits.
Qed.


Lemma search_year_cons (c : ascii) (r : string) :
  Py.search_year (String c r)
  = match Py.year_here (String c r) with
    | Some y => Some y
    | None => Py.search_year r
    end.
Proof. done. Qed.


(** An image wider than 100 that comes first is taken, and a width after
    it is never read. *)
Lemma wide_image_first_is_taken (w : env) (src : string) (after : list img) :
  find_wide w ({| img_src := Some src; img_width := Some "300" |} :: after)
  = inr (Some {| img_src := Some src; img_width := Some "300" |}).
Proof.
  cbn [find_wide img_width Py.is_empty]. by rewrite py_int_short by (simpl; lia).
Qed.

(** ** The definition-list loop *)

(** One entry makes at most one assignment, and does not raise when its
    digits are few enough for [int]. *)
Lemma extract_field_assignment
    (w : env) (m : gmap string pyval) (entry : string * option string) :
  short_digit_run entry →
  extract_field w m entry
  = inr (match assignment w entry with
         | Some (k, v) => <[k:=v]> m
         | None => m
         end).
Proof.
  unfold short_digit_run, extract_field, assignment, field_of_label.
  destruct (entry.2) as [dd_text|]; [|done]. intros Hshort.
  destruct (Py.contains "director" _); [done|].
  destruct (Py.contains "genre" _ || Py.contains "category" _); [done|].
  destruct (Py.contains "runtime" _ || Py.contains "duration" _).
  - destruct (Py.search_digits _) as [run|] eqn:Hrun; [|done].
    destruct (search_digits_int w _ _ Hrun (Hshort _ _ eq_refl Hrun)) as [n ->].
    done.
  - by destruct (Py.contains "catalog" _ || Py.contains "number" _).
Qed.

Lemma has_short_digit_run_spec (entry : string * option string) :
  has_short_digit_run entry = true → short_digit_run entry.
Proof.
  unfold has_short_digit_run, short_digit_run. intros H dd_text run Hdd Hrun.
  rewrite Hdd, Hrun in H. by apply Nat.leb_le.
Qed.

(** C7, as amended.  Over definition-list entries whose values have no run
    of more than 640 digits, the loop does not raise.  An entry assigns at
    most one field, the one its lower-cased term selects when the keywords
    are tried in the order director; genre, category; runtime, duration;
    catalog, number ([assignment]): the director and the catalog number take
    the stripped value, the genres its comma-separated segments, each
    stripped, and the runtime the first run of digits of the value, when it
    has one.  Each field ends with the value given by the last entry that
    assigns it, and keeps its former value when no entry does. *)
Theorem definition_list_fields
    (w : env) (pairs : list (string * option string)) (m : gmap string pyval) :
  Forall short_digit_run pairs →
  ∃ m', extract_fields w pairs m = inr m'
        ∧ ∀ k, m' !! k = match last_assignment w k pairs with
                         | Some v => Some v
                         | None => m !! k
                         end.
Proof.
  intros Hshort. revert m.
  induction Hshort as [|entry rest Hentry _ IH]; intros m; simpl.
  - by exists m.
  - rewrite (extract_field_assignment _ _ _ Hentry). simpl.
    destruct (IH (match assignment w entry with
                  | Some (k, v) => <[k:=v]> m
                  | None => m
                  end)) as (m' & -> & Hm').
    exists m'. split; [done|]. intros k. rewrite Hm'.
    destruct (last_assignment w k rest); [done|].
    destruct (assignment w entry) as [[k' v]|]; [|done].
    destruct (String.eqb_spec k' k) as [->|Hk].
    + by rewrite lookup_insert_eq.
    + by rewrite lookup_insert_ne.
Qed.

(** A value of "120 minutes" under a runtime label gives the runtime 120. *)
Lemma runtime_of_120_minutes :
  field_after offline [("Runtime", Some "120 minutes")] "runtime" = Some (PInt 120).
Proof. by vm_compute. Qed.

(** A digit earlier in the value wins over "120 minutes", and a term that
    names two fields assigns only the first in the order of the tests. *)
Lemma first_digit_run_and_first_keyword_win :
  Py.contains "120 minutes" "2 sides, 120 minutes" = true
  ∧ field_after offline [("Runtime", Some "2 sides, 120 minutes")] "runtime"
    = Some (PInt 2)
  ∧ Py.contains "genre" (Py.lower "Genre / Director") = true
  ∧ field_after offline [("Genre / Director", Some "Horror, Ridley Scott")] "genres"
    = Some (PList [])
  ∧ field_after offline [("Genre / Director", Some "Horror, Ridley Scott")] "director"
    = Some (PStr "Horror, Ridley Scott").
Proof. by vm_compute. Qed.

(** ** The title *)

Lemma contains_char_cons (a c : ascii) (r : string) :
  Py.contains (String a "") (String c r)
  = Ascii.eqb a c || Py.contains (String a "") r.
Proof.
  simpl. destruct (ascii_dec a c) as [->|Hne].
  - rewrite Ascii.eqb_refl. by destruct r.
  - by apply Ascii.eqb_neq in Hne as ->.
Qed.

Lemma split_from_cons (sep : string) (c : ascii) (r : string) :
  Py.split_from sep 0 (String c r)
  = if String.prefix sep (String c r)
    then "" :: Py.split_from sep (Nat.pred (String.length sep)) r
    else match Py.split_from sep 0 r with
         | seg :: segs => String c seg :: segs
         | [] => [String c ""]
         end.
Proof. done. Qed.

Lemma first_segment_cons (sep : string) (c : ascii) (r : string) :
  String.prefix sep (String c r) = false →
  Py.first_segment sep (String c r) = String c (Py.first_segment sep r).
Proof.
  unfold Py.first_segment, Py.split. intros H.
  rewrite split_from_cons, H. by destruct (Py.split_from sep 0 r).
Qed.

Lemma first_segment_char_cons (a c : ascii) (r : string) :
  Py.first_segment (String a "") (String c r)
  = if Ascii.eqb a c then "" else String c (Py.first_segment (String a "") r).
Proof.
  destruct (Ascii.eqb_spec a c) as [->|Hne].
  - unfold Py.first_segment, Py.split. rewrite split_from_cons. simpl.
    destruct (ascii_dec c c); [|done]. by destruct r.
  - apply first_segment_cons. simpl. by destruct (ascii_dec a c).
Qed.

Lemma rstrip_all_blank (blanks : string) :
  all_blank blanks = true → Py.rstrip blanks = "".
Proof.
  induction blanks as [|b bs IH]; simpl; [done|].
  intros (-> & Hbs)%andb_prop. by rewrite (IH Hbs).
Qed.

Lemma rstrip_app_blank (s blanks : string) :
  all_blank blanks = true → Py.rstrip (s +:+ blanks) = Py.rstrip s.
Proof.
  intros Hb. induction s as [|c r IH]; simpl.
  - by apply rstrip_all_blank.
  - by rewrite IH.
Qed.

Lemma lstrip_blank (blanks : string) :
  all_blank blanks = true → Py.lstrip blanks = "".
Proof.
  induction blanks as [|b bs IH]; simpl; [done|].
  intros (-> & Hbs)%andb_prop. by apply IH.
Qed.

Lemma strip_app_blank (s blanks : string) :
  all_blank blanks = true → Py.strip (s +:+ blanks) = Py.strip s.
Proof.
  intros Hb. unfold Py.strip. induction s as [|c r IH]; simpl.
  - by rewrite lstrip_blank.
  - destruct (Py.isspace c); [done|].
    change (String c (r +:+ blanks)) with (String c r +:+ blanks).
    by rewrite rstrip_app_blank.
Qed.

Lemma blanks_then_bracket_segment (s : string) :
  Py.blanks_then_bracket s = true → all_blank (Py.first_segment "[" s) = true.
Proof.
  induction s as [|c r IH]; simpl Py.blanks_then_bracket; [done|].
  rewrite first_segment_char_cons, (Ascii.eqb_sym "[" c).
  destruct (Ascii.eqb c "["); [done|].
  destruct (Py.isspace c) eqn:Hc; [|done].
  intros H. simpl. by rewrite Hc, IH.
Qed.

Lemma blanks_then_bracket_contains (s : string) :
  Py.blanks_then_bracket s = true → Py.contains "[" s = true.
Proof.
  induction s as [|c r IH]; simpl Py.blanks_then_bracket; [done|].
  rewrite contains_char_cons, (Ascii.eqb_sym "[" c).
  destruct (Ascii.eqb c "["); [done|].
  destruct (Py.isspace c); [|done]. exact IH.
Qed.

Lemma append_cons (x : ascii) (a b : string) :
  String x a +:+ b = String x (a +:+ b).
Proof. done. Qed.

Lemma append_assoc (a b c : string) : (a +:+ b) +:+ c = a +:+ (b +:+ c).
Proof.
  induction a as [|x a IH]; [done|]. by rewrite !append_cons, IH.
Qed.

(** Without a bracket the pattern does not match. *)
Lemma lazy_group_no_bracket (s acc : string) :
  Py.contains "[" s = false → Py.lazy_group acc s = None.
Proof.
  revert acc. induction s as [|c r IH]; intros acc H.
  - done.
  - assert (Py.blanks_then_bracket (String c r) = false) as Hb.
    { destruct (Py.blanks_then_bracket (String c r)) eqn:Hb; [|done].
      apply blanks_then_bracket_contains in Hb. congruence. }
    rewrite contains_char_cons in H. apply orb_false_elim in H as (_ & H).
    change (Py.lazy_group acc (String c r))
      with (if Py.blanks_then_bracket (String c r) then Some acc
            else if Ascii.eqb c "010" then None
                 else Py.lazy_group (acc +:+ String c "") r).
    rewrite Hb. destruct (Ascii.eqb c "010"); [done|]. by apply IH.
Qed.

Lemma append_nil_r (s : string) : s +:+ "" = s.
Proof. induction s as [|c r IH]; [done|]. by rewrite append_cons, IH. Qed.

Lemma rstrip_blank_iff (s : string) : Py.rstrip s = "" → all_blank s = true.
Proof.
  induction s as [|c r IH]; simpl; [done|].
  destruct (Py.isspace c); simpl; [|done].
  destruct (Py.rstrip r); [by auto|done].
Qed.

(** A string is what [rstrip] leaves of it followed by blanks. *)
Lemma rstrip_split (s : string) :
  ∃ blanks, all_blank blanks = true ∧ s = Py.rstrip s +:+ blanks.
Proof.
  induction s as [|c r (blanks & Hb & Hr)]; [by exists ""|].
  simpl. destruct (Py.isspace c && Py.is_empty (Py.rstrip r)) eqn:Hc.
  - apply andb_prop in Hc as (Hc & He).
    exists (String c r). split; [|done]. simpl. rewrite Hc. simpl.
    apply rstrip_blank_iff. by destruct (Py.rstrip r).
  - exists blanks. split; [done|]. by rewrite append_cons, <- Hr.
Qed.

(** Blanks and then a bracket: what [\s*\[] matches. *)
Lemma blank_segment_bracket (s : string) :
  Py.contains "[" s = true →
  all_blank (Py.first_segment "[" s) = true →
  Py.blanks_then_bracket s = true.
Proof.
  induction s as [|c r IH]; [done|].
  rewrite contains_char_cons, first_segment_char_cons.
  simpl Py.blanks_then_bracket. rewrite (Ascii.eqb_sym c "[").
  destruct (Ascii.eqb "[" c); [done|]. simpl.
  intros Hr (-> & Hseg)%andb_prop. by apply IH.
Qed.

(** The lazy group on a text with a bracket: it takes the text before the
    first bracket without the blanks at its end, and fails when a line feed
    stands in that part. *)
Lemma lazy_group_cut (s acc : string) :
  Py.contains "[" s = true →
  Py.lazy_group acc s
  = if Py.contains (String "010" "") (Py.rstrip (Py.first_segment "[" s))
    then None
    else Some (acc +:+ Py.rstrip (Py.first_segment "[" s)).
Proof.
  revert acc. induction s as [|c r IH]; intros acc Hb; [done|].
  change (Py.lazy_group acc (String c r))
    with (if Py.blanks_then_bracket (String c r) then Some acc
          else if Ascii.eqb c "010" then None
               else Py.lazy_group (acc +:+ String c "") r).
  destruct (Py.blanks_then_bracket (String c r)) eqn:Hstop.
  - apply blanks_then_bracket_segment in Hstop.
    by rewrite (rstrip_all_blank _ Hstop), append_nil_r.
  - simpl Py.blanks_then_bracket in Hstop.
    destruct (Ascii.eqb c "[") eqn:Hc; [done|].
    rewrite contains_char_cons, (Ascii.eqb_sym "[" c), Hc in Hb. cbn [orb] in Hb.
    rewrite first_segment_char_cons, (Ascii.eqb_sym "[" c), Hc.
    assert (Py.rstrip (String c (Py.first_segment "[" r))
            = String c (Py.rstrip (Py.first_segment "[" r))) as ->.
    { simpl. destruct (Py.isspace c) eqn:Hblank; [|done]. cbn [andb].
      destruct (Py.rstrip (Py.first_segment "[" r)) eqn:Hseg; [|done].
      apply rstrip_blank_iff in Hseg.
      by rewrite (blank_segment_bracket r Hb Hseg) in Hstop. }
    rewrite contains_char_cons, (Ascii.eqb_sym "010" c).
    destruct (Ascii.eqb c "010"); [done|]. cbn [orb].
    rewrite (IH _ Hb).
    destruct (Py.contains (String "010" "") _); [done|]. by rewrite append_assoc.
Qed.

(** The stripped text of an element starts with a character that is no
    blank, a line feed least of all. *)
Lemma lstrip_head (s : string) :
  Py.lstrip s = "" ∨ ∃ c r, Py.lstrip s = String c r ∧ Py.isspace c = false.
Proof.
  induction s as [|c r IH]; simpl; [by left|].
  destruct (Py.isspace c) eqn:Hc; [done|]. right. by exists c, r.
Qed.

Lemma strip_head (s : string) :
  Py.strip s = ""
  ∨ ∃ c r, Py.strip s = String c r ∧ Py.isspace c = false ∧ Ascii.eqb c "010" = false.
Proof.
  unfold Py.strip. destruct (lstrip_head s) as [-> | (c & r & -> & Hc)]; [by left|].
  right. exists c, (Py.rstrip r). simpl. rewrite Hc. simpl.
  split; [done|]. split; [done|].
  destruct (Ascii.eqb_spec c "010") as [->|]; [by vm_compute in Hc|done].
Qed.

(** The pattern of line 86 and the fallback of line 90, in words. *)
Lemma title_of_amended (text : string) : title_of text = amended_title text.
Proof.
  unfold title_of, amended_title.
  destruct (strip_head text) as [-> | (c & r & -> & Hc & Hnl)]; [done|].
  unfold Py.match_before_bracket. rewrite Hnl.
  destruct (Py.contains "[" r) eqn:Hr; cbn [andb].
  - rewrite (lazy_group_cut r (String c "") Hr).
    destruct (Py.contains _ (Py.rstrip _)); cbn [negb]; [done|].
    destruct (rstrip_split (Py.first_segment "[" r)) as (blanks & Hb & Hseg).
    rewrite Hseg at 2. rewrite <- append_cons.
    by rewrite (strip_app_blank _ _ Hb).
  - by rewrite lazy_group_no_bracket.
Qed.

Lemma title_after_steps
    (w : env) (lddb_url : string) (page : soup) (metadata : gmap string pyval) :
  scrape_page w lddb_url page = inr metadata →
  metadata !! "title"
  = extract_heading page (extract_title page (initial_metadata lddb_url)) !! "title".
Proof.
  intros H. apply scrape_page_inr in H as (m1 & m2 & m3 & H1 & H2 & H3 & ->).
  rewrite extract_description_other, extract_cast_other by done.
  rewrite (extract_fields_other _ _ _ _ _ H3) by done.
  rewrite (extract_cover_other _ _ _ _ _ H2) by done.
  by rewrite (extract_year_other _ _ _ _ _ H1).
Qed.

(** C6, as amended.  For a page with a title element, the extracted title
    is the stripped title text cut before the first bracket that follows its
    first character, stripped again, provided no line feed stands in the
    part kept before the blanks in front of that bracket; it is the segment
    before the first [" - "], stripped, when there is no such bracket or a
    line feed stands in that part; and when the title so obtained is the
    sentinel "Unknown Title" and the page has an [h1] heading, it is the
    stripped text of that heading. *)
Theorem title_extraction
    (w : env) (lddb_url : string) (page : soup) (metadata : gmap string pyval)
    (text : string) :
  fetch_page w lddb_url = inr page →
  scrape_lddb_metadata w lddb_url = Some metadata →
  title_tag page = Some text →
  metadata !! "title"
  = Some (PStr (match h1_tag page with
                | Some heading =>
                    if String.eqb (amended_title text) "Unknown Title"
                    then Py.strip heading
                    else amended_title text
                | None => amended_title text
                end)).
Proof.
  intros Hpage H Htitle.
  apply scrape_lddb_metadata_some in H as (page' & Hpage' & H).
  assert (page' = page) as -> by congruence.
  rewrite (title_after_steps _ _ _ _ H).
  unfold extract_heading, extract_title. rewrite Htitle.
  rewrite title_of_amended.
  destruct (h1_tag page) as [heading|]; [|by rewrite lookup_insert_eq].
  unfold dict_get. rewrite lookup_insert_eq. simpl.
  destruct (String.eqb (amended_title text) "Unknown Title");
    by rewrite lookup_insert_eq.
Qed.

(** Three title texts on which the title is not the text without its
    trailing bracketed suffix: one that is nothing but the suffix, which is
    kept; one with a line feed in the part to keep, which keeps the suffix
    too; and one with two bracketed parts, which is cut before the first of
    them and not before the last. *)
Lemma bracketed_title_kept :
  title_of "[LaserDisc]" = "[LaserDisc]"
  ∧ claimed_title "[LaserDisc]" = ""
  ∧ title_of ("Alien" +:+ String "010" "Resurrection [LaserDisc]")
    = "Alien" +:+ String "010" "Resurrection [LaserDisc]"
  ∧ claimed_title ("Alien" +:+ String "010" "Resurrection [LaserDisc]")
    = "Alien" +:+ String "010" "Resurrection"
  ∧ title_of "Alien [Director's Cut] [LaserDisc]" = "Alien"
  ∧ claimed_title "Alien [Director's Cut] [LaserDisc]" = "Alien [Director's Cut]".
Proof. by vm_compute. Qed.

(** A line feed among the blanks in front of the bracket does no harm, and
    a title text that starts with a bracket is cut before the next one. *)
Lemma title_examples :
  title_of ("Alien" +:+ String "010" "  [LaserDisc]") = "Alien"
  ∧ claimed_title ("Alien" +:+ String "010" "  [LaserDisc]") = "Alien"
  ∧ title_of "[Uncut] Alien [LaserDisc]" = "[Uncut] Alien"
  ∧ claimed_title "[Uncut] Alien [LaserDisc]" = "[Uncut] Alien"
  ∧ title_of "Alien (1979) [1090-85] - LaserDisc Database" = "Alien (1979)"
  ∧ claimed_title "Alien (1979) [1090-85] - LaserDisc Database" = "Alien (1979)"
  ∧ title_of "Alien (1979) - LaserDisc Database" = "Alien (1979)".
Proof. by vm_compute. Qed.

(** C9.  There is a page which is fetched without error and on which the
    Extractor gives its failure signal instead of a record: no image source
    names a cover or a poster, the one image has a width that is not a
    number, the fallback of line 106 raises on it, and the title and year
    already read off the page are dropped with everything else. *)
Theorem bad_width_abandons_extraction :
  ∃ page : soup,
    Forall (λ i, src_names_cover i = false) (imgs page)
    ∧ Exists (λ i, ∃ x, img_width i = Some x ∧ Py.read_int x = None) (imgs page)
    ∧ ∀ (w : env) (lddb_url : string),
        fetch_page w lddb_url = inr page →
        (∃ m1,
            extract_year w page
              (extract_heading page
                 (extract_title page (initial_metadata lddb_url))) = inr m1
            ∧ m1 !! "title" = Some (PStr "Alien (1979)")
            ∧ m1 !! "year" = Some (PInt 1979)
            ∧ extract_cover w page m1 = inl ValueError)
        ∧ scrape_lddb_metadata w lddb_url = None.
Proof.
  exists fluid_image_page. split; [|split].
  - by repeat constructor.
  - apply Exists_cons_hd. by exists "100%".
  - intros w lddb_url Hpage.
    assert (find_cover w fluid_image_page = inl ValueError) as Hcover.
    { apply (find_cover_raises w _ [] []
               {| img_src := Some "/images/front.jpg"; img_width := Some "100%" |}
               "100%"); try done; by repeat constructor. }
    split; [|by eapply scrape_abandoned].
    eexists. split.
    { unfold extract_year.
      assert (Py.search_year (markup fluid_image_page) = Some "1979") as ->
        by by vm_compute.
      rewrite py_int_short by (simpl; lia). reflexivity. }
    split; [done|]. split; [done|].
    unfold extract_cover. by rewrite Hcover.
Qed.

(** ** When the Enricher is called *)

Lemma title_is_string (lddb_url : string) (page : soup) :
  ∃ title,
    extract_heading page (extract_title page (initial_metadata lddb_url)) !! "title"
    = Some (PStr title)
    ∧ (title_tag page = None → h1_tag page = None → title = "Unknown Title").
Proof.
  unfold extract_heading, extract_title, dict_get.
  destruct (title_tag page) as [text|], (h1_tag page) as [heading|];
    rewrite ?lookup_insert_eq; simpl.
  - destruct (String.eqb (title_of text) "Unknown Title");
      rewrite lookup_insert_eq; by eexists.
  - by eexists.
  - by eexists.
  - by eexists.
Qed.

Lemma year_after_steps
    (w : env) (lddb_url : string) (page : soup) (metadata : gmap string pyval) :
  scrape_page w lddb_url page = inr metadata →
  metadata !! "year" = Some PNone ∨ ∃ y, metadata !! "year" = Some (PInt y).
Proof.
  intros H. apply scrape_page_inr in H as (m1 & m2 & m3 & H1 & H2 & H3 & ->).
  rewrite extract_description_other, extract_cast_other by done.
  rewrite (extract_fields_other _ _ _ _ _ H3) by done.
  rewrite (extract_cover_other _ _ _ _ _ H2) by done.
  unfold extract_year in H1.
  destruct (Py.search_year (markup page)) as [group1|].
  - destruct (py_int w group1) as [y|]; [|done]. simplify_eq.
    right. exists y. by rewrite lookup_insert_eq.
  - simplify_eq. left.
    by rewrite extract_heading_other, extract_title_other.
Qed.

Lemma truthy_record (metadata : gmap string pyval) (k : string) (v : pyval) :
  metadata !! k = Some v → truthy (PDict metadata) = true.
Proof.
  intros H. simpl. rewrite bool_decide_eq_false_2; [done|].
  intros ->. by rewrite lookup_empty in H.
Qed.

(** The calls [enrich] makes: one to the Enricher when the title and the
    year are both truthy, none otherwise. *)
Lemma enrich_calls (w : env) (metadata : gmap string pyval) :
  (enrich w metadata).2
  = if truthy (dict_get metadata "title" PNone)
       && truthy (dict_get metadata "year" PNone)
    then [Enrich (dict_get metadata "title" PNone) (dict_get metadata "year" PNone)]
    else [].
Proof.
  unfold enrich. destruct (_ && _); [|done].
  destruct (enhance_with_tmdb _ _ _) as [enhanced|]; [|done].
  by destruct (truthy (PDict enhanced)).
Qed.

(** C10, as amended.  For a request whose extraction succeeds, the title
    of the record is a string, and the Enricher is called exactly when that
    string is not empty and the record has a year that is not zero; it is
    then called with that title and year.  On a page with neither a title
    element nor an [h1] heading the title is the sentinel "Unknown Title",
    so there the call is made whenever such a year was found. *)
Theorem enricher_called_on_title_and_year
    (w : env) (d : gmap string pyval) (s lddb_url : string)
    (metadata : gmap string pyval) :
  d !! "catalog_number" = Some (PStr s) →
  Py.strip s ≠ "" →
  search_lddb_catalog_number w (Py.strip s) = Some lddb_url →
  lddb_url ≠ "" →
  scrape_lddb_metadata w lddb_url = Some metadata →
  ∃ title,
    metadata !! "title" = Some (PStr title)
    ∧ (lookup_catalog w (PDict d)).2
      = Locate (Py.strip s) :: Extract lddb_url
        :: match metadata !! "year" with
           | Some (PInt y) =>
               if negb (Py.is_empty title) && negb (y =? 0)
               then [Enrich (PStr title) (PInt y)]
               else []
           | _ => []
           end
    ∧ ∀ page, fetch_page w lddb_url = inr page →
              title_tag page = None → h1_tag page = None →
              title = "Unknown Title".
Proof.
  intros Hd Hs Hurl Hne Hmd.
  pose proof Hmd as (page & Hpage & Hscrape)%scrape_lddb_metadata_some.
  destruct (title_is_string lddb_url page) as (title & Htitle & Hsentinel).
  rewrite <- (title_after_steps _ _ _ _ Hscrape) in Htitle.
  exists title. split; [done|]. split.
  - unfold lookup_catalog, py_get, dict_get. rewrite Hd. simpl.
    rewrite (is_empty_false _ Hs). unfold run_pipeline. rewrite Hurl.
    destruct lddb_url as [|c u]; [done|]. rewrite Hmd.
    rewrite (truthy_record _ _ _ Htitle).
    pose proof (enrich_calls w metadata) as Hcalls.
    destruct (enrich w metadata) as [merged calls]. simpl in *.
    rewrite Hcalls. unfold dict_get. rewrite Htitle. simpl.
    destruct (year_after_steps _ _ _ _ Hscrape) as [-> | [y ->]]; simpl.
    + by rewrite andb_false_r.
    + done.
  - intros page' Hpage'. assert (page' = page) as -> by congruence.
    exact Hsentinel.
Qed.

(** A page with an empty title element and a year: the extraction succeeds
    with the year 1995, the title is empty, and the Enricher is not called. *)
Lemma empty_title_skips_enricher :
  (scrape_lddb_metadata (serving (inr (results_page alien_url)) (inr untitled_page))
     alien_url ≫= lookup "year") = Some (PInt 1995)
  ∧ (scrape_lddb_metadata (serving (inr (results_page alien_url)) (inr untitled_page))
       alien_url ≫= lookup "title") = Some (PStr "")
  ∧ (lookup_catalog (serving (inr (results_page alien_url)) (inr untitled_page))
       (PDict (request_for "1090-85"))).2
    = [Locate "1090-85"; Extract alien_url].
Proof. by vm_compute. Qed.

(** ** The best match *)

(** One turn of the loop of lines 179-184: on a result that is well dated
    it returns the result when its release year is the year looked for and
    goes on otherwise, and on any other result it raises. *)
Lemma year_match_step (w : env) (y : Z) (result : pyval) :
  (well_dated w result
   ∧ ∀ rest, year_match w (PInt y) (result :: rest)
             = if released_in w y result then inr (Some result)
               else year_match w (PInt y) rest)
  ∨ (¬ well_dated w result
     ∧ ∃ e, ∀ rest, year_match w (PInt y) (result :: rest) = inl e).
Proof.
  destruct result as [| | | | | |d];
    try (right; split; [by intros (d & ? & _)|by eexists]).
  cbn [year_match py_get mbind exn_bind].
  unfold released_in, release_year, well_dated, dict_get.
  destruct (d !! "release_date") as [v|] eqn:Hv; cbn [default from_option id].
  2:{ left. split; [|done]. exists d. split; [done|]. left. by rewrite Hv. }
  assert (truthy v = true → (∀ s, v ≠ PStr s) ∨ (∃ s, v = PStr s ∧ py_int w (Py.take 4 s) = None) →
          ¬ (∃ d0, PDict d = PDict d0
                   ∧ (truthy (default PNone (d0 !! "release_date")) = false
                      ∨ ∃ s y0, d0 !! "release_date" = Some (PStr s)
                                ∧ py_int w (Py.take 4 s) = Some y0))) as Hill.
  { intros Htrue Hv' (d0 & [= <-] & [H | (s' & y' & H & Hy')]).
    - rewrite Hv in H. simpl in H. congruence.
    - rewrite Hv in H. injection H as ->.
      destruct Hv' as [Hv' | (s & [= <-] & Hs)]; [by eapply Hv'|]. congruence. }
  destruct (truthy v) eqn:Htrue.
  - destruct v as [|b|n|x|s|l|d'];
      try (right; split; [apply Hill; [done|by left]|by eexists]).
    cbn [py_year_prefix]. destruct (py_int w (Py.take 4 s)) as [y'|] eqn:Hy.
    + left. split; [exists d; split; [done|]; right; by exists s, y'|].
      intros rest. cbn [mbind exn_bind py_eq_int]. by destruct (y' =? y).
    + right. split; [|by eexists]. apply Hill; [done|]. right. by exists s.
  - left. split.
    + exists d. split; [done|]. left. by rewrite Hv.
    + intros rest. destruct v as [|b|n|x|s|l|d']; try done.
      destruct s; [|done]. by destruct (py_int w (Py.take 4 "")) eqn:Hint;
        [vm_compute in Hint|].
Qed.

(** The loop over the results it reads. *)
Lemma year_match_reading (w : env) (y : Z) (results : list pyval) :
  (Forall (well_dated w) (read_until w y results)
   ∧ year_match w (PInt y) results = inr (List.find (released_in w y) results))
  ∨ (Exists (λ result, ¬ well_dated w result) (read_until w y results)
     ∧ ∃ e, year_match w (PInt y) results = inl e).
Proof.
  induction results as [|result rest IH]; [by left|].
  cbn [read_until List.find].
  destruct (year_match_step w y result) as [(Hwell & Hstep) | (Hill & e & Hstep)].
  - rewrite Hstep. destruct (released_in w y result).
    + left. split; [by repeat constructor|done].
    + destruct IH as [(Hall & ->) | (Hsome & e & ->)].
      * left. split; [by constructor|done].
      * right. split; [by apply Exists_cons_tl|by exists e].
  - right. split; [by apply Exists_cons_hd|]. exists e. apply Hstep.
Qed.

Lemma Forall_Exists_not {A : Type} (P : A → Prop) (l : list A) :
  Forall P l → Exists (λ x, ¬ P x) l → False.
Proof. induction 1; inversion 1; by auto. Qed.

(** C4, as amended.  A year counts as supplied when it is not zero.  With
    a supplied year and more than one result, the Enricher reads the release
    dates of the results up to the first one released in that year.  When
    every result so read is a JSON object whose release date is missing,
    empty, or a string whose first four characters read as an integer, it
    selects the first result whose release year equals the year, or the first
    result when there is none; when one of them is not, the selection raises
    and no result is selected.  With no supplied year, or one result only, it
    reads no date and selects the first result, whatever the results hold. *)
Theorem best_match_selection
    (w : env) (year : option Z) (results : list pyval) :
  results ≠ [] →
  (Forall (well_dated w) (dates_read w year results) →
   ∃ best,
     claimed_best_match w (supplied year) results = Some best
     ∧ best_match w (year_value year) (PList results) = inr best)
  ∧ (Exists (λ result, ¬ well_dated w result) (dates_read w year results) →
     ∃ e, best_match w (year_value year) (PList results) = inl e)
  ∧ (supplied year = None ∨ length results = 1%nat →
     dates_read w year results = []).
Proof.
  intros Hne. destruct results as [|first rest]; [done|].
  unfold best_match, dates_read. cbn [py_first mbind exn_bind].
  assert (truthy (year_value year) = bool_decide (supplied year ≠ None)) as ->.
  { destruct year as [y|]; [|done]. simpl. by destruct (y =? 0). }
  destruct (supplied year) as [y|] eqn:Hy.
  2:{ cbn. split; [by exists first|]. split; [by inversion 1|done]. }
  assert (year_value year = PInt y) as ->.
  { destruct year as [y'|]; [|done]. simpl in *. destruct (y' =? 0); congruence. }
  rewrite bool_decide_eq_true_2 by done.
  destruct rest as [|second rest].
  { cbn. split; [by exists first|]. split; [by inversion 1|done]. }
  cbn [py_len py_iter mbind exn_bind length claimed_best_match].
  change (1 <? S (S (length rest)))%nat with true. cbn iota.
  destruct (year_match_reading w y (first :: second :: rest))
    as [(Hall & ->) | (Hsome & e & ->)].
  - split; [intros _; by eexists|]. split.
    + intros Hsome. destruct (Forall_Exists_not _ _ Hall Hsome).
    + intros [?|?]; done.
  - split; [|split].
    + intros Hall. destruct (Forall_Exists_not _ _ Hall Hsome).
    + intros _. by exists e.
    + intros [?|?]; done.
Qed.

(** Where the words of the specification fail.  A release date that does
    not start with a year, met before the match, ends the selection and with
    it the enrichment, where the specification has the second result
    selected; and with the year 0 the first result is selected, where the
    specification has the one released in that year. *)
Lemma malformed_date_ends_selection :
  claimed_best_match offline (Some 1995) dated_results = dated_results !! 1%nat
  ∧ best_match offline (PInt 1995) (PList dated_results) = inl ValueError
  ∧ enhance_with_tmdb
      (with_tmdb offline (PDict {[ "results" := PList dated_results ]})
         (PDict details_without_runtime))
      (PStr "Apollo 13") (PInt 1995) = None
  ∧ claimed_best_match offline (Some 0) year_zero_results = year_zero_results !! 1%nat
  ∧ best_match offline (PInt 0) (PList year_zero_results)
    = from_option inr (inl IndexError) (year_zero_results !! 0%nat).
Proof. by vm_compute. Qed.

(** With one result only its release date is not read: the result is
    selected though the date does not start with a year. *)
Lemma single_result_is_not_read :
  dates_read offline (Some 1995) one_result = []
  ∧ best_match offline (PInt 1995) (PList one_result)
    = from_option inr (inl IndexError) (one_result !! 0%nat).
Proof. by vm_compute. Qed.

(** ** The merge *)

(** The seven keys the merge writes, and what it writes to them. *)
Lemma merge_lookup (metadata enhanced : gmap string pyval) :
  merge metadata enhanced !! "description"
  = Some (dict_get enhanced "description" (dict_get metadata "description" PNone))
  ∧ merge metadata enhanced !! "posterUrl"
    = Some (py_or (dict_get enhanced "posterUrl" PNone)
                  (dict_get metadata "coverUrl" PNone))
  ∧ merge metadata enhanced !! "tmdbId" = Some (dict_get enhanced "tmdbId" PNone)
  ∧ merge metadata enhanced !! "director"
    = Some (dict_get enhanced "director" (dict_get metadata "director" PNone))
  ∧ merge metadata enhanced !! "actors"
    = Some (dict_get enhanced "actors" (dict_get metadata "cast" (PList [])))
  ∧ merge metadata enhanced !! "genres"
    = Some (dict_get enhanced "genres" (dict_get metadata "genres" (PList [])))
  ∧ merge metadata enhanced !! "runtime"
    = Some (dict_get enhanced "runtime" (dict_get metadata "runtime" PNone)).
Proof. unfold merge. by repeat split; apply lookup_union_Some_l. Qed.

(** Every other key keeps the Extractor's value. *)
Lemma merge_other (metadata enhanced : gmap string pyval) (k : string) :
  k ∉ ["description"; "posterUrl"; "tmdbId"; "director"; "actors"; "genres"; "runtime"] →
  merge metadata enhanced !! k = metadata !! k.
Proof.
  intros Hk. unfold merge. apply lookup_union_r.
  apply not_elem_of_list_to_map_1. simpl. exact Hk.
Qed.

(** The poster falls back to the Extractor's cover when the enrichment has
    none, and a director or a cast list the enrichment does not carry is
    taken from the Extractor. *)
Lemma merge_fallbacks (metadata enhanced : gmap string pyval) :
  (truthy (dict_get enhanced "posterUrl" PNone) = false →
   merge metadata enhanced !! "posterUrl" = Some (dict_get metadata "coverUrl" PNone))
  ∧ (enhanced !! "director" = None →
     merge metadata enhanced !! "director" = Some (dict_get metadata "director" PNone))
  ∧ (enhanced !! "actors" = None →
     merge metadata enhanced !! "actors" = Some (dict_get metadata "cast" (PList []))).
Proof.
  destruct (merge_lookup metadata enhanced) as (_ & -> & _ & -> & -> & _).
  unfold py_or, dict_get. repeat split.
  - by intros ->.
  - by intros ->.
  - by intros ->.
Qed.

Lemma add_director_other (credits : pyval) (e e' : gmap string pyval) (k : string) :
  add_director credits e = inr e' → k ≠ "director" → e' !! k = e !! k.
Proof.
  unfold add_director. intros H Hk.
  apply bind_inr in H as (crew & _ & H).
  destruct (truthy crew); [|by simplify_eq].
  apply bind_inr in H as (director & _ & H). simplify_eq.
  destruct (truthy director); [|done]. by rewrite lookup_insert_ne.
Qed.

Lemma add_actors_other (credits : pyval) (e e' : gmap string pyval) (k : string) :
  add_actors credits e = inr e' → k ≠ "actors" → e' !! k = e !! k.
Proof.
  unfold add_actors. intros H Hk.
  apply bind_inr in H as (cast & _ & H).
  destruct (truthy cast); [|by simplify_eq].
  apply bind_inr in H as (names & _ & H). simplify_eq.
  by rewrite lookup_insert_ne.
Qed.

(** The enrichment record always has the key [runtime]; it holds the
    runtime of the details, or [None] when they have none. *)
Lemma build_enhanced_runtime
    (w : env) (movie_id : pyval) (d enhanced : gmap string pyval) :
  build_enhanced w movie_id (PDict d) = inr enhanced →
  enhanced !! "runtime" = Some (dict_get d "runtime" PNone).
Proof.
  unfold build_enhanced. intros H.
  apply bind_inr in H as (e0 & H0 & H).
  apply bind_inr in H as (credits & _ & H).
  apply bind_inr in H as (e1 & H1 & H2).
  rewrite (add_actors_other _ _ _ _ H2), (add_director_other _ _ _ _ H1) by done.
  unfold enhanced_core in H0. cbn [py_get mbind exn_bind] in H0.
  apply bind_inr in H0 as (genres & _ & H0).
  apply bind_inr in H0 as (names & _ & H0). by simplify_eq.
Qed.

(** C1, where the code departs from it.  When the details of the selected
    movie carry no runtime, the merged record has the runtime [None],
    whatever runtime the Extractor had found. *)
Theorem enrichment_without_runtime_erases_runtime
    (w : env) (movie_id : pyval) (d enhanced metadata : gmap string pyval) :
  build_enhanced w movie_id (PDict d) = inr enhanced →
  dict_get d "runtime" PNone = PNone →
  merge metadata enhanced !! "runtime" = Some PNone.
Proof.
  intros H Hd.
  destruct (merge_lookup metadata enhanced) as (_ & _ & _ & _ & _ & _ & ->).
  unfold dict_get at 1. by rewrite (build_enhanced_runtime _ _ _ _ H), Hd.
Qed.

(** ** The redirect wrapper *)

Lemma prefix_app (p t : string) : String.prefix p (p +:+ t) = true.
Proof.
  induction p as [|c p IH]; [by destruct t|].
  rewrite append_cons. simpl.
  destruct (ascii_dec c c); [done|congruence].
Qed.

Lemma prefix_drop (p s : string) :
  String.prefix p s = true → s = p +:+ Py.drop (String.length p) s.
Proof.
  revert s. induction p as [|c p IH]; intros s.
  { intros _. by destruct s. }
  destruct s as [|c' s]; [done|]. simpl.
  destruct (ascii_dec c c') as [<-|]; [|done].
  intros H. by rewrite append_cons, <- (IH s H).
Qed.

Lemma split_from_skip (sep q t : string) :
  Py.split_from sep (String.length q) (q +:+ t) = Py.split_from sep 0 t.
Proof. induction q as [|c q IH]; [done|]. exact IH. Qed.

Lemma split_no_occurrence (sep t : string) :
  Py.contains sep t = false → Py.split sep t = [t].
Proof.
  unfold Py.split. induction t as [|c r IH]; [done|].
  intros H. rewrite split_from_cons.
  change (Py.contains sep (String c r))
    with (String.prefix sep (String c r) || Py.contains sep r) in H.
  apply orb_false_elim in H as (-> & Hr). by rewrite (IH Hr).
Qed.

(** Removing [old] from a string that starts with it and holds it nowhere
    else leaves the rest. *)
Lemma replace_prefix (old t : string) :
  old ≠ "" → Py.contains old t = false → Py.replace old "" (old +:+ t) = t.
Proof.
  intros Hold Ht. unfold Py.replace, Py.split.
  destruct old as [|c old]; [done|].
  rewrite append_cons, split_from_cons, <- append_cons, prefix_app.
  cbn [String.length Nat.pred].
  rewrite split_from_skip. fold (Py.split (String c old) t).
  by rewrite (split_no_occurrence _ _ Ht).
Qed.

Lemma clean_link_redirect (w : env) (href : string) :
  link_matches href = true →
  Py.startswith "/url?q=" href = true →
  Py.contains "/url?q=" (Py.first_segment "&" (Py.drop 7 href)) = false →
  clean_link w href = Some (claimed_redirect_target w href).
Proof.
  intros Hm Hp Hin. unfold clean_link, claimed_redirect_target.
  rewrite Hm, Hp. do 2 f_equal.
  rewrite (prefix_drop _ _ Hp) at 1.
  cbn [String.length]. set (rest := Py.drop 7 href) in *.
  assert (Py.first_segment "&" ("/url?q=" +:+ rest)
          = "/url?q=" +:+ Py.first_segment "&" rest) as ->.
  { change ("/url?q=" +:+ rest)
      with (String "/" (String "u" (String "r" (String "l" (String "?"
              (String "q" (String "=" rest))))))).
    by rewrite !first_segment_char_cons. }
  by apply replace_prefix.
Qed.

(** The scan of lines 33-48: links that are not taken are passed over, and
    the first one that is taken is returned. *)
Lemma first_link_scan (w : env) (before after : list string) (href url : string) :
  Forall (λ h, clean_link w h = None) before →
  clean_link w href = Some url →
  first_link w (before ++ href :: after) = Some url.
Proof.
  intros Hbefore Hurl. induction Hbefore as [|h rest Hh _ IH]; simpl.
  - by rewrite Hurl.
  - by rewrite Hh.
Qed.

Lemma clean_link_direct (w : env) (href : string) :
  link_matches href = true →
  Py.startswith "/url?q=" href = false →
  clean_link w href
  = if Py.startswith "https://www.lddb.com" href then Some href else None.
Proof. intros Hm Hp. unfold clean_link. by rewrite Hm, Hp. Qed.

(** C5, where the code departs from it.  On a redirect link whose target
    holds the text [/url?q=] again, the Locator returns the target with that
    text removed, not the text between the prefix and the first [&]. *)
Theorem redirect_target_loses_inner_prefix (w : env) :
  link_matches nested_redirect = true
  ∧ Py.startswith "/url?q=" nested_redirect = true
  ∧ first_link w [nested_redirect]
    = Some "https://www.lddb.com/laserdisc/007311090-85"
  ∧ claimed_redirect_target w nested_redirect
    = "https://www.lddb.com/laserdisc/00731/url?q=1090-85".
Proof. by vm_compute. Qed.

(** ** The theorems at work on the example pages *)

(** Closed goals are settled by evaluation: by conversion where the two
    sides are records, which are large once normalised, and by the virtual
    machine otherwise. *)
Ltac evaluate := first [reflexivity | by vm_compute].

Lemma enrichment_without_runtime_example :
  alien_metadata !! "runtime" = Some (PInt 117)
  ∧ ∃ enhanced,
      build_enhanced offline (PInt 348) (PDict details_without_runtime) = inr enhanced
      ∧ merge alien_metadata enhanced !! "runtime" = Some PNone.
Proof.
  split; [evaluate|].
  eexists. split; [evaluate|].
  apply (enrichment_without_runtime_erases_runtime
           offline (PInt 348) details_without_runtime);
    evaluate.
Defined.

Lemma missing_catalog_number_example :
  ∃ r, lookup_catalog offline (PDict (request_for "   ")) = (r, [])
       ∧ status_code r = 400
       ∧ has_error_field r = true.
Proof.
  apply (proj1 (missing_catalog_number_is_rejected offline (PDict (request_for "   ")))
           (request_for "   ") eq_refl).
  right. exists "   ". by split.
Defined.

Lemma locator_failure_example :
  search_lddb_catalog_number offline (Py.strip " 1090-85 ") = None
  ∧ ∃ message,
      lookup_catalog offline (PDict (request_for " 1090-85 "))
      = ({| payload_of := Status "not_found" message; status_code := 200 |},
         [Locate (Py.strip " 1090-85 ")]).
Proof.
  apply (locator_failure_is_not_found offline (request_for " 1090-85 ") " 1090-85 ").
  - done.
  - by vm_compute.
  - left. by eexists.
Defined.

Lemma best_match_example :
  ∃ best,
    claimed_best_match offline (supplied (Some 1995)) two_results = Some best
    ∧ best_match offline (year_value (Some 1995)) (PList two_results) = inr best.
Proof.
  apply (best_match_selection offline (Some 1995) two_results).
  - done.
  - repeat constructor; eexists; (split; [done|]); right;
      eexists _, _; (split; [by vm_compute|]); by vm_compute.
Defined.

(** With the years 1990 and 1995 and the year 1995 asked for, the second
    result is selected. *)
Lemma best_match_by_year :
  best_match offline (PInt 1995) (PList two_results)
  = from_option inr (inl IndexError) (two_results !! 1%nat).
Proof. by vm_compute. Qed.

Lemma title_extraction_example :
  alien_metadata !! "title"
  = Some (PStr (match h1_tag alien_page with
                | Some heading =>
                    if String.eqb
                         (amended_title "Alien (1979) [1090-85] - LaserDisc Database")
                         "Unknown Title"
                    then Py.strip heading
                    else amended_title "Alien (1979) [1090-85] - LaserDisc Database"
                | None => amended_title "Alien (1979) [1090-85] - LaserDisc Database"
                end)).
Proof.
  apply (title_extraction
           (serving (inr (results_page alien_url)) (inr alien_page))
           alien_url alien_page alien_metadata
           "Alien (1979) [1090-85] - LaserDisc Database");
    evaluate.
Defined.

Lemma definition_list_example :
  ∃ m',
    extract_fields offline (dts alien_page) (initial_metadata alien_url) = inr m'
    ∧ ∀ k, m' !! k = match last_assignment offline k (dts alien_page) with
                     | Some v => Some v
                     | None => initial_metadata alien_url !! k
                     end.
Proof.
  apply (definition_list_fields offline (dts alien_page) (initial_metadata alien_url)).
  unfold alien_page. cbn [dts].
  repeat (apply Forall_cons_2; [by apply has_short_digit_run_spec|]).
  apply Forall_nil_2.
Defined.

(** The fields of the example page after the loop. *)
Lemma definition_list_example_fields :
  alien_metadata !! "director" = Some (PStr "Ridley Scott")
  ∧ alien_metadata !! "genres" = Some (PList [PStr "Horror"; PStr "Science Fiction"])
  ∧ alien_metadata !! "runtime" = Some (PInt 117)
  ∧ alien_metadata !! "catalogNumber" = Some (PStr "1090-85").
Proof. by vm_compute. Qed.

Lemma description_example :
  ∃ page,
    fetch_page (serving (inr (results_page alien_url)) (inr alien_page)) alien_url
    = inr page
    ∧ match description_text page with
      | Some text =>
          ∃ description,
            alien_metadata !! "description" = Some (PStr description)
            ∧ description = Py.take 500 (Py.strip text)
            ∧ (String.length description ≤ 500)%nat
            ∧ ((500 < String.length (Py.strip text))%nat →
               String.length description = 500%nat)
      | None => alien_metadata !! "description" = Some PNone
      end.
Proof.
  apply (description_is_truncated
           (serving (inr (results_page alien_url)) (inr alien_page))
           alien_url alien_metadata).
  evaluate.
Defined.

(** The synopsis of the example page is longer than 500 characters and is
    stored cut to 500. *)
Lemma description_example_length :
  (500 <? String.length (Py.strip alien_synopsis))%nat = true
  ∧ (λ v, match v with PStr s => String.length s | _ => 0%nat end)
      <$> alien_metadata !! "description" = Some 500%nat.
Proof. by vm_compute. Qed.

Lemma enricher_called_example :
  ∃ title,
    bare_metadata !! "title" = Some (PStr title)
    ∧ (lookup_catalog (serving (inr (results_page alien_url)) (inr bare_page))
         (PDict (request_for "1090-85"))).2
      = Locate (Py.strip "1090-85") :: Extract alien_url
        :: match bare_metadata !! "year" with
           | Some (PInt y) =>
               if negb (Py.is_empty title) && negb (y =? 0)
               then [Enrich (PStr title) (PInt y)]
               else []
           | _ => []
           end
    ∧ ∀ page,
        fetch_page (serving (inr (results_page alien_url)) (inr bare_page)) alien_url
        = inr page →
        title_tag page = None → h1_tag page = None →
        title = "Unknown Title".
Proof.
  apply (enricher_called_on_title_and_year
           (serving (inr (results_page alien_url)) (inr bare_page))
           (request_for "1090-85") "1090-85" alien_url bare_metadata);
    evaluate.
Defined.

(** On the page without title and heading the Enricher is called with the
    sentinel and the year found in the text. *)
Lemma sentinel_reaches_enricher :
  (lookup_catalog (serving (inr (results_page alien_url)) (inr bare_page))
     (PDict (request_for "1090-85"))).2
  = [Locate "1090-85"; Extract alien_url; Enrich (PStr "Unknown Title") (PInt 1979)].
Proof. by vm_compute. Qed.

(** * Further properties of the service *)

(** A closed decidable statement, settled by evaluating its decision. *)
Ltac by_evaluation := apply (bool_decide_unpack _); vm_compute; exact I.

(** ** Stripping *)

Lemma rstrip_idempotent (s : string) : Py.rstrip (Py.rstrip s) = Py.rstrip s.
Proof.
  induction s as [|c r IH]; simpl; [done|].
  destruct (Py.isspace c) eqn:Hc; simpl.
  - destruct (Py.is_empty (Py.rstrip r)) eqn:He; simpl; [done|].
    by rewrite Hc, IH, He.
  - by rewrite Hc, IH.
Qed.

(** Stripping a stripped string changes nothing. *)
Lemma strip_idempotent (s : string) : Py.strip (Py.strip s) = Py.strip s.
Proof.
  unfold Py.strip. destruct (lstrip_head s) as [-> | (c & r & -> & Hc)]; [done|].
  simpl. rewrite Hc. simpl. rewrite Hc. simpl. by rewrite Hc, rstrip_idempotent.
Qed.


(** ** The keys of the Extractor's record *)

Lemma insert_keeps_dom (m : gmap string pyval) (k : string) (v : pyval) :
  k ∈ dom m → dom (<[k:=v]> m) = dom m.
Proof.
  intros Hk. rewrite dom_insert_L.
  by apply subseteq_union_1_L, singleton_subseteq_l.
Qed.

Lemma initial_metadata_dom (lddb_url : string) :
  dom (initial_metadata lddb_url) = extractor_keys.
Proof. unfold initial_metadata. rewrite dom_list_to_map_L. done. Qed.

Ltac known_key H := rewrite insert_keeps_dom; [done | rewrite H; by_evaluation].

Lemma extract_title_dom (page : soup) (m : gmap string pyval) :
  dom m = extractor_keys → dom (extract_title page m) = extractor_keys.
Proof.
  intros Hm. unfold extract_title. destruct (title_tag page); [|done].
  known_key Hm.
Qed.

Lemma extract_heading_dom (page : soup) (m : gmap string pyval) :
  dom m = extractor_keys → dom (extract_heading page m) = extractor_keys.
Proof.
  intros Hm. unfold extract_heading. destruct (h1_tag page); [|done].
  case_match; [|done]. known_key Hm.
Qed.

Lemma extract_year_dom (w : env) (page : soup) (m m' : gmap string pyval) :
  extract_year w page m = inr m' → dom m = extractor_keys → dom m' = extractor_keys.
Proof.
  unfold extract_year. intros H Hm.
  repeat case_match; simplify_eq; [|done]. known_key Hm.
Qed.

Lemma extract_cover_dom (w : env) (page : soup) (m m' : gmap string pyval) :
  extract_cover w page m = inr m' → dom m = extractor_keys → dom m' = extractor_keys.
Proof.
  unfold extract_cover. intros H Hm.
  apply bind_inr in H as (i & _ & H). simplify_eq. unfold set_cover.
  repeat case_match; try done; known_key Hm.
Qed.

Lemma extract_field_dom
    (w : env) (m m' : gmap string pyval) (entry : string * option string) :
  extract_field w m entry = inr m' → dom m = extractor_keys → dom m' = extractor_keys.
Proof.
  unfold extract_field. intros H Hm.
  repeat case_match; simplify_eq; try done; known_key Hm.
Qed.

Lemma extract_fields_dom
    (w : env) (pairs : list (string * option string)) (m m' : gmap string pyval) :
  extract_fields w pairs m = inr m' → dom m = extractor_keys → dom m' = extractor_keys.
Proof.
  revert m. induction pairs as [|entry rest IH]; simpl; intros m H Hm.
  - by simplify_eq.
  - apply bind_inr in H as (m1 & H1 & H2).
    eapply IH; [done|]. by eapply extract_field_dom.
Qed.

Lemma extract_cast_dom (page : soup) (m : gmap string pyval) :
  dom m = extractor_keys → dom (extract_cast page m) = extractor_keys.
Proof.
  intros Hm. unfold extract_cast. case_match; [done|]. known_key Hm.
Qed.

Lemma extract_description_dom (page : soup) (m : gmap string pyval) :
  dom m = extractor_keys → dom (extract_description page m) = extractor_keys.
Proof.
  intros Hm. unfold extract_description. case_match; [|done]. known_key Hm.
Qed.

Lemma scrape_page_dom
    (w : env) (lddb_url : string) (page : soup) (metadata : gmap string pyval) :
  scrape_page w lddb_url page = inr metadata → dom metadata = extractor_keys.
Proof.
  intros H. apply scrape_page_inr in H as (m1 & m2 & m3 & H1 & H2 & H3 & ->).
  apply extract_description_dom, extract_cast_dom.
  eapply extract_fields_dom; [done|].
  eapply extract_cover_dom; [done|].
  eapply extract_year_dom; [done|].
  apply extract_heading_dom, extract_title_dom, initial_metadata_dom.
Qed.

Lemma scrape_dom (w : env) (lddb_url : string) (metadata : gmap string pyval) :
  scrape_lddb_metadata w lddb_url = Some metadata → dom metadata = extractor_keys.
Proof.
  intros (page & _ & H)%scrape_lddb_metadata_some. by eapply scrape_page_dom.
Qed.

Lemma scrape_truthy (w : env) (lddb_url : string) (metadata : gmap string pyval) :
  scrape_lddb_metadata w lddb_url = Some metadata → truthy (PDict metadata) = true.
Proof.
  intros H%scrape_dom. simpl. rewrite bool_decide_eq_false_2; [done|].
  intros ->. by rewrite dom_empty_L in H.
Qed.

Lemma scrape_fixed_fields (w : env) (lddb_url : string) (metadata : gmap string pyval) :
  scrape_lddb_metadata w lddb_url = Some metadata →
  metadata !! "format" = Some (PStr "LaserDisc")
  ∧ metadata !! "sourceUrl" = Some (PStr lddb_url).
Proof.
  intros (page & _ & H)%scrape_lddb_metadata_some. split.
  - rewrite (scrape_page_untouched _ _ _ _ "format" H); [done|set_solver|by left].
  - rewrite (scrape_page_untouched _ _ _ _ "sourceUrl" H); [done|set_solver|by left].
Qed.

(** ** The endpoint, case by case *)

Lemma lookup_accepted (w : env) (d : gmap string pyval) (s : string) :
  d !! "catalog_number" = Some (PStr s) →
  Py.strip s ≠ "" →
  lookup_catalog w (PDict d) = run_pipeline w (Py.strip s).
Proof.
  intros Hd Hs. unfold lookup_catalog, py_get, dict_get. rewrite Hd. simpl.
  by rewrite (is_empty_false _ Hs).
Qed.

(** A request is refused with an [error] field and no call, or handed to
    [run_pipeline]. *)
Lemma lookup_cases (w : env) (data : pyval) :
  ((lookup_catalog w data).2 = [] ∧ has_error_field (lookup_catalog w data).1 = true)
  ∨ ∃ c, lookup_catalog w data = run_pipeline w c.
Proof.
  unfold lookup_catalog.
  destruct (py_get data "catalog_number" (PStr "") ≫= py_strip) as [e|c]; [by left|].
  destruct (Py.is_empty c); [by left|]. right. by exists c.
Qed.

(** The three ways through lines 230-272. *)
Lemma run_pipeline_cases (w : env) (c : string) :
  ((search_lddb_catalog_number w c = None ∨ search_lddb_catalog_number w c = Some "")
   ∧ run_pipeline w c = (not_found c, [Locate c]))
  ∨ (∃ u, search_lddb_catalog_number w c = Some u ∧ u ≠ ""
          ∧ scrape_lddb_metadata w u = None
          ∧ run_pipeline w c = (not_extracted, [Locate c; Extract u]))
  ∨ (∃ u metadata,
        search_lddb_catalog_number w c = Some u ∧ u ≠ ""
        ∧ scrape_lddb_metadata w u = Some metadata
        ∧ run_pipeline w c
          = ({| payload_of := Success (enrich w metadata).1 c; status_code := 200 |},
             Locate c :: Extract u :: (enrich w metadata).2)).
Proof.
  unfold run_pipeline.
  destruct (search_lddb_catalog_number w c) as [[|a u]|] eqn:Hurl.
  - left. split; [by right|done].
  - right. destruct (scrape_lddb_metadata w (String a u)) as [metadata|] eqn:Hmd.
    + right. exists (String a u), metadata.
      rewrite (scrape_truthy _ _ _ Hmd). by destruct (enrich w metadata).
    + left. by exists (String a u).
  - left. split; [by left|done].
Qed.

(** The record [enrich] returns is the Extractor's, or its merge with what
    the Enricher returned. *)
Lemma enrich_record (w : env) (metadata : gmap string pyval) :
  (enrich w metadata).1 = metadata
  ∨ ∃ enhanced,
      enhance_with_tmdb w (dict_get metadata "title" PNone) (dict_get metadata "year" PNone)
      = Some enhanced
      ∧ (enrich w metadata).1 = merge metadata enhanced.
Proof.
  unfold enrich. destruct (_ && _); [|by left].
  destruct (enhance_with_tmdb _ _ _) as [enhanced|]; [|by left].
  destruct (truthy (PDict enhanced)); [|by left]. right. by exists enhanced.
Qed.

Lemma merge_dom (metadata enhanced : gmap string pyval) :
  dom metadata = extractor_keys →
  dom (merge metadata enhanced) = merge_adds ∪ extractor_keys.
Proof.
  intros Hm. unfold merge. rewrite dom_union_L, dom_list_to_map_L, Hm.
  by_evaluation.
Qed.

(** X1.  Blanks around the catalog number of a request play no part: the
    request is answered as the one with the stripped catalog number is, with
    the same calls to the stages. *)
Theorem surrounding_blanks_are_ignored
    (w : env) (d : gmap string pyval) (s : string) :
  lookup_catalog w (PDict (<["catalog_number" := PStr s]> d))
  = lookup_catalog w (PDict (<["catalog_number" := PStr (Py.strip s)]> d)).
Proof.
  unfold lookup_catalog, py_get, dict_get. rewrite !lookup_insert_eq. simpl.
  by rewrite strip_idempotent.
Qed.

(** X2.  The stages are called in the order Locator, Extractor, Enricher,
    each at most once and each on what the stage before it returned: the
    Extractor on the URL the Locator gave for the catalog number, the
    Enricher on the title and year of the Extractor's record.  A request
    that leads to no call is answered with an [error] field. *)
Theorem stages_are_called_in_order (w : env) (data : pyval) :
  match (lookup_catalog w data).2 with
  | [] => has_error_field (lookup_catalog w data).1 = true
  | [Locate c] =>
      search_lddb_catalog_number w c = None ∨ search_lddb_catalog_number w c = Some ""
  | [Locate c; Extract u] => search_lddb_catalog_number w c = Some u
  | [Locate c; Extract u; Enrich title year] =>
      search_lddb_catalog_number w c = Some u
      ∧ ∃ metadata,
          scrape_lddb_metadata w u = Some metadata
          ∧ metadata !! "title" = Some title
          ∧ metadata !! "year" = Some year
  | _ => False
  end.
Proof.
  destruct (lookup_cases w data) as [[-> H] | [c ->]]; [done|].
  destruct (run_pipeline_cases w c)
    as [(H & ->) | [(u & Hu & _ & _ & ->) | (u & metadata & Hu & _ & Hmd & ->)]];
    [done..|].
  cbn [snd]. rewrite enrich_calls.
  destruct (truthy _ && truthy _) eqn:Hguard; [|done].
  split; [done|]. exists metadata. split; [done|].
  apply andb_prop in Hguard as (Ht & Hy). unfold dict_get in *.
  destruct (metadata !! "title"); [|done]. by destruct (metadata !! "year").
Qed.








(** X4.  When the Locator has found a page and the Extractor returns its
    failure signal, the answer has status 200 and the body
    [{"status": "error", "message": "Found LDDB page but could not extract
    metadata"}]; the Enricher is not called. *)
Theorem extraction_failure_is_reported
    (w : env) (d : gmap string pyval) (s lddb_url : string) :
  d !! "catalog_number" = Some (PStr s) →
  Py.strip s ≠ "" →
  search_lddb_catalog_number w (Py.strip s) = Some lddb_url →
  lddb_url ≠ "" →
  scrape_lddb_metadata w lddb_url = None →
  lookup_catalog w (PDict d)
  = (not_extracted, [Locate (Py.strip s); Extract lddb_url]).
Proof.
  intros Hd Hs Hurl Hne Hmd. rewrite (lookup_accepted _ _ _ Hd Hs).
  unfold run_pipeline. rewrite Hurl. destruct lddb_url as [|a u]; [done|].
  by rewrite Hmd.
Qed.

(** X5.  When the Enricher returns nothing (no API key, a failed request,
    no search result), the answer is a success whose data is the Extractor's
    record as it was returned, with no key added or changed. *)
Theorem record_is_returned_without_enrichment
    (w : env) (d : gmap string pyval) (s lddb_url : string)
    (metadata : gmap string pyval) :
  d !! "catalog_number" = Some (PStr s) →
  Py.strip s ≠ "" →
  search_lddb_catalog_number w (Py.strip s) = Some lddb_url →
  lddb_url ≠ "" →
  scrape_lddb_metadata w lddb_url = Some metadata →
  enhance_with_tmdb w (dict_get metadata "title" PNone) (dict_get metadata "year" PNone)
  = None →
  (lookup_catalog w (PDict d)).1
  = {| payload_of := Success metadata (Py.strip s); status_code := 200 |}.
Proof.
  intros Hd Hs Hurl Hne Hmd Hnone. rewrite (lookup_accepted _ _ _ Hd Hs).
  destruct (run_pipeline_cases w (Py.strip s))
    as [([H|H] & _) | [(u & Hu & _ & H & _) | (u & m & Hu & _ & Hm & ->)]];
    [congruence..|].
  assert (u = lddb_url) as -> by congruence.
  assert (m = metadata) as -> by congruence.
  cbn [fst]. destruct (enrich_record w metadata) as [-> | (e & He & _)]; [done|].
  congruence.
Qed.

(** An environment without an API key has no enrichment to give. *)
Lemma no_key_no_enrichment (w : env) (title year : pyval) :
  tmdb_api_key w = None → enhance_with_tmdb w title year = None.
Proof. intros H. unfold enhance_with_tmdb. by rewrite H. Qed.

(** X6.  The data of a success answer has the eleven keys of the Extractor's
    record, and with an enrichment the three keys [posterUrl], [tmdbId] and
    [actors] besides; it has no other key and lacks none of these. *)
Theorem success_data_keys (w : env) (data : pyval) :
  match payload_of (lookup_catalog w data).1 with
  | Success record _ =>
      dom record = extractor_keys ∨ dom record = merge_adds ∪ extractor_keys
  | _ => True
  end.
Proof.
  destruct (lookup_cases w data) as [[_ H] | [c ->]].
  { unfold has_error_field in H. by destruct (payload_of _). }
  destruct (run_pipeline_cases w c)
    as [(_ & ->) | [(u & _ & _ & _ & ->) | (u & metadata & _ & _ & Hmd & ->)]];
    [done..|].
  cbn [fst payload_of]. pose proof (scrape_dom _ _ _ Hmd) as Hdom.
  destruct (enrich_record w metadata) as [-> | (e & _ & ->)]; [by left|].
  right. by apply merge_dom.
Qed.

(** X7.  In a success answer the title, the year, the format, the cover URL,
    the cast, the catalog number and the source URL are those of the
    Extractor's record for the page the Locator found, with or without an
    enrichment; the source URL is the URL the Locator returned. *)
Theorem enrichment_keeps_core_fields (w : env) (data : pyval) :
  match payload_of (lookup_catalog w data).1 with
  | Success record catalog_number =>
      ∃ lddb_url metadata,
        search_lddb_catalog_number w catalog_number = Some lddb_url
        ∧ scrape_lddb_metadata w lddb_url = Some metadata
        ∧ Forall (λ k, record !! k = metadata !! k)
            ["title"; "year"; "format"; "coverUrl"; "cast"; "catalogNumber"; "sourceUrl"]
        ∧ record !! "sourceUrl" = Some (PStr lddb_url)
  | _ => True
  end.
Proof.
  destruct (lookup_cases w data) as [[_ H] | [c ->]].
  { unfold has_error_field in H. by destruct (payload_of _). }
  destruct (run_pipeline_cases w c)
    as [(_ & ->) | [(u & _ & _ & _ & ->) | (u & metadata & Hu & _ & Hmd & ->)]];
    [done..|].
  cbn [fst payload_of]. exists u, metadata. split; [done|]. split; [done|].
  destruct (scrape_fixed_fields _ _ _ Hmd) as (_ & Hsource).
  destruct (enrich_record w metadata) as [-> | (e & _ & ->)].
  - split; [by repeat constructor|done].
  - split.
    + repeat (apply Forall_cons_2; [apply merge_other; by_evaluation|]).
      apply Forall_nil_2.
    + rewrite merge_other; [done|by_evaluation].
Qed.

(** ** The numbers of the record *)

Lemma digit_value_range (c : ascii) :
  Py.isdigit c = true → 0 ≤ Py.digit_value c ≤ 9.
Proof. destruct c as [[] [] [] [] [] [] [] []]; vm_compute; intros; split; congruence. Qed.

Lemma digits_bounds (s : string) (acc n : Z) :
  all_digits s = true →
  Py.digits acc s = Some n →
  acc * 10 ^ Z.of_nat (String.length s) ≤ n
  ∧ n < (acc + 1) * 10 ^ Z.of_nat (String.length s).
Proof.
  revert acc. induction s as [|c r IH]; intros acc Hs Hn.
  - simpl in *. simplify_eq. lia.
  - cbn [all_digits] in Hs. apply andb_prop in Hs as (Hc & Hr).
    cbn [Py.digits] in Hn. rewrite Hc in Hn.
    destruct (IH _ Hr Hn) as (Hlo & Hhi).
    pose proof (digit_value_range c Hc).
    cbn [String.length]. rewrite Nat2Z.inj_succ, Z.pow_succ_r by lia.
    assert (0 < 10 ^ Z.of_nat (String.length r)) by (apply Z.pow_pos_nonneg; lia).
    nia.
Qed.

(** What [int] reads off a run of digits is a natural number with no more
    digits than the run. *)
Lemma read_int_digits_range (s : string) (n : Z) :
  all_digits s = true →
  Py.read_int s = Some n →
  0 ≤ n < 10 ^ Z.of_nat (String.length s).
Proof.
  destruct s as [|c r]; [done|]. intros Hs Hn.
  pose proof Hs as (Hc & Hr)%andb_prop.
  unfold Py.read_int in Hn. rewrite ltrim_digits, (rtrim_digits _ Hs) in Hn by done.
  destruct (digit_not_blank c Hc) as (_ & Hplus & Hminus).
  rewrite Hplus, Hminus in Hn. cbn [Py.numeral] in Hn. rewrite Hc in Hn.
  destruct (digits_bounds _ _ _ Hr Hn) as (Hlo & Hhi).
  pose proof (digit_value_range c Hc).
  cbn [String.length]. rewrite Nat2Z.inj_succ, Z.pow_succ_r by lia.
  assert (0 < 10 ^ Z.of_nat (String.length r)) by (apply Z.pow_pos_nonneg; lia).
  nia.
Qed.

Lemma py_int_read (w : env) (s : string) (n : Z) :
  py_int w s = Some n → Py.read_int s = Some n.
Proof.
  unfold py_int, Py.int. destruct (Py.read_int s); [|done].
  by destruct (Py.too_long _ _).
Qed.

Lemma year_here_digits (s y : string) :
  Py.year_here s = Some y → all_digits y = true ∧ String.length y = 4%nat.
Proof.
  unfold Py.year_here. intros H.
  repeat (case_match; simplify_eq).
  repeat match goal with
         | H : _ && _ = true |- _ => apply andb_prop in H as [? ?]
         end.
  split; [|done]. simpl.
  by repeat match goal with
            | H : Py.isdigit _ = true |- _ => rewrite H; clear H
            end.
Qed.

Lemma search_year_digits (s y : string) :
  Py.search_year s = Some y → all_digits y = true ∧ String.length y = 4%nat.
Proof.
  induction s as [|c r IH]; [done|].
  rewrite search_year_cons.
  destruct (Py.year_here (String c r)) as [y'|] eqn:Hy; [|exact IH].
  intros [= <-]. by eapply year_here_digits.
Qed.

Lemma search_digits_digits (s run : string) :
  Py.search_digits s = Some run → all_digits run = true.
Proof.
  induction s as [|c r IH]; simpl; [done|].
  destruct (Py.isdigit c) eqn:Hc; [|done].
  intros [= <-]. simpl. by rewrite Hc, digit_run_digits.
Qed.

(** The year after the year step, and with it the year of the record. *)
Lemma year_of_record
    (w : env) (lddb_url : string) (page : soup) (metadata : gmap string pyval) :
  scrape_page w lddb_url page = inr metadata →
  metadata !! "year"
  = Some (match Py.search_year (markup page) with
          | Some group1 => from_option PInt PNone (Py.read_int group1)
          | None => PNone
          end)
  ∧ (∀ group1, Py.search_year (markup page) = Some group1 →
               ∃ y, Py.read_int group1 = Some y).
Proof.
  intros H. apply scrape_page_inr in H as (m1 & m2 & m3 & H1 & H2 & H3 & ->).
  rewrite extract_description_other, extract_cast_other by done.
  rewrite (extract_fields_other _ _ _ _ _ H3) by done.
  rewrite (extract_cover_other _ _ _ _ _ H2) by done.
  unfold extract_year in H1.
  destruct (Py.search_year (markup page)) as [group1|].
  - destruct (py_int w group1) as [y|] eqn:Hy; [|done]. simplify_eq.
    apply py_int_read in Hy. rewrite Hy, lookup_insert_eq.
    split; [done|]. intros ? [= <-]. by exists y.
  - simplify_eq. split; [|done].
    by rewrite extract_heading_other, extract_title_other.
Qed.

(** X8.  The year of a record is read off the first parenthesised group of
    four digits in the markup of the page: it is a number from 0 to 9999,
    and [None] exactly when the markup has no such group.  Reading it never
    fails, under any limit the interpreter puts on numerals. *)
Theorem year_is_read_off_the_markup
    (w : env) (lddb_url : string) (page : soup) (metadata : gmap string pyval) :
  fetch_page w lddb_url = inr page →
  scrape_lddb_metadata w lddb_url = Some metadata →
  match Py.search_year (markup page) with
  | Some group1 =>
      ∃ y, Py.read_int group1 = Some y
           ∧ 0 ≤ y ≤ 9999
           ∧ metadata !! "year" = Some (PInt y)
  | None => metadata !! "year" = Some PNone
  end.
Proof.
  intros Hpage (page' & Hpage' & H)%scrape_lddb_metadata_some.
  assert (page' = page) as -> by congruence.
  destruct (year_of_record _ _ _ _ H) as (Hyear & Hread).
  destruct (Py.search_year (markup page)) as [group1|] eqn:Hg; [|done].
  destruct (Hread _ eq_refl) as [y Hy]. exists y. split; [done|].
  rewrite Hy in Hyear. split; [|done].
  destruct (search_year_digits _ _ Hg) as (Hd & Hlen).
  pose proof (read_int_digits_range _ _ Hd Hy) as Hrange.
  rewrite Hlen in Hrange. change (10 ^ Z.of_nat 4) with 10000 in Hrange. lia.
Qed.

Lemma extract_field_runtime
    (w : env) (m m' : gmap string pyval) (entry : string * option string) :
  extract_field w m entry = inr m' →
  m' !! "runtime" = m !! "runtime"
  ∨ ∃ n, m' !! "runtime" = Some (PInt n) ∧ 0 ≤ n.
Proof.
  unfold extract_field. intros H.
  repeat case_match; simplify_eq; try (by left); try (left; by rewrite lookup_insert_ne).
  right. eexists. rewrite lookup_insert_eq. split; [done|].
  match goal with
  | Hs : Py.search_digits _ = Some ?run, Hi : py_int w ?run = Some _ |- _ =>
      apply search_digits_digits in Hs; apply py_int_read in Hi;
      pose proof (read_int_digits_range _ _ Hs Hi)
  end.
  lia.
Qed.

Lemma extract_fields_runtime
    (w : env) (pairs : list (string * option string)) (m m' : gmap string pyval) :
  extract_fields w pairs m = inr m' →
  m' !! "runtime" = m !! "runtime"
  ∨ ∃ n, m' !! "runtime" = Some (PInt n) ∧ 0 ≤ n.
Proof.
  revert m. induction pairs as [|entry rest IH]; simpl; intros m H.
  - simplify_eq. by left.
  - apply bind_inr in H as (m1 & H1 & H2).
    destruct (IH _ H2) as [-> | Hn]; [|by right].
    by eapply extract_field_runtime.
Qed.

(** X9.  The runtime of a record is [None] or a natural number: the digits
    of the value are read without the sign that may stand before them. *)
Theorem runtime_is_never_negative
    (w : env) (lddb_url : string) (metadata : gmap string pyval) :
  scrape_lddb_metadata w lddb_url = Some metadata →
  metadata !! "runtime" = Some PNone
  ∨ ∃ n, metadata !! "runtime" = Some (PInt n) ∧ 0 ≤ n.
Proof.
  intros (page & _ & H)%scrape_lddb_metadata_some.
  apply scrape_page_inr in H as (m1 & m2 & m3 & H1 & H2 & H3 & ->).
  rewrite extract_description_other, extract_cast_other by done.
  destruct (extract_fields_runtime _ _ _ _ H3) as [-> | Hn]; [left|by right].
  rewrite (extract_cover_other _ _ _ _ _ H2) by done.
  rewrite (extract_year_other _ _ _ _ _ H1) by done.
  by rewrite extract_heading_other, extract_title_other.
Qed.

(** ** What makes the Extractor fail *)

Lemma find_none_inv {A : Type} (f : A → bool) (l : list A) :
  List.find f l = None → Forall (λ x, f x = false) l.
Proof.
  induction l as [|x rest IH]; simpl; [by constructor|].
  destruct (f x) eqn:Hx; [done|]. intros H. constructor; by auto.
Qed.

Lemma find_elem {A : Type} (f : A → bool) (l : list A) (x : A) :
  List.find f l = Some x → x ∈ l ∧ f x = true.
Proof.
  induction l as [|y rest IH]; simpl; [done|].
  destruct (f y) eqn:Hy.
  - intros [= <-]. split; [by left|done].
  - intros H. destruct (IH H). split; [by right|done].
Qed.

Lemma find_wide_inl (w : env) (l : list img) (e : exn) :
  find_wide w l = inl e →
  e = ValueError
  ∧ ∃ before i after,
      l = before ++ i :: after
      ∧ Forall (λ j, narrow w j = true) before
      ∧ unread_width w i = true.
Proof.
  induction l as [|i rest IH]; simpl; [done|]. intros H.
  assert (find_wide w rest = inl e → narrow w i = true →
          e = ValueError
          ∧ ∃ before i' after,
              i :: rest = before ++ i' :: after
              ∧ Forall (λ j, narrow w j = true) before
              ∧ unread_width w i' = true) as Hnext.
  { intros Hr Hi. destruct (IH Hr) as (-> & before & i' & after & -> & Hb & Hu).
    split; [done|]. exists (i :: before), i', after.
    split; [done|]. split; [by constructor|done]. }
  unfold narrow, unread_width in *.
  destruct (img_width i) as [x|] eqn:Hx; [|by apply Hnext].
  destruct (Py.is_empty x) eqn:Hempty; [by apply Hnext|].
  destruct (py_int w x) as [n|] eqn:Hn.
  - destruct (Z.ltb_spec 100 n); [done|]. apply Hnext; [done|].
    simpl. by apply Z.leb_le.
  - simplify_eq. split; [done|]. exists [], i, rest.
    rewrite Hx, Hempty, Hn. split; [done|]. split; [by constructor|].
    by apply bool_decide_eq_true.
Qed.

Lemma find_wide_unread (w : env) (before after : list img) (i : img) :
  Forall (λ j, narrow w j = true) before →
  unread_width w i = true →
  find_wide w (before ++ i :: after) = inl ValueError.
Proof.
  unfold unread_width. intros Hb Hi.
  destruct (img_width i) as [x|] eqn:Hx; [|done].
  apply andb_prop in Hi as (Hne%negb_true_iff & Hint%bool_decide_eq_true).
  induction Hb as [|j rest Hj _ IH]; simpl.
  - by rewrite Hx, Hne, Hint.
  - unfold narrow in Hj. destruct (img_width j) as [y|]; [|done].
    destruct (Py.is_empty y); [done|]. simpl in Hj.
    destruct (py_int w y) as [n|]; [|done].
    apply Z.leb_le in Hj. by destruct (Z.ltb_spec 100 n); [lia|].
Qed.

Lemma find_cover_inl (w : env) (page : soup) (e : exn) :
  find_cover w page = inl e →
  e = ValueError
  ∧ Forall (λ i, src_names_cover i = false) (imgs page)
  ∧ ∃ before i after,
      imgs page = before ++ i :: after
      ∧ Forall (λ j, narrow w j = true) before
      ∧ unread_width w i = true.
Proof.
  unfold find_cover.
  destruct (List.find src_names_cover _) eqn:Hsrc; [done|].
  destruct (List.find has_width _); [|done].
  intros (-> & H)%find_wide_inl. split; [done|]. split; [by apply find_none_inv|done].
Qed.

Lemma find_cover_unread (w : env) (page : soup) (before after : list img) (i : img) :
  Forall (λ j, src_names_cover j = false) (imgs page) →
  imgs page = before ++ i :: after →
  Forall (λ j, narrow w j = true) before →
  unread_width w i = true →
  find_cover w page = inl ValueError.
Proof.
  intros Hsrc Himgs Hb Hi. unfold find_cover. rewrite (find_none _ _ Hsrc).
  assert (∃ j, List.find has_width (imgs page) = Some j) as [j ->].
  { rewrite Himgs. clear Himgs Hsrc Hb.
    assert (has_width i = true) as Hw.
    { unfold unread_width, has_width in *. by destruct (img_width i). }
    induction before as [|j rest IH]; simpl.
    - rewrite Hw. by eexists.
    - destruct (has_width j); by eauto. }
  rewrite Himgs. by apply find_wide_unread.
Qed.

(** X10.  The search for a cover image raises exactly when no image has a
    source that names a cover or a poster, and among the images, in document
    order, one whose width is not empty and is not read by [int] comes
    before any image wider than 100.  The exception is then a
    [ValueError]. *)
Theorem cover_search_raises_exactly_when (w : env) (page : soup) :
  (∀ e, find_cover w page = inl e → e = ValueError)
  ∧ (find_cover w page = inl ValueError
     ↔ Forall (λ i, src_names_cover i = false) (imgs page)
       ∧ ∃ before i after,
           imgs page = before ++ i :: after
           ∧ Forall (λ j, narrow w j = true) before
           ∧ unread_width w i = true).
Proof.
  split; [|split].
  - by intros e (-> & _)%find_cover_inl.
  - by intros (_ & H)%find_cover_inl.
  - intros (Hsrc & before & i & after & Himgs & Hb & Hi).
    by eapply find_cover_unread.
Qed.










(** ** The fields of the Extractor's record *)

(** X12.  Whatever the page holds, the record the Extractor returns has
    exactly the eleven keys it starts with, its format is "LaserDisc" and
    its source URL is the URL that was asked for. *)
Theorem extractor_record_keys
    (w : env) (lddb_url : string) (metadata : gmap string pyval) :
  scrape_lddb_metadata w lddb_url = Some metadata →
  dom metadata = extractor_keys
  ∧ metadata !! "format" = Some (PStr "LaserDisc")
  ∧ metadata !! "sourceUrl" = Some (PStr lddb_url).
Proof.
  intros H. split; [by eapply scrape_dom|]. exact (scrape_fixed_fields _ _ _ H).
Qed.

Lemma find_wide_elem (w : env) (l : list img) (i : img) :
  find_wide w l = inr (Some i) → i ∈ l.
Proof.
  induction l as [|j rest IH]; simpl; [done|]. intros H.
  destruct (img_width j) as [x|]; [|by right; auto].
  destruct (Py.is_empty x); [by right; auto|].
  destruct (py_int w x) as [n|]; [|done].
  destruct (100 <? n); [|by right; auto]. simplify_eq. by left.
Qed.

Lemma find_cover_elem (w : env) (page : soup) (i : img) :
  find_cover w page = inr (Some i) → i ∈ imgs page.
Proof.
  unfold find_cover. destruct (List.find src_names_cover _) as [j|] eqn:Hj.
  - intros [= <-]. by apply find_elem in Hj as (? & _).
  - destruct (List.find has_width _); [|done]. apply find_wide_elem.
Qed.

Lemma cover_of_record
    (w : env) (lddb_url : string) (page : soup) (metadata : gmap string pyval) :
  scrape_page w lddb_url page = inr metadata →
  ∃ cover_img,
    find_cover w page = inr cover_img
    ∧ metadata !! "coverUrl" = set_cover cover_img (initial_metadata lddb_url) !! "coverUrl".
Proof.
  intros H. apply scrape_page_inr in H as (m1 & m2 & m3 & H1 & H2 & H3 & ->).
  rewrite extract_description_other, extract_cast_other by done.
  rewrite (extract_fields_other _ _ _ _ _ H3) by done.
  unfold extract_cover in H2. apply bind_inr in H2 as (cover_img & Hc & H2).
  exists cover_img. split; [done|]. simplify_eq.
  assert (m1 !! "coverUrl" = initial_metadata lddb_url !! "coverUrl") as Hm1.
  { rewrite (extract_year_other _ _ _ _ _ H1) by done.
    by rewrite extract_heading_other, extract_title_other. }
  unfold set_cover. repeat case_match; rewrite ?lookup_insert_eq; done.
Qed.

(** X13.  The cover URL of a record is [None], or it is made from the source
    of an image of the page: a source that starts with a slash is put after
    [https://www.lddb.com], and a source that starts with [http] is taken as
    it is.  So a cover URL, when there is one, starts with [http]. *)
Theorem cover_url_comes_from_an_image
    (w : env) (lddb_url : string) (page : soup) (metadata : gmap string pyval) :
  fetch_page w lddb_url = inr page →
  scrape_lddb_metadata w lddb_url = Some metadata →
  metadata !! "coverUrl" = Some PNone
  ∨ ∃ i src cover_url,
      i ∈ imgs page
      ∧ img_src i = Some src
      ∧ metadata !! "coverUrl" = Some (PStr cover_url)
      ∧ Py.startswith "http" cover_url = true
      ∧ (Py.startswith "/" src = true ∧ cover_url = "https://www.lddb.com" +:+ src
         ∨ Py.startswith "/" src = false ∧ cover_url = src).
Proof.
  intros Hpage (page' & Hpage' & H)%scrape_lddb_metadata_some.
  assert (page' = page) as -> by congruence.
  destruct (cover_of_record _ _ _ _ H) as (cover_img & Hc & ->).
  unfold set_cover. destruct cover_img as [i|]; [|by left].
  apply find_cover_elem in Hc.
  destruct (img_src i) as [src|] eqn:Hsrc; [|by left]. cbn [default from_option id].
  destruct (Py.startswith "/" src) eqn:Hslash.
  - right. exists i, src, ("https://www.lddb.com" +:+ src).
    rewrite lookup_insert_eq. repeat split; [done..|by left].
  - destruct (Py.startswith "http" src) eqn:Hhttp; [|by left].
    right. exists i, src, src. rewrite lookup_insert_eq.
    repeat split; [done..|by right].
Qed.

(** X14.  The cast of a record is the stripped text of the first five
    anchors of the page whose target holds [/person/], in document order;
    it never has more than five names. *)
Theorem cast_is_first_five_person_links
    (w : env) (lddb_url : string) (page : soup) (metadata : gmap string pyval) :
  fetch_page w lddb_url = inr page →
  scrape_lddb_metadata w lddb_url = Some metadata →
  ∃ names,
    metadata !! "cast" = Some (PList (PStr <$> names))
    ∧ names = (λ a, Py.strip (a_text a))
              <$> take 5 (filter (λ a, is_person_link a = true) (anchors page))
    ∧ (length names ≤ 5)%nat.
Proof.
  intros Hpage (page' & Hpage' & H)%scrape_lddb_metadata_some.
  assert (page' = page) as -> by congruence.
  eexists. split; [|split; [reflexivity|]].
  - apply scrape_page_inr in H as (m1 & m2 & m3 & H1 & H2 & H3 & ->).
    rewrite extract_description_other by done.
    unfold extract_cast.
    destruct (filter _ (anchors page)) as [|a cast_elements] eqn:Hf.
    + rewrite (extract_fields_other _ _ _ _ _ H3) by done.
      rewrite (extract_cover_other _ _ _ _ _ H2) by done.
      rewrite (extract_year_other _ _ _ _ _ H1) by done.
      by rewrite extract_heading_other, extract_title_other.
    + rewrite lookup_insert_eq. by rewrite <- list_fmap_compose.
  - rewrite length_fmap, length_take. lia.
Qed.

(** ** Stripped text *)

Lemma strip_is_stripped (s : string) : is_stripped (Py.strip s) = true.
Proof. unfold is_stripped. rewrite strip_idempotent. apply String.eqb_refl. Qed.

Lemma stripped_list {A : Type} (f : A → string) (l : list A) :
  stripped (PList ((λ x, PStr (Py.strip (f x))) <$> l)) = true.
Proof.
  induction l as [|x rest IH]; [done|].
  cbn [stripped] in *. rewrite fmap_cons. cbn [forallb].
  by rewrite strip_is_stripped.
Qed.

Lemma keeps_stripped_insert (m : gmap string pyval) (k : string) (v : pyval) :
  keeps_stripped m →
  (k ∈ stripped_keys → stripped v = true) →
  keeps_stripped (<[k:=v]> m).
Proof.
  intros Hm Hv k' v' Hk'. destruct (decide (k = k')) as [->|Hne].
  - rewrite lookup_insert_eq. intros [= <-]. by apply Hv.
  - rewrite lookup_insert_ne by done. by apply Hm.
Qed.

Lemma initial_metadata_stripped (lddb_url : string) :
  keeps_stripped (initial_metadata lddb_url).
Proof.
  intros k v Hk. unfold stripped_keys in Hk.
  repeat (apply elem_of_cons in Hk as [->|Hk]; [by intros [= <-]|]).
  by apply elem_of_nil in Hk.
Qed.

Ltac other_key := intros Hin; exfalso; revert Hin; by_evaluation.

Ltac stripped_value :=
  first [ intros _; apply strip_is_stripped
        | intros _; rewrite <- list_fmap_compose; apply (stripped_list id)
        | intros _; apply stripped_list
        | other_key ].

Lemma extract_field_stripped
    (w : env) (m m' : gmap string pyval) (entry : string * option string) :
  extract_field w m entry = inr m' → keeps_stripped m → keeps_stripped m'.
Proof.
  unfold extract_field. intros H Hm.
  repeat case_match; simplify_eq; try done;
    (apply keeps_stripped_insert; [done|stripped_value]).
Qed.

Lemma extract_fields_stripped
    (w : env) (pairs : list (string * option string)) (m m' : gmap string pyval) :
  extract_fields w pairs m = inr m' → keeps_stripped m → keeps_stripped m'.
Proof.
  revert m. induction pairs as [|entry rest IH]; simpl; intros m H Hm.
  - by simplify_eq.
  - apply bind_inr in H as (m1 & H1 & H2).
    eapply IH; [done|]. by eapply extract_field_stripped.
Qed.

Lemma scrape_page_stripped
    (w : env) (lddb_url : string) (page : soup) (metadata : gmap string pyval) :
  scrape_page w lddb_url page = inr metadata → keeps_stripped metadata.
Proof.
  intros H. apply scrape_page_inr in H as (m1 & m2 & m3 & H1 & H2 & H3 & ->).
  assert (keeps_stripped
            (extract_heading page (extract_title page (initial_metadata lddb_url))))
    as H0.
  { pose proof (initial_metadata_stripped lddb_url) as Hinit.
    assert (keeps_stripped (extract_title page (initial_metadata lddb_url))) as Ht.
    { unfold extract_title. destruct (title_tag page) as [text|]; [|done].
      apply keeps_stripped_insert; [done|]. intros _. unfold title_of.
      destruct (Py.match_before_bracket _); apply strip_is_stripped. }
    unfold extract_heading. destruct (h1_tag page) as [heading|]; [|done].
    case_match; [|done]. apply keeps_stripped_insert; [done|stripped_value]. }
  assert (keeps_stripped m1) as Hm1.
  { unfold extract_year in H1. repeat case_match; simplify_eq; [|done].
    apply keeps_stripped_insert; [done|stripped_value]. }
  assert (keeps_stripped m2) as Hm2.
  { unfold extract_cover in H2. apply bind_inr in H2 as (i & _ & H2). simplify_eq.
    unfold set_cover. repeat case_match; try done;
      (apply keeps_stripped_insert; [done|stripped_value]). }
  pose proof (extract_fields_stripped _ _ _ _ H3 Hm2) as Hm3.
  assert (keeps_stripped (extract_cast page m3)) as Hm4.
  { unfold extract_cast. case_match; [done|].
    apply keeps_stripped_insert; [done|stripped_value]. }
  unfold extract_description. case_match; [|done].
  apply keeps_stripped_insert; [done|stripped_value].
Qed.

(** X15.  In every record the Extractor returns, the title, the director and
    the catalog number carry no blank at either end, and neither does any
    genre or any name of the cast. *)
Theorem text_fields_are_stripped
    (w : env) (lddb_url : string) (metadata : gmap string pyval) :
  scrape_lddb_metadata w lddb_url = Some metadata →
  Forall (λ k, ∃ v, metadata !! k = Some v ∧ stripped v = true) stripped_keys.
Proof.
  intros H. pose proof (scrape_dom _ _ _ H) as Hdom.
  apply scrape_lddb_metadata_some in H as (page & _ & H).
  pose proof (scrape_page_stripped _ _ _ _ H) as Hs.
  apply Forall_forall. intros k Hk.
  assert (k ∈ dom metadata) as [v Hv]%elem_of_dom.
  { rewrite Hdom. unfold stripped_keys in Hk.
    repeat (apply elem_of_cons in Hk as [->|Hk]; [by_evaluation|]).
    by apply elem_of_nil in Hk. }
  exists v. split; [done|]. by eapply Hs.
Qed.

(** X16.  Whenever the endpoint calls the Enricher, it passes a title that
    is a string, not empty and without blanks at its ends, and a year that
    is an integer from 1 to 9999. *)
Theorem enricher_arguments_are_well_formed
    (w : env) (data : pyval) (c u : string) (title year : pyval) :
  (lookup_catalog w data).2 = [Locate c; Extract u; Enrich title year] →
  ∃ (t : string) (y : Z),
    title = PStr t ∧ t ≠ "" ∧ Py.strip t = t
    ∧ year = PInt y ∧ 1 ≤ y ≤ 9999.
Proof.
  intros Hcalls.
  destruct (lookup_cases w data) as [[H _] | [c' Hrun]]; [congruence|].
  rewrite Hrun in Hcalls.
  destruct (run_pipeline_cases w c')
    as [(_ & H) | [(u' & _ & _ & _ & H) | (u' & metadata & _ & _ & Hmd & H)]];
    rewrite H in Hcalls; [done..|].
  cbn [snd] in Hcalls. rewrite enrich_calls in Hcalls.
  destruct (truthy (dict_get metadata "title" PNone)) eqn:Ht; [|done].
  destruct (truthy (dict_get metadata "year" PNone)) eqn:Hy; [|done].
  cbn [andb] in Hcalls. simplify_eq.
  apply scrape_lddb_metadata_some in Hmd as (page & _ & Hscrape).
  destruct (title_is_string u page) as (t & Htitle & _).
  rewrite <- (title_after_steps _ _ _ _ Hscrape) in Htitle.
  destruct (year_of_record _ _ _ _ Hscrape) as (Hyear & Hread).
  unfold dict_get in *. rewrite Htitle in Ht |- *. rewrite Hyear in Hy |- *.
  cbn [default from_option id] in *.
  destruct (Py.search_year (markup page)) as [group1|] eqn:Hg; [|done].
  destruct (Hread _ eq_refl) as [y Hint]. rewrite Hint in Hy |- *.
  cbn [from_option] in *. exists t, y.
  split; [done|]. split; [by destruct t|]. split.
  - pose proof (scrape_page_stripped _ _ _ _ Hscrape "title" (PStr t)) as Hs.
    apply String.eqb_eq, Hs; [by_evaluation|done].
  - split; [done|].
    destruct (search_year_digits _ _ Hg) as (Hd & Hlen).
    pose proof (read_int_digits_range _ _ Hd Hint) as Hrange.
    rewrite Hlen in Hrange. change (10 ^ Z.of_nat 4) with 10000 in Hrange.
    simpl in Hy. apply negb_true_iff, Z.eqb_neq in Hy. lia.
Qed.

(** ** Where the Locator may lead *)

Lemma contains_cons (sub : string) (c : ascii) (r : string) :
  Py.contains sub (String c r) = String.prefix sub (String c r) || Py.contains sub r.
Proof. done. Qed.

Lemma contains_app_r (sub s t : string) :
  Py.contains sub t = true → Py.contains sub (s +:+ t) = true.
Proof.
  intros Ht. induction s as [|c r IH]; [done|].
  rewrite append_cons, contains_cons, IH. apply orb_true_r.
Qed.

Lemma first_segment_app (a : ascii) (s t : string) :
  Py.contains (String a "") s = false →
  Py.first_segment (String a "") (s +:+ String a t) = s.
Proof.
  induction s as [|c r IH].
  - intros _. change ("" +:+ String a t) with (String a t).
    by rewrite first_segment_char_cons, Ascii.eqb_refl.
  - rewrite contains_char_cons. intros (Hc & Hr)%orb_false_elim.
    by rewrite append_cons, first_segment_char_cons, Hc, (IH Hr).
Qed.

(** X17.  The two tests of line 35 are put to the whole target of a link,
    but of a redirect link only the part before the first [&] is returned.
    So a redirect link that names the site after its first [&] makes the
    Locator return whatever stands before it, on the site or not (and the
    empty string when nothing does), and the links after it are not looked
    at. *)
Theorem redirect_target_may_leave_the_site
    (w : env) (target tail : string) (more : list string) :
  Py.contains "&" target = false →
  Py.contains "%" target = false →
  Py.contains "/url?q=" target = false →
  link_matches tail = true →
  first_link w (("/url?q=" +:+ target +:+ "&" +:+ tail) :: more) = Some target.
Proof.
  intros Hamp Hpct Hin Htail. cbn [first_link].
  set (href := "/url?q=" +:+ target +:+ "&" +:+ tail).
  assert (Py.first_segment "&" (Py.drop 7 href) = target) as Hseg.
  { change (Py.drop 7 href) with (target +:+ String "&" tail).
    by apply first_segment_app. }
  rewrite (clean_link_redirect w href).
  - unfold claimed_redirect_target. cbn [String.length]. rewrite Hseg.
    unfold unquote. by rewrite Hpct.
  - unfold link_matches in *. apply andb_prop in Htail as (H1 & H2).
    apply andb_true_intro.
    split; apply contains_app_r, contains_app_r, (contains_app_r _ "&"); done.
  - apply prefix_app.
  - by rewrite Hseg.
Qed.

Lemma clean_link_skipped (w : env) (href : string) :
  link_matches href = false
  ∨ (Py.startswith "/url?q=" href = false
     ∧ Py.startswith "https://www.lddb.com" href = false) →
  clean_link w href = None.
Proof.
  unfold clean_link. intros [-> | (-> & ->)]; [done|].
  by destruct (link_matches href).
Qed.

(** X18.  The Locator returns what the first usable link of the results
    page gives, in document order.  Links that lack one of the two markers,
    or that start neither with [/url?q=] nor with [https://www.lddb.com], are
    passed over.  A link with both markers that starts with
    [https://www.lddb.com] is returned as it is; one that starts with
    [/url?q=], and does not hold that text again before its first [&], gives
    the percent-decoded text between the prefix and the first [&]. *)
Theorem locator_returns_first_usable_link
    (w : env) (catalog_number : string) (page : soup)
    (before after : list string) (href : string) :
  google_search w (search_query catalog_number) = inr page →
  select_a_href page = before ++ href :: after →
  Forall (λ h, link_matches h = false
               ∨ (Py.startswith "/url?q=" h = false
                  ∧ Py.startswith "https://www.lddb.com" h = false)) before →
  link_matches href = true →
  (Py.startswith "/url?q=" href = true
   ∧ Py.contains "/url?q=" (Py.first_segment "&" (Py.drop 7 href)) = false)
  ∨ (Py.startswith "/url?q=" href = false
     ∧ Py.startswith "https://www.lddb.com" href = true) →
  search_lddb_catalog_number w catalog_number
  = Some (if Py.startswith "/url?q=" href
          then unquote w (Py.first_segment "&" (Py.drop 7 href))
          else href).
Proof.
  intros Hpage Hhrefs Hbefore Hm Hform.
  unfold search_lddb_catalog_number. rewrite Hpage, Hhrefs.
  apply first_link_scan.
  - eapply Forall_impl; [exact Hbefore|]. intros h. apply clean_link_skipped.
  - destruct Hform as [(Hp & Hin) | (Hp & Hd)]; rewrite Hp.
    + by rewrite (clean_link_redirect w href Hm Hp Hin).
    + by rewrite (clean_link_direct w href Hm Hp), Hd.
Qed.

(** ** The record of the Enricher *)

Lemma traverse_length {A B : Type} (f : A → exn + B) (l : list A) (ys : list B) :
  traverse f l = inr ys → length ys = length l.
Proof.
  revert ys. induction l as [|x rest IH]; simpl; intros ys H; [by simplify_eq|].
  apply bind_inr in H as (y & _ & H). apply bind_inr in H as (ys' & Hys & H).
  simplify_eq. simpl. by rewrite (IH _ Hys).
Qed.

Lemma enhanced_core_inr
    (w : env) (movie_id details : pyval) (e : gmap string pyval) :
  enhanced_core w movie_id details = inr e →
  dom e = enrichment_keys
  ∧ e !! "tmdbId" = Some movie_id
  ∧ (e !! "posterUrl" = Some PNone
     ∨ ∃ poster_path,
         e !! "posterUrl"
         = Some (PStr ("https://image.tmdb.org/t/p/w500" +:+ poster_path)))
  ∧ ∃ names, e !! "genres" = Some (PList names).
Proof.
  unfold enhanced_core. intros H.
  apply bind_inr in H as (overview & _ & H).
  apply bind_inr in H as (poster_path & _ & H).
  apply bind_inr in H as (runtime & _ & H).
  apply bind_inr in H as (genres & _ & H).
  apply bind_inr in H as (names & _ & H). simplify_eq.
  split; [by rewrite dom_list_to_map_L|]. split; [done|]. split.
  - destruct (truthy poster_path); [right|left]; by eexists.
  - by exists names.
Qed.

Lemma add_director_inr (credits : pyval) (e e' : gmap string pyval) :
  add_director credits e = inr e' →
  e' = e ∨ ∃ director, truthy director = true ∧ e' = <["director" := director]> e.
Proof.
  unfold add_director. intros H.
  apply bind_inr in H as (crew & _ & H).
  destruct (truthy crew); [|left; by simplify_eq].
  apply bind_inr in H as (director & _ & H). simplify_eq.
  destruct (truthy director) eqn:Hd; [right|left]; by eauto.
Qed.

Lemma add_actors_inr (credits : pyval) (e e' : gmap string pyval) :
  add_actors credits e = inr e' →
  e' = e
  ∨ ∃ names, (1 ≤ length names ≤ 10)%nat ∧ e' = <["actors" := PList names]> e.
Proof.
  unfold add_actors. intros H.
  apply bind_inr in H as (cast & _ & H).
  destruct (truthy cast) eqn:Hcast; [|left; by simplify_eq].
  apply bind_inr in H as (names & H1 & H). simplify_eq.
  apply bind_inr in H1 as (items & Hitems & Hnames).
  right. exists names. split; [|done].
  rewrite (traverse_length _ _ _ Hnames).
  destruct cast as [| | | |s|l|]; simplify_eq.
  - destruct s as [|c s]; [done|].
    cbn [py_take Py.take py_iter list_ascii_of_string fmap list_fmap] in Hitems.
    by simplify_eq.
  - simpl in Hitems. simplify_eq. destruct l as [|x l]; [done|].
    rewrite length_take. cbn [length]. lia.
Qed.

Lemma build_enhanced_inr
    (w : env) (movie_id details : pyval) (e : gmap string pyval) :
  build_enhanced w movie_id details = inr e →
  ∃ e0 e1 credits,
    enhanced_core w movie_id details = inr e0
    ∧ add_director credits e0 = inr e1
    ∧ add_actors credits e1 = inr e.
Proof.
  unfold build_enhanced. intros H.
  apply bind_inr in H as (e0 & H0 & H).
  apply bind_inr in H as (credits & _ & H).
  apply bind_inr in H as (e1 & H1 & H2). by exists e0, e1, credits.
Qed.

(** What has happened when the Enricher returns a record. *)
Lemma enhance_with_tmdb_some
    (w : env) (title year : pyval) (e : gmap string pyval) :
  enhance_with_tmdb w title year = Some e →
  ∃ key title_text search_data results best movie_id details,
    tmdb_api_key w = Some key
    ∧ title = PStr title_text
    ∧ tmdb_search w key title_text (if truthy year then Some year else None)
      = inr search_data
    ∧ py_get search_data "results" PNone = inr results
    ∧ truthy results = true
    ∧ best_match w year results = inr best
    ∧ py_item best "id" = inr movie_id
    ∧ tmdb_details w key movie_id = inr details
    ∧ build_enhanced w movie_id details = inr e.
Proof.
  unfold enhance_with_tmdb. destruct (tmdb_api_key w) as [key|]; [|done].
  destruct (enhance_with_key w key title year) as [|enhanced] eqn:H; [done|].
  intros ->. unfold enhance_with_key in H. destruct title as [| | | |title_text| |]; try done.
  apply bind_inr in H as (search_data & Hs & H).
  apply bind_inr in H as (results & Hr & H).
  destruct (truthy results) eqn:Ht; [|done].
  apply bind_inr in H as (best & Hb & H).
  apply bind_inr in H as (movie_id & Hid & H).
  apply bind_inr in H as (details & Hd & H).
  apply bind_inr in H as (enhanced & He & H). simplify_eq.
  by exists key, title_text, search_data, results, best, movie_id, details.
Qed.

Lemma build_enhanced_dom
    (w : env) (movie_id details : pyval) (e : gmap string pyval) :
  build_enhanced w movie_id details = inr e →
  enrichment_keys ⊆ dom e
  ∧ dom e ⊆ enrichment_keys ∪ {["director"; "actors"]}.
Proof.
  intros (e0 & e1 & credits & H0 & H1 & H2)%build_enhanced_inr.
  apply enhanced_core_inr in H0 as (Hdom & _).
  apply add_director_inr in H1 as [-> | (director & _ & ->)];
    apply add_actors_inr in H2 as [-> | (names & _ & ->)];
    rewrite ?dom_insert_L, Hdom; split; by_evaluation.
Qed.

(** X19.  A record the Enricher returns has the five keys [tmdbId],
    [description], [posterUrl], [runtime] and [genres], and besides them at
    most [director] and [actors].  It is never empty. *)
Theorem enrichment_record_keys
    (w : env) (title year : pyval) (enhanced : gmap string pyval) :
  enhance_with_tmdb w title year = Some enhanced →
  enrichment_keys ⊆ dom enhanced
  ∧ dom enhanced ⊆ enrichment_keys ∪ {["director"; "actors"]}
  ∧ truthy (PDict enhanced) = true.
Proof.
  intros (key & title_text & search_data & results & best & movie_id & details
          & _ & _ & _ & _ & _ & _ & _ & _ & H)%enhance_with_tmdb_some.
  apply build_enhanced_dom in H as (Hsub & Hsup).
  split; [done|]. split; [done|].
  simpl. rewrite bool_decide_eq_false_2; [done|].
  intros ->. rewrite dom_empty_L in Hsub.
  assert ("tmdbId" ∈ enrichment_keys) as Hin by by_evaluation.
  apply Hsub in Hin. by apply not_elem_of_empty in Hin.
Qed.

(** X20.  In a record the Enricher returns, the actors, when present, are a
    list of one to ten names; the director, when present, is not empty; the
    poster URL is [None] or starts with [https://image.tmdb.org/t/p/w500];
    and the genres are a list. *)
Theorem enrichment_field_shapes
    (w : env) (title year : pyval) (enhanced : gmap string pyval) :
  enhance_with_tmdb w title year = Some enhanced →
  (enhanced !! "actors" = None
   ∨ ∃ names, enhanced !! "actors" = Some (PList names)
              ∧ (1 ≤ length names ≤ 10)%nat)
  ∧ (enhanced !! "director" = None
     ∨ ∃ director, enhanced !! "director" = Some director ∧ truthy director = true)
  ∧ (enhanced !! "posterUrl" = Some PNone
     ∨ ∃ poster_path,
         enhanced !! "posterUrl"
         = Some (PStr ("https://image.tmdb.org/t/p/w500" +:+ poster_path)))
  ∧ ∃ names, enhanced !! "genres" = Some (PList names).
Proof.
  intros (key & title_text & search_data & results & best & movie_id & details
          & _ & _ & _ & _ & _ & _ & _ & _ & H)%enhance_with_tmdb_some.
  apply build_enhanced_inr in H as (e0 & e1 & credits & H0 & H1 & H2).
  pose proof (add_actors_other _ _ _ "posterUrl" H2 ltac:(done)) as Hp2.
  pose proof (add_director_other _ _ _ "posterUrl" H1 ltac:(done)) as Hp1.
  pose proof (add_actors_other _ _ _ "genres" H2 ltac:(done)) as Hg2.
  pose proof (add_director_other _ _ _ "genres" H1 ltac:(done)) as Hg1.
  pose proof (add_actors_other _ _ _ "director" H2 ltac:(done)) as Hd2.
  pose proof (add_director_other _ _ _ "actors" H1 ltac:(done)) as Ha1.
  apply enhanced_core_inr in H0 as (Hdom & _ & Hposter & Hgenres).
  assert (e0 !! "actors" = None ∧ e0 !! "director" = None) as (Ha0 & Hd0).
  { split; apply not_elem_of_dom; rewrite Hdom; by_evaluation. }
  rewrite Hp2, Hp1, Hg2, Hg1, Hd2.
  repeat split; [| |done..].
  - apply add_actors_inr in H2 as [-> | (names & Hlen & ->)].
    + left. by rewrite Ha1.
    + right. exists names. by rewrite lookup_insert_eq.
  - apply add_director_inr in H1 as [-> | (director & Ht & ->)].
    + by left.
    + right. exists director. by rewrite lookup_insert_eq.
Qed.

Lemma year_match_elem (w : env) (year : pyval) (l : list pyval) (r : pyval) :
  year_match w year l = inr (Some r) → r ∈ l.
Proof.
  induction l as [|x rest IH]; simpl; [done|]. intros H.
  apply bind_inr in H as (release_date & _ & H).
  destruct (truthy release_date).
  - apply bind_inr in H as (result_year & _ & H).
    destruct (py_eq_int year result_year).
    + simplify_eq. by left.
    + right. by apply IH.
  - right. by apply IH.
Qed.

Lemma best_match_elem (w : env) (year results : pyval) (b : gmap string pyval) :
  best_match w year results = inr (PDict b) →
  ∃ l, results = PList l ∧ PDict b ∈ l.
Proof.
  unfold best_match. intros H.
  apply bind_inr in H as (first & Hfirst & H).
  destruct results as [| | | |s|l|]; try done.
  - destruct s as [|c s]; [done|]. simpl in Hfirst. simplify_eq.
    destruct (truthy year); [|done].
    apply bind_inr in H as (n & _ & H). destruct (1 <? n)%nat; [|done].
    apply bind_inr in H as (items & Hitems & H). simpl in Hitems. by simplify_eq.
  - exists l. split; [done|]. destruct l as [|x l]; [done|].
    simpl in Hfirst. simplify_eq.
    destruct (truthy year); [|simplify_eq; by left].
    apply bind_inr in H as (n & _ & H).
    destruct (1 <? n)%nat; [|simplify_eq; by left].
    apply bind_inr in H as (items & Hitems & H). simpl in Hitems. simplify_eq.
    apply bind_inr in H as (found & Hfound & H). simplify_eq.
    destruct found as [r|]; simpl in *; [|simplify_eq; by left].
    simplify_eq. by eapply year_match_elem.
Qed.

(** X21.  When the Enricher returns a record, an API key was set, the search
    returned a JSON object whose [results] are a list, and the [tmdbId] of
    the record is the [id] of one of these results, for which the details
    were then requested.  The Enricher never asks for the details of a
    movie the search did not return. *)
Theorem enrichment_identifies_a_search_result
    (w : env) (title year : pyval) (enhanced : gmap string pyval) :
  enhance_with_tmdb w title year = Some enhanced →
  ∃ key title_text search_data results best movie_id details,
    tmdb_api_key w = Some key
    ∧ title = PStr title_text
    ∧ tmdb_search w key title_text (if truthy year then Some year else None)
      = inr (PDict search_data)
    ∧ search_data !! "results" = Some (PList results)
    ∧ PDict best ∈ results
    ∧ best !! "id" = Some movie_id
    ∧ tmdb_details w key movie_id = inr details
    ∧ enhanced !! "tmdbId" = Some movie_id.
Proof.
  intros (key & title_text & search_data & results & best & movie_id & details
          & Hkey & -> & Hsearch & Hresults & Htruthy & Hbest & Hid & Hdetails & H)
         %enhance_with_tmdb_some.
  destruct best as [| | | | | |b]; try done.
  apply best_match_elem in Hbest as (l & -> & Hin).
  destruct search_data as [| | | | | |sd]; try done.
  exists key, title_text, sd, l, b, movie_id, details.
  repeat split; try done.
  - simpl in Hresults. unfold dict_get in Hresults.
    destruct (sd !! "results") as [v|]; simpl in *; by simplify_eq.
  - simpl in Hid. by destruct (b !! "id"); simplify_eq.
  - apply build_enhanced_inr in H as (e0 & e1 & credits & H0 & H1 & H2).
    rewrite (add_actors_other _ _ _ _ H2), (add_director_other _ _ _ _ H1) by done.
    by apply enhanced_core_inr in H0 as (_ & -> & _).
Qed.

(** X22.  Whenever the Enricher is called and returns a record, the data of
    the answer is the merge of the Extractor's record with it: the test of
    line 252 never turns a returned record away. *)
Theorem returned_enrichment_is_merged
    (w : env) (metadata enhanced : gmap string pyval) :
  truthy (dict_get metadata "title" PNone) = true →
  truthy (dict_get metadata "year" PNone) = true →
  enhance_with_tmdb w (dict_get metadata "title" PNone) (dict_get metadata "year" PNone)
  = Some enhanced →
  enrich w metadata
  = (merge metadata enhanced,
     [Enrich (dict_get metadata "title" PNone) (dict_get metadata "year" PNone)]).
Proof.
  intros Ht Hy He. unfold enrich. rewrite Ht, Hy, He. cbn [andb].
  apply enhance_with_tmdb_some in He
    as (key & title_text & search_data & results & best & movie_id & details
        & _ & _ & _ & _ & _ & _ & _ & _ & H).
  apply build_enhanced_dom in H as (Hsub & _).
  assert (truthy (PDict enhanced) = true) as ->; [|done].
  simpl. rewrite bool_decide_eq_false_2; [done|].
  intros ->. rewrite dom_empty_L in Hsub.
  assert ("tmdbId" ∈ enrichment_keys) as Hin by by_evaluation.
  apply Hsub in Hin. by apply not_elem_of_empty in Hin.
Qed.

(** ** The request URLs *)

Lemma quote_app (s t : string) : quote (s +:+ t) = quote s +:+ quote t.
Proof.
  induction s as [|c r IH]; [done|].
  rewrite append_cons. cbn [quote]. by rewrite IH, append_assoc.
Qed.

Lemma all_chars_app (f : ascii → bool) (s t : string) :
  all_chars f (s +:+ t) = all_chars f s && all_chars f t.
Proof.
  induction s as [|c r IH]; [done|].
  rewrite append_cons. cbn [all_chars]. by rewrite IH, andb_assoc.
Qed.

Lemma quote_char_chars (c : ascii) : all_chars quoted_char (quote_char c) = true.
Proof. destruct c as [[] [] [] [] [] [] [] []]; by vm_compute. Qed.

Lemma quote_chars (s : string) : all_chars quoted_char (quote s) = true.
Proof.
  induction s as [|c r IH]; [done|].
  cbn [quote]. by rewrite all_chars_app, quote_char_chars, IH.
Qed.

Lemma quote_char_safe (c : ascii) :
  always_safe c = true → quote_char c = String c "".
Proof. destruct c as [[] [] [] [] [] [] [] []]; by vm_compute. Qed.

Lemma quote_safe (s : string) : all_chars always_safe s = true → quote s = s.
Proof.
  induction s as [|c r IH]; [done|]. cbn [all_chars quote].
  intros (Hc & Hr)%andb_prop. by rewrite (quote_char_safe _ Hc), (IH Hr).
Qed.

Lemma count_char_app (a : ascii) (s t : string) :
  count_char a (s +:+ t) = (count_char a s + count_char a t)%nat.
Proof.
  induction s as [|c r IH]; [done|].
  rewrite append_cons. cbn [count_char]. rewrite IH. lia.
Qed.

Lemma count_char_absent (f : ascii → bool) (a : ascii) (s : string) :
  f a = false → all_chars f s = true → count_char a s = 0%nat.
Proof.
  intros Ha. induction s as [|c r IH]; [done|]. cbn [all_chars count_char].
  intros (Hc & Hr)%andb_prop. rewrite (IH Hr).
  destruct (Ascii.eqb_spec a c) as [->|]; [congruence|done].
Qed.

(** X23.  The URL of the search is the fixed address, then the catalog
    number, escaped, between two escaped quotation marks, then the escaped
    restriction to lddb.com.  A number made of letters, digits and [_.-~]
    stands in it unchanged.  Every character other than letters, digits and
    [_.-~/%] occurs in the URL as often as it does for the empty number: no
    catalog number adds a parameter to the search or cuts it short. *)
Theorem google_search_url_is_escaped (catalog_number : string) :
  google_search_url catalog_number
  = "https://www.google.com/search?q=%22" +:+ quote catalog_number
    +:+ "%22%20site%3Alddb.com"
  ∧ (all_chars always_safe catalog_number = true →
     quote catalog_number = catalog_number)
  ∧ ∀ a, quoted_char a = false →
         count_char a (google_search_url catalog_number)
         = count_char a (google_search_url "").
Proof.
  assert (∀ c, google_search_url c
               = "https://www.google.com/search?q=%22" +:+ quote c
                 +:+ "%22%20site%3Alddb.com") as Hurl.
  { intros c. unfold google_search_url, search_query. by rewrite !quote_app. }
  split; [done|]. split; [apply quote_safe|].
  intros a Ha. rewrite !Hurl, !count_char_app.
  by rewrite !(count_char_absent quoted_char a (quote _) Ha (quote_chars _)).
Qed.

(** X24.  In the URL of the movie search the title is escaped: every
    character other than letters, digits and [_.-~/%] occurs in the URL as
    often as it does for the empty title, whatever the API key and the year
    are.  The year is part of the URL only when it is truthy. *)
Theorem search_url_escapes_the_title
    (w : env) (api_key title : string) (year : pyval) :
  (∀ a, quoted_char a = false →
        count_char a (search_url w api_key title year)
        = count_char a (search_url w api_key "" year))
  ∧ (truthy year = false →
     search_url w api_key title year
     = "https://api.themoviedb.org/3/search/movie?api_key=" +:+ api_key
       +:+ "&query=" +:+ quote title).
Proof.
  split.
  - intros a Ha. unfold search_url.
    change (count_char a
              ("https://api.themoviedb.org/3/search/movie?api_key="
               +:+ (api_key
               +:+ ("&query="
               +:+ (quote title +:+ (if truthy year then "&year=" +:+ fstring w year else "")))))
            = count_char a
              ("https://api.themoviedb.org/3/search/movie?api_key="
               +:+ (api_key
               +:+ ("&query="
               +:+ ("" +:+ (if truthy year then "&year=" +:+ fstring w year else "")))))).
    rewrite !count_char_app.
    by rewrite (count_char_absent quoted_char a (quote title) Ha (quote_chars _)).
  - intros Hy. unfold search_url. rewrite Hy.
    change ("https://api.themoviedb.org/3/search/movie?api_key="
            +:+ (api_key +:+ ("&query=" +:+ (quote title +:+ "")))
            = "https://api.themoviedb.org/3/search/movie?api_key="
              +:+ (api_key +:+ ("&query=" +:+ quote title))).
    by rewrite append_nil_r.
Qed.

(** ** The further properties at work on the example pages *)

Lemma extraction_failure_example :
  lookup_catalog fluid_env (PDict (request_for "1090-85"))
  = (not_extracted, [Locate (Py.strip "1090-85"); Extract alien_url]).
Proof.
  apply (extraction_failure_is_reported fluid_env (request_for "1090-85") "1090-85"
           alien_url);
    evaluate.
Defined.

Lemma record_without_enrichment_example :
  (lookup_catalog alien_env (PDict (request_for "1090-85"))).1
  = {| payload_of := Success alien_metadata (Py.strip "1090-85"); status_code := 200 |}.
Proof.
  apply (record_is_returned_without_enrichment alien_env (request_for "1090-85")
           "1090-85" alien_url alien_metadata);
    evaluate.
Defined.

Lemma year_example :
  match Py.search_year (markup alien_page) with
  | Some group1 =>
      ∃ y, Py.read_int group1 = Some y
           ∧ 0 ≤ y ≤ 9999
           ∧ alien_metadata !! "year" = Some (PInt y)
  | None => alien_metadata !! "year" = Some PNone
  end.
Proof.
  apply (year_is_read_off_the_markup alien_env alien_url alien_page alien_metadata);
    evaluate.
Defined.

Lemma runtime_example :
  alien_metadata !! "runtime" = Some PNone
  ∨ ∃ n, alien_metadata !! "runtime" = Some (PInt n) ∧ 0 ≤ n.
Proof.
  apply (runtime_is_never_negative alien_env alien_url alien_metadata); evaluate.
Defined.

Lemma extractor_record_example :
  dom alien_metadata = extractor_keys
  ∧ alien_metadata !! "format" = Some (PStr "LaserDisc")
  ∧ alien_metadata !! "sourceUrl" = Some (PStr alien_url).
Proof.
  apply (extractor_record_keys alien_env alien_url alien_metadata); evaluate.
Defined.

Lemma cover_url_example :
  alien_metadata !! "coverUrl" = Some PNone
  ∨ ∃ i src cover_url,
      i ∈ imgs alien_page
      ∧ img_src i = Some src
      ∧ alien_metadata !! "coverUrl" = Some (PStr cover_url)
      ∧ Py.startswith "http" cover_url = true
      ∧ (Py.startswith "/" src = true ∧ cover_url = "https://www.lddb.com" +:+ src
         ∨ Py.startswith "/" src = false ∧ cover_url = src).
Proof.
  apply (cover_url_comes_from_an_image alien_env alien_url alien_page alien_metadata);
    evaluate.
Defined.

(** The cover of the example page is site-relative and is given the
    address of the site. *)
Lemma cover_url_example_value :
  alien_metadata !! "coverUrl" = Some (PStr "https://www.lddb.com/covers/00731.jpg").
Proof. by vm_compute. Qed.

Lemma cast_example :
  ∃ names,
    alien_metadata !! "cast" = Some (PList (PStr <$> names))
    ∧ names = (λ a, Py.strip (a_text a))
              <$> take 5 (filter (λ a, is_person_link a = true) (anchors alien_page))
    ∧ (length names ≤ 5)%nat.
Proof.
  apply (cast_is_first_five_person_links alien_env alien_url alien_page alien_metadata);
    evaluate.
Defined.

Lemma stripped_fields_example :
  Forall (λ k, ∃ v, alien_metadata !! k = Some v ∧ stripped v = true) stripped_keys.
Proof.
  apply (text_fields_are_stripped alien_env alien_url alien_metadata); evaluate.
Defined.

Lemma foreign_redirect_example :
  first_link offline [("/url?q=" +:+ foreign_target +:+ "&" +:+ foreign_tail)]
  = Some foreign_target.
Proof.
  apply (redirect_target_may_leave_the_site offline foreign_target foreign_tail []);
    evaluate.
Defined.

(** The same link with nothing before its first [&] gives the empty
    string, which the endpoint takes for "not found". *)
Lemma empty_redirect_example :
  first_link offline [("/url?q=" +:+ "" +:+ "&" +:+ foreign_tail)] = Some "".
Proof. by vm_compute. Qed.

Lemma enrichment_keys_example :
  enrichment_keys ⊆ dom alien_enrichment
  ∧ dom alien_enrichment ⊆ enrichment_keys ∪ {["director"; "actors"]}
  ∧ truthy (PDict alien_enrichment) = true.
Proof.
  apply (enrichment_record_keys tmdb_env (PStr "Alien (1979)") (PInt 1979)
           alien_enrichment);
    evaluate.
Defined.

Lemma enrichment_shapes_example :
  (alien_enrichment !! "actors" = None
   ∨ ∃ names, alien_enrichment !! "actors" = Some (PList names)
              ∧ (1 ≤ length names ≤ 10)%nat)
  ∧ (alien_enrichment !! "director" = None
     ∨ ∃ director,
         alien_enrichment !! "director" = Some director ∧ truthy director = true)
  ∧ (alien_enrichment !! "posterUrl" = Some PNone
     ∨ ∃ poster_path,
         alien_enrichment !! "posterUrl"
         = Some (PStr ("https://image.tmdb.org/t/p/w500" +:+ poster_path)))
  ∧ ∃ names, alien_enrichment !! "genres" = Some (PList names).
Proof.
  apply (enrichment_field_shapes tmdb_env (PStr "Alien (1979)") (PInt 1979)
           alien_enrichment);
    evaluate.
Defined.

Lemma enrichment_result_example :
  ∃ key title_text search_data results best movie_id details,
    tmdb_api_key tmdb_env = Some key
    ∧ PStr "Alien (1979)" = PStr title_text
    ∧ tmdb_search tmdb_env key title_text
        (if truthy (PInt 1979) then Some (PInt 1979) else None)
      = inr (PDict search_data)
    ∧ search_data !! "results" = Some (PList results)
    ∧ PDict best ∈ results
    ∧ best !! "id" = Some movie_id
    ∧ tmdb_details tmdb_env key movie_id = inr details
    ∧ alien_enrichment !! "tmdbId" = Some movie_id.
Proof.
  apply (enrichment_identifies_a_search_result tmdb_env (PStr "Alien (1979)")
           (PInt 1979) alien_enrichment);
    evaluate.
Defined.

(** The second result has the year of the page, and its identifier is the
    one the record carries. *)
Lemma enrichment_result_example_value :
  alien_enrichment !! "tmdbId" = Some (PInt 348).
Proof. by vm_compute. Qed.

Lemma merged_enrichment_example :
  enrich tmdb_env alien_metadata
  = (merge alien_metadata alien_enrichment,
     [Enrich (dict_get alien_metadata "title" PNone)
             (dict_get alien_metadata "year" PNone)]).
Proof.
  apply (returned_enrichment_is_merged tmdb_env alien_metadata alien_enrichment);
    evaluate.
Defined.

Lemma enricher_arguments_example :
  ∃ (t : string) (y : Z),
    PStr "Unknown Title" = PStr t ∧ t ≠ "" ∧ Py.strip t = t
    ∧ PInt 1979 = PInt y ∧ 1 ≤ y ≤ 9999.
Proof.
  apply (enricher_arguments_are_well_formed
           (serving (inr (results_page alien_url)) (inr bare_page))
           (PDict (request_for "1090-85")) "1090-85" alien_url
           (PStr "Unknown Title") (PInt 1979)).
  evaluate.
Defined.

Lemma locator_example :
  search_lddb_catalog_number
    (serving (inr mixed_results_page) (inr alien_page)) "1090-85"
  = Some (if Py.startswith "/url?q="
               "/url?q=https://www.lddb.com/laserdisc/00731/1090-85/Alien&sa=U"
          then unquote (serving (inr mixed_results_page) (inr alien_page))
                 (Py.first_segment "&"
                    (Py.drop 7
                       "/url?q=https://www.lddb.com/laserdisc/00731/1090-85/Alien&sa=U"))
          else "/url?q=https://www.lddb.com/laserdisc/00731/1090-85/Alien&sa=U").
Proof.
  apply (locator_returns_first_usable_link
           (serving (inr mixed_results_page) (inr alien_page)) "1090-85"
           mixed_results_page
           [ "/search?q=1090-85&tbm=isch";
             "http://www.lddb.com/laserdisc/00731/1090-85/Alien" ]
           [ "https://www.lddb.com/laserdisc/09999/other" ]).
  - evaluate.
  - evaluate.
  - apply Forall_cons_2; [by left|].
    apply Forall_cons_2; [by right|]. apply Forall_nil_2.
  - evaluate.
  - left. split; evaluate.
Defined.

(** The link over plain [http] is passed over, and the redirect after it
    leads to the page of the example. *)
Lemma locator_example_value :
  search_lddb_catalog_number
    (serving (inr mixed_results_page) (inr alien_page)) "1090-85"
  = Some alien_url.
Proof. by vm_compute. Qed.

(** The request for the example page, with and without a metadata API: the
    stages called, and the keys of the data. *)
Lemma enriched_request_example :
  (lookup_catalog tmdb_env (PDict (request_for " 1090-85 "))).2
  = [Locate "1090-85"; Extract alien_url; Enrich (PStr "Alien (1979)") (PInt 1979)]
  ∧ (lookup_catalog tmdb_env (PDict (request_for " 1090-85 "))).1
    = {| payload_of := Success (merge alien_metadata alien_enrichment) "1090-85";
         status_code := 200 |}
  ∧ dom (merge alien_metadata alien_enrichment) = merge_adds ∪ extractor_keys
  ∧ (lookup_catalog alien_env (PDict (request_for " 1090-85 "))).2
    = [Locate "1090-85"; Extract alien_url; Enrich (PStr "Alien (1979)") (PInt 1979)]
  ∧ (lookup_catalog alien_env (PDict (request_for " 1090-85 "))).1
    = {| payload_of := Success alien_metadata "1090-85"; status_code := 200 |}.
Proof. repeat split; evaluate. Qed.

(** The status codes of five request bodies. *)
Lemma status_examples :
  status_of_body PNone = 500
  ∧ status_of_body (PDict ∅) = 400
  ∧ status_of_body (PDict {[ "catalog_number" := PInt 109085 ]}) = 500
  ∧ status_of_body (PDict (request_for "  ")) = 400
  ∧ status_of_body (PDict (request_for "1090-85")) = 200.
Proof. by vm_compute. Qed.

(** The page whose only image has the width "100%": the search for a cover
    raises and the extraction fails. *)
Lemma fluid_image_example :
  find_cover fluid_env fluid_image_page = inl ValueError
  ∧ unread_width fluid_env {| img_src := Some "/images/front.jpg";
                              img_width := Some "100%" |} = true
  ∧ scrape_lddb_metadata fluid_env alien_url = None.
Proof. by vm_compute. Qed.

(** A runtime of 5000 digits is more than the interpreter reads under its
    default limit of 4300: the extraction fails on it. *)
Lemma long_runtime_example :
  unread_runtime offline ("Runtime", Some (String.concat "" (replicate 5000 "1"))) = true
  ∧ unread_runtime offline ("Runtime", Some "117 minutes") = false.
Proof. by vm_compute. Qed.

(** The two URLs for plain and for hostile input. *)
Lemma url_examples :
  google_search_url "1090-85"
  = "https://www.google.com/search?q=%221090-85%22%20site%3Alddb.com"
  ∧ google_search_url "x&tbm=isch#"
    = "https://www.google.com/search?q=%22x%26tbm%3Disch%23%22%20site%3Alddb.com"
  ∧ search_url offline "0123456789abcdef" "Alien & Predator" PNone
    = "https://api.themoviedb.org/3/search/movie?api_key=0123456789abcdef"
      +:+ "&query=Alien%20%26%20Predator"
  ∧ search_url offline "0123456789abcdef" "Alien" (PInt 1979)
    = "https://api.themoviedb.org/3/search/movie?api_key=0123456789abcdef"
      +:+ "&query=Alien&year=1979".
Proof. by vm_compute. Qed.


(** A catalog number with a letter outside ASCII, under a standard output
    that takes ASCII only: line 230 raises, the answer is 500 and no stage
    is called, where the body alone gives 200.  Under a closed standard
    output the handler gives no answer. *)
Lemma unprintable_catalog_number_example :
  status_of_body (PDict (request_for ("PILF-" +:+ e_acute))) = 200
  ∧ lookup_catalog_io alien_env (silent_stages alien_env) ascii_console
      (PDict (request_for ("PILF-" +:+ e_acute)))
    = (Some {| payload_of := ErrorOf ValueError; status_code := 500 |}, [])
  ∧ lookup_catalog_io alien_env (silent_stages alien_env) closed_console
      (PDict (request_for "1090-85"))
    = (None, [])
  ∧ lookup_catalog_io alien_env (silent_stages alien_env) closed_console
      (PDict (request_for "  "))
    = (Some {| payload_of := ErrorText "Missing catalog number"; status_code := 400 |},
       []).
Proof. by vm_compute. Qed.


(** A title with a letter outside ASCII, under a standard output that takes
    ASCII only: the record is complete, line 146 raises and the Extractor
    returns [None].  Under a closed standard output the exception leaves
    it. *)
Lemma unprintable_title_example :
  (∃ metadata, scrape_lddb_metadata accented_env alien_url = Some metadata
               ∧ metadata !! "title" = Some (PStr ("Am" +:+ e_acute +:+ "lie")))
  ∧ scrape_lddb_metadata_io accented_env ascii_console alien_url = inr None
  ∧ scrape_lddb_metadata_io accented_env closed_console alien_url = inl ValueError.
Proof.
  split; [|by vm_compute].
  eexists. split; [by vm_compute|]. by vm_compute.
Qed.
